(** * Verification of the three album scrapers

    The repository holds three independent Python scripts:
    [sifang_crawler.py] (class [SifangCrawler]), [美图色色.py] (class
    [MeituSpider]) and [爬取ku1372的所有图集.py] (module-level functions).
    Each is embedded below as Rocq functions in one monad that threads the
    local file system and a logical request clock, logs the observable
    events, and propagates Python exceptions.

    Conventions of the embedding.
    - A Python [str] is held as its UTF-8 encoding; [len], slices and
      [str.strip] work on the characters that the bytes encode. A [bytes]
      value is held as it is.
    - The network is an oracle [net w t url]: the outcome of the call of
      [session.get] or [session.request] issued at logical time [t] (the
      number of calls issued before). The HTTP adapters that the scripts
      mount on their sessions (a [Retry] of 3 in 美图色色.py,
      [max_retries=3] in sifang_crawler.py) act inside one such call: what
      they do on the wire is part of the outcome of the call.
    - [time.sleep(random.uniform(a, b))] is logged as [EvSleep a b]: a
      sleep of some duration in the band, in seconds.
    - Thread pools are run one task after the other, in submission order.
    - Operations on the local disk themselves do not fail.
    - Loops without a structural bound take fuel; running out of fuel is
      the outcome [Fuel], which no handler catches. *)

From Stdlib Require Import ZArith Lia String Ascii List Bool.
From stdpp Require Import gmap strings list fin_maps.

Open Scope Z_scope.

(** ** Python string built-ins *)

Module Py.

(** [s.startswith(p)] *)
Definition startswith (s p : string) : bool := String.prefix p s.

(** [needle in hay] *)
Fixpoint str_in (needle hay : string) : bool :=
  String.prefix needle hay
  || match hay with
     | EmptyString => false
     | String _ t => str_in needle t
     end.

(** [s.endswith(suf)] *)
Definition endswith (s suf : string) : bool :=
  String.prefix (String.rev suf) (String.rev s).

Definition lower_ascii (c : ascii) : ascii :=
  let n := nat_of_ascii c in
  if (Nat.leb 65 n && Nat.leb n 90)%bool then ascii_of_nat (n + 32) else c.

(** [s.lower()]. The scripts only compare the result with ASCII text, or
    search ASCII text in it: the letters of ASCII are lowered, and so are
    the two characters outside ASCII whose lower case holds an ASCII
    letter, U+0130 (bytes 196 176, lowered to [i] and U+0307) and the Kelvin
    sign U+212A (bytes 226 132 170, lowered to [k]); the other characters,
    whose lower case lies outside ASCII as they do, are left as they are. *)
Fixpoint lower (s : string) : string :=
  match s with
  | EmptyString => EmptyString
  | String c1 t1 =>
      match t1 with
      | EmptyString => String (lower_ascii c1) EmptyString
      | String c2 t2 =>
          if (Nat.eqb (nat_of_ascii c1) 196 && Nat.eqb (nat_of_ascii c2) 176)%bool
          then String "i" (String (ascii_of_nat 204) (String (ascii_of_nat 135)
                 (lower t2)))
          else
            match t2 with
            | EmptyString => String (lower_ascii c1) (lower t1)
            | String c3 t3 =>
                if (Nat.eqb (nat_of_ascii c1) 226
                    && Nat.eqb (nat_of_ascii c2) 132
                    && Nat.eqb (nat_of_ascii c3) 170)%bool
                then String "k" (lower t3)
                else String (lower_ascii c1) (lower t1)
            end
      end
  end.

(** The white space of [str.isspace] that one byte encodes: U+0009 to
    U+000D and U+001C to U+0020. *)
Definition is_space (c : ascii) : bool :=
  let n := nat_of_ascii c in
  (Nat.leb 9 n && Nat.leb n 13 || Nat.leb 28 n && Nat.leb n 32)%bool.

(** In two bytes: U+0085 (194 133) and U+00A0 (194 160). *)
Definition is_space2 (c1 c2 : ascii) : bool :=
  (Nat.eqb (nat_of_ascii c1) 194
   && (Nat.eqb (nat_of_ascii c2) 133 || Nat.eqb (nat_of_ascii c2) 160))%bool.

(** In three bytes: U+1680 (225 154 128); U+2000 to U+200A, U+2028, U+2029
    and U+202F (226 128 and 128 to 138, 168, 169, 175); U+205F (226 129
    159); U+3000 (227 128 128). *)
Definition is_space3 (c1 c2 c3 : ascii) : bool :=
  let n1 := nat_of_ascii c1 in
  let n2 := nat_of_ascii c2 in
  let n3 := nat_of_ascii c3 in
  (Nat.eqb n1 225 && Nat.eqb n2 154 && Nat.eqb n3 128
   || Nat.eqb n1 226 && Nat.eqb n2 128
      && (Nat.leb 128 n3 && Nat.leb n3 138 || Nat.eqb n3 168
          || Nat.eqb n3 169 || Nat.eqb n3 175)
   || Nat.eqb n1 226 && Nat.eqb n2 129 && Nat.eqb n3 159
   || Nat.eqb n1 227 && Nat.eqb n2 128 && Nat.eqb n3 128)%bool.

(** [s.lstrip()]: the white space characters at the head are dropped. *)
Fixpoint lstrip (s : string) : string :=
  match s with
  | EmptyString => EmptyString
  | String c1 t1 =>
      if is_space c1 then lstrip t1
      else
        match t1 with
        | EmptyString => s
        | String c2 t2 =>
            if is_space2 c1 c2 then lstrip t2
            else
              match t2 with
              | EmptyString => s
              | String c3 t3 =>
                  if is_space3 c1 c2 c3 then lstrip t3 else s
              end
        end
  end.

(** The same from the end, on the string read backwards: the bytes of a
    character come last one first. *)
Fixpoint lstrip_backwards (s : string) : string :=
  match s with
  | EmptyString => EmptyString
  | String c1 t1 =>
      if is_space c1 then lstrip_backwards t1
      else
        match t1 with
        | EmptyString => s
        | String c2 t2 =>
            if is_space2 c2 c1 then lstrip_backwards t2
            else
              match t2 with
              | EmptyString => s
              | String c3 t3 =>
                  if is_space3 c3 c2 c1 then lstrip_backwards t3 else s
              end
        end
  end.

(** [s.rstrip()] *)
Definition rstrip (s : string) : string :=
  String.rev (lstrip_backwards (String.rev s)).

(** [s.strip()] *)
Definition strip (s : string) : string := rstrip (lstrip s).

(** A byte that continues a character: 10xxxxxx. *)
Definition is_continuation (c : ascii) : bool :=
  let n := nat_of_ascii c in
  (Nat.leb 128 n && Nat.ltb n 192)%bool.

(** [len(s)] of a [str]: the number of its characters, one for each byte
    that does not continue a character. *)
Fixpoint len (s : string) : nat :=
  match s with
  | EmptyString => O
  | String c t => if is_continuation c then len t else S (len t)
  end.

(** [s[:n]] of a [str]: its first [n] characters, each with the bytes that
    continue it. *)
Fixpoint take_chars (n : nat) (s : string) : string :=
  match s with
  | EmptyString => EmptyString
  | String c t =>
      if is_continuation c then String c (take_chars n t)
      else
        match n with
        | O => EmptyString
        | S n' => String c (take_chars n' t)
        end
  end.

(** [b[:n]] of a [bytes] value, and [f.read(n)] of a file opened in binary
    mode: the first [n] bytes *)
Definition take (n : nat) (s : string) : string := String.substring 0 n s.

(** [''.join(c for c in s if c not in bad)] *)
Fixpoint remove_chars (bad : string) (s : string) : string :=
  match s with
  | EmptyString => EmptyString
  | String c t =>
      if str_in (String c EmptyString) bad then remove_chars bad t
      else String c (remove_chars bad t)
  end.

(** [s.split(sep)] for a non-empty separator: [cur] holds the characters
    of the current piece, last one first. *)
Fixpoint split_go (sep : string) (cur : string) (s : string) (n : nat)
  : list string :=
  match n with
  | O => [String.rev cur]
  | S n' =>
      match s with
      | EmptyString => [String.rev cur]
      | String c t =>
          if String.prefix sep s
          then String.rev cur
               :: split_go sep EmptyString
                    (String.substring (String.length sep)
                       (String.length s - String.length sep) s) n'
          else split_go sep (String c cur) t n'
      end
  end.

Definition split (sep s : string) : list string :=
  split_go sep EmptyString s (S (String.length s)).

(** [l[-1]] of a non-empty list *)
Definition last_piece (l : list string) : string := List.last l EmptyString.

(** A string as a condition: the empty string is false. *)
Definition truthy (u : string) : option string :=
  if String.eqb u EmptyString then None else Some u.

(** The line feed *)
Definition nl : string := String (ascii_of_nat 10) EmptyString.

(** The double quote *)
Definition dquote : string := String (ascii_of_nat 34) EmptyString.

(** [x in l] for a list of strings *)
Definition mem (x : string) (l : list string) : bool :=
  bool_decide (x ∈ l).

Definition digit (n : nat) : ascii := ascii_of_nat (48 + n mod 10).

Fixpoint decimal_go (fuel n : nat) (acc : string) : string :=
  match fuel with
  | O => acc
  | S fuel' =>
      let acc' := String (digit n) acc in
      if Nat.eqb (n / 10) 0 then acc' else decimal_go fuel' (n / 10) acc'
  end.

(** [str(n)] *)
Definition decimal (n : nat) : string := decimal_go (S n) n EmptyString.

Fixpoint zeros (k : nat) : string :=
  match k with
  | O => EmptyString
  | S k' => String "0" (zeros k')
  end.

(** [f"{n:03d}"] *)
Definition format_03d (n : nat) : string :=
  let d := decimal n in
  String.append (zeros (3 - String.length d)) d.

End Py.

(** ** Effects: exceptions, events, state *)

(** The classes of failure of an HTTP request, as the handlers tell them
    apart. *)
Inductive fault :=
| FConnReset   (** [ConnectionError] whose text holds "10054" *)
| FConn        (** any other [requests.exceptions.ConnectionError] *)
| FRequest     (** any other [requests.RequestException], e.g. a timeout *)
| FOther.      (** an exception that is no [RequestException] *)

Inductive exn :=
| ValueError
| TypeError
| AttributeError
| NameError (name : string)
| EOFError
| HTTPError
| ZeroDivisionError
| UnboundLocalError (name : string)
| NetError (f : fault).

Definition exn_name (e : exn) : string :=
  match e with
  | ValueError => "ValueError"
  | TypeError => "TypeError"
  | AttributeError => "AttributeError"
  | NameError _ => "NameError"
  | EOFError => "EOFError"
  | HTTPError => "HTTPError"
  | ZeroDivisionError => "ZeroDivisionError"
  | UnboundLocalError _ => "UnboundLocalError"
  | NetError FConnReset | NetError FConn => "ConnectionError"
  | NetError FRequest => "RequestException"
  | NetError FOther => "Exception"
  end.

Definition is_request_exception (e : exn) : bool :=
  match e with
  | HTTPError => true
  | NetError FOther => false
  | NetError _ => true
  | _ => false
  end.

Definition is_connection_error (e : exn) : bool :=
  match e with
  | NetError FConnReset | NetError FConn => true
  | _ => false
  end.

Record response := {
  status : Z;
  final_url : string;                (** [response.url] *)
  content_type : option string;      (** header [Content-Type] *)
  content_length : option Z;         (** header [content-length] *)
  body : string;                     (** bytes delivered by the server *)
  broken : option fault              (** the body stream breaks after [body] *)
}.

Inductive net_outcome :=
| NetResp (r : response)
| NetFail (f : fault).

Record world := {
  net : nat -> string -> net_outcome;
  operator : nat -> option string
    (** [input()]: the line the operator types, or [None] when stdin is closed *)
}.

Inductive event :=
| EvRequest (url : string)
| EvSleep (lo hi : Z)
| EvPrompt
| EvWrite (path : string)
| EvUnlink (path : string)
| EvReplace (src dst : string)
| EvDecode (path : string)
| EvAppend (path : string) (line : string)
| EvSaveCookies.

Inductive outcome (A : Type) :=
| Ret (a : A)
| Exc (e : exn)
| Fuel.
Arguments Ret {A} a.
Arguments Exc {A} e.
Arguments Fuel {A}.

(** The state of a run: the local disk, the number of requests issued, the
    number of prompts answered, and the fields of the script's object. *)
Record state (O : Type) := {
  fs : gmap string string;
  clock : nat;
  prompts : nat;
  obj : O
}.
Arguments fs {O} s.
Arguments clock {O} s.
Arguments prompts {O} s.
Arguments obj {O} s.
Arguments Build_state {O} fs clock prompts obj.

Definition M (O A : Type) : Type := state O -> outcome A * state O * list event.

Section Monad.
Context {O : Type}.

Definition ret {A} (a : A) : M O A := fun s => (Ret a, s, []).

Definition bind {A B} (m : M O A) (k : A -> M O B) : M O B :=
  fun s =>
    match m s with
    | (Ret a, s1, e1) =>
        match k a s1 with
        | (r, s2, e2) => (r, s2, e1 ++ e2)
        end
    | (Exc e, s1, e1) => (Exc e, s1, e1)
    | (Fuel, s1, e1) => (Fuel, s1, e1)
    end.

Definition raise {A} (e : exn) : M O A := fun s => (Exc e, s, []).

Definition out_of_fuel {A} : M O A := fun s => (Fuel, s, []).

(** [try: m  except <sel>: h] *)
Definition catch {A} (sel : exn -> bool) (m : M O A) (h : exn -> M O A) : M O A :=
  fun s =>
    match m s with
    | (Exc e, s1, e1) =>
        if sel e
        then match h e s1 with
             | (r, s2, e2) => (r, s2, e1 ++ e2)
             end
        else (Exc e, s1, e1)
    | other => other
    end.

Definition emit (e : event) : M O unit := fun s => (Ret tt, s, [e]).

Definition sleep (lo hi : Z) : M O unit := emit (EvSleep lo hi).

Definition get_obj : M O O := fun s => (Ret (obj s), s, []).

Definition modify_obj (f : O -> O) : M O unit :=
  fun s => (Ret tt, Build_state (fs s) (clock s) (prompts s) (f (obj s)), []).

Definition get_fs : M O (gmap string string) := fun s => (Ret (fs s), s, []).

Definition set_fs (f : gmap string string) : M O unit :=
  fun s => (Ret tt, Build_state f (clock s) (prompts s) (obj s), []).

(** One call of [session.get]/[session.request] with [stream=True]: the
    headers are in, the body is still to be read. *)
Definition request (w : world) (url : string) : M O net_outcome :=
  fun s =>
    (Ret (net w (clock s) url),
     Build_state (fs s) (S (clock s)) (prompts s) (obj s),
     [EvRequest url]).

(** [input()] *)
Definition input (w : world) : M O string :=
  fun s =>
    (match operator w (prompts s) with
     | Some line => Ret line
     | None => Exc EOFError
     end,
     Build_state (fs s) (clock s) (S (prompts s)) (obj s),
     [EvPrompt]).

(** [open(path, 'wb')] and the writes up to the close *)
Definition write_file (path content : string) : M O unit :=
  fun s =>
    (Ret tt,
     Build_state (<[path := content]> (fs s)) (clock s) (prompts s) (obj s),
     [EvWrite path]).

(** [os.unlink], [os.remove] *)
Definition unlink (path : string) : M O unit :=
  fun s =>
    (Ret tt,
     Build_state (delete path (fs s)) (clock s) (prompts s) (obj s),
     [EvUnlink path]).

(** [os.replace(src, dst)], called on a [src] that was just written *)
Definition replace (src dst : string) : M O unit :=
  fun s =>
    (Ret tt,
     Build_state
       (match fs s !! src with
        | Some c => <[dst := c]> (delete src (fs s))
        | None => fs s
        end)
       (clock s) (prompts s) (obj s),
     [EvReplace src dst]).

End Monad.

Declare Scope py_scope.
Delimit Scope py_scope with py.
Notation "'let*' x ':=' m 'in' k" := (bind m (fun x => k))
  (at level 10, x name, m at level 100, k at level 200, only parsing) : py_scope.
Notation "'let*' ' pat ':=' m 'in' k" :=
  (bind m (fun x => match x with pat => k end))
  (at level 10, pat pattern, m at level 100, k at level 200, only parsing) : py_scope.
Notation "m ;;; k" := (bind m (fun _ => k))
  (at level 100, k at level 200, only parsing, right associativity) : py_scope.
Open Scope py_scope.

Definition any_exception (e : exn) : bool := true.

(** A call without [stream=True] reads the whole body at once: a stream that
    breaks fails the call itself. *)
Definition eager (o : net_outcome) : net_outcome :=
  match o with
  | NetResp r => match broken r with Some f => NetFail f | None => o end
  | NetFail _ => o
  end.

(** [response.raise_for_status()] *)
Definition status_is_error (r : response) : bool :=
  (400 <=? status r) && (status r <? 600).

(** ** 美图色色.py *)

Module Meitu.

(** A parsed page, seen through the selectors the spider uses. *)
Record page := {
  album_elements : list (option string * option string);
    (** of each [.videos-list-wrap .video-item-col]: its [href] and the
        text of its [.video-desc-content], where present *)
  next_href : option string;
    (** [href] of [.mo-paging .paging-item--next] *)
  book_pages : option (option string)
    (** the [#book-pages] element: its [data-screenshots] attribute *)
}.

Record lib := {
  soup : string -> page;           (** [BeautifulSoup(text, "html.parser")] *)
  path_join : string -> string -> string;
  pil_ok : string -> bool          (** [Image.open] and [verify()] succeed *)
}.

Record spider := {
  save_path : string;
  verify : bool;
  page_sleep : Z;
  failed_images : list (string * string);
  failed_albums : list (string * string)
}.

Definition add_failed_image (img_url save_path : string) (o : spider) : spider :=
  {| save_path := o.(Meitu.save_path); verify := verify o;
     page_sleep := page_sleep o;
     failed_images := failed_images o ++ [(img_url, save_path)];
     failed_albums := failed_albums o |}.

Definition add_failed_album (album_info : string * string) (o : spider) : spider :=
  {| save_path := o.(Meitu.save_path); verify := verify o;
     page_sleep := page_sleep o;
     failed_images := failed_images o;
     failed_albums := failed_albums o ++ [album_info] |}.

Definition base_url : string := "https://xn--drdgbhrb-xx6n10qjm3s.tljkd-01.sbs".

(** The argument [album_info] of [_download_album]: a pair of title and
    URL, or whatever else the caller passes. *)
Inductive album_arg :=
| Info (album_title album_url : string)
| NotInfo (b : bool).

Section Spider.
Context (L : lib) (w : world).

(** What [try: session.get(...); raise_for_status()] leaves: the
    response, or [None] when the [except Exception] clause ran. *)
Definition attempt_ok (o : net_outcome) : option response :=
  match eager o with
  | NetResp r => if status_is_error r then None else Some r
  | NetFail _ => None
  end.

(** [_get_response]: the body of [for i in range(retries)], with [n] the
    iterations left and [i = retries - n]. *)
Fixpoint get_response_loop (url : string) (retries : nat) (n : nat)
  : M spider (option response) :=
  match n with
  | O => ret None
  | S n' =>
      let* o := request w url in
      match attempt_ok o with
      | Some r => sleep 4 8 ;;; ret (Some r)
      | None =>
          if Nat.ltb (retries - n) (retries - 1)
          then sleep 4 8 ;;; get_response_loop url retries n'
          else ret None
      end
  end.

Definition _get_response (url : string) (retries : nat)
  : M spider (option response) :=
  get_response_loop url retries retries.

(** One element of the album list: [None] when it is skipped, or when
    [.text] of a missing description raises and the inner handler logs. *)
Definition parse_album_element (el : option string * option string)
  : option (string * string) :=
  match el with
  | (_, None) => None
  | (None, Some _) => None
  | (Some album_url, Some desc) =>
      let album_title := Py.strip desc in
      if negb (String.eqb album_url EmptyString)
         && negb (String.eqb album_title EmptyString)
      then Some (album_title, String.append base_url album_url)
      else None
  end.

(** [_parse_albums] *)
Definition _parse_albums (url : string)
  : M spider (list (string * string) * option string) :=
  let* response := _get_response url 5 in
  match response with
  | None => ret ([], None)
  | Some r =>
      let pg := soup L (body r) in
      let albums := omap parse_album_element (album_elements pg) in
      let next_page :=
        match next_href pg with
        | Some h =>
            if String.eqb h EmptyString then None
            else Some (String.append base_url h)
        | None => None
        end in
      ret (albums, next_page)
  end.

(** [response.text], of what [_get_response] returned *)
Definition text_of (response : option response) : M spider string :=
  match response with
  | Some r => ret (body r)
  | None => raise AttributeError
  end.

(** The loop over [screenshots.split("#$")] *)
Definition images_of (screenshots : string) : list string :=
  foldl (fun images piece =>
           let img_url := Py.strip piece in
           if String.eqb img_url EmptyString then images
           else if Py.startswith img_url "$"
                then images ++ [String.substring 1 (String.length img_url - 1) img_url]
                else images ++ [img_url])
        [] (Py.split "#$" screenshots).

(** [_parse_album_images] *)
Definition _parse_album_images (album_url : string) : M spider (list string) :=
  let* response := _get_response album_url 5 in
  let* text := text_of response in
  match book_pages (soup L text) with
  | None => ret []
  | Some attr =>
      let screenshots := default EmptyString attr in
      if String.eqb screenshots EmptyString then ret []
      else ret (images_of screenshots)
  end.

(** [_validate_image] *)
Definition _validate_image (image_path : string) : M spider bool :=
  emit (EvDecode image_path) ;;;
  let* f := get_fs in
  ret (match f !! image_path with
       | Some c => pil_ok L c
       | None => false
       end).

(** [_download_image] *)
Definition _download_image (img_url save_path : string) : M spider bool :=
  let* f := get_fs in
  match f !! save_path with
  | Some _ => ret true
  | None =>
      let* response := _get_response img_url 5 in
      match response with
      | None =>
          modify_obj (add_failed_image img_url save_path) ;;; ret false
      | Some r =>
          if negb (Py.startswith (default EmptyString (content_type r)) "image/")
          then modify_obj (add_failed_image img_url save_path) ;;; ret false
          else
            let temp_path := String.append save_path ".tmp" in
            write_file temp_path (body r) ;;;
            let* o := get_obj in
            let* valid :=
              if verify o then _validate_image temp_path else ret true in
            if negb valid then
              unlink temp_path ;;;
              modify_obj (add_failed_image img_url save_path) ;;;
              ret false
            else
              replace temp_path save_path ;;; ret true
      end
  end.

(** The image tasks of [_download_album]; [img_index] counts from 0. A
    task that raises is logged by the caller and counted as a failure. *)
Fixpoint download_images (album_dir : string) (img_index : nat)
    (images : list string) : M spider nat :=
  match images with
  | [] => ret O
  | img_url :: rest =>
      let img_name := String.append (Py.format_03d (img_index + 1)) ".jpg" in
      let img_path := path_join L album_dir img_name in
      let* result :=
        catch any_exception (_download_image img_url img_path)
          (fun _ => ret false) in
      let* failures := download_images album_dir (S img_index) rest in
      ret ((if result then 0 else 1) + failures)%nat
  end.

(** [_download_album] *)
Definition _download_album (album_info : album_arg) : M spider bool :=
  match album_info with
  | NotInfo _ => raise TypeError
  | Info album_title album_url =>
      let safe_title :=
        Py.take_chars 50
          (Py.remove_chars
             (String.append "<>" (String.append Py.dquote "/\|?*"))
             album_title) in
      let* o := get_obj in
      let album_dir := path_join L (o.(Meitu.save_path)) safe_title in
      let* images := _parse_album_images album_url in
      match images with
      | [] =>
          modify_obj (add_failed_album (album_title, album_url)) ;;;
          ret false
      | _ =>
          let* _ := download_images album_dir 0 images in
          ret true
      end
  end.

(** The listing loop of [run]: [processed_urls] and [total_pages] are the
    variables of the source. *)
Fixpoint list_pages (fuel : nat) (current_url : option string)
    (processed_urls : gset string) (total_pages : nat)
    (all_albums : list (string * string))
  : M spider (list (string * string) * gset string * nat) :=
  match current_url with
  | None => ret (all_albums, processed_urls, total_pages)
  | Some cur =>
      if bool_decide (cur ∈ processed_urls)
      then ret (all_albums, processed_urls, total_pages)
      else
        match fuel with
        | O => out_of_fuel
        | S fuel' =>
            let processed' := {[cur]} ∪ processed_urls in
            let* ' (albums, next_page) := _parse_albums cur in
            let all' := all_albums ++ albums in
            match next_page with
            | Some n =>
                if negb (bool_decide (n ∈ processed')) then
                  let* o := get_obj in
                  sleep (page_sleep o) (page_sleep o) ;;;
                  list_pages fuel' (Some n) processed' (S total_pages) all'
                else ret (all', processed', S total_pages)
            | None => ret (all', processed', S total_pages)
            end
        end
  end.

(** The first pool of [run]: the local list [failed_albums] receives the
    result of every task that returned [False]; a task that raised is
    logged. *)
Fixpoint first_pass (albums : list (string * string)) (failed : list bool)
  : M spider (list bool) :=
  match albums with
  | [] => ret failed
  | (album_title, album_url) :: rest =>
      let* failed' :=
        catch any_exception
          (let* result := _download_album (Info album_title album_url) in
           ret (if result then failed else failed ++ [result]))
          (fun _ => ret failed) in
      first_pass rest failed'
  end.

(** The second pool of [run], over the local list. *)
Fixpoint second_pass (failed : list bool) : M spider unit :=
  match failed with
  | [] => ret tt
  | album_info :: rest =>
      let* _ := catch any_exception (_download_album (NotInfo album_info))
                  (fun _ => ret false) in
      second_pass rest
  end.

(** [_retry_failed_albums]: the [for] runs over [self.failed_albums]
    while the calls append to it. *)
Fixpoint retry_failed_albums (fuel : nat) (index : nat) : M spider unit :=
  match fuel with
  | O => out_of_fuel
  | S fuel' =>
      let* o := get_obj in
      match failed_albums o !! index with
      | None => ret tt
      | Some (album_title, album_url) =>
          let* _ := _download_album (Info album_title album_url) in
          retry_failed_albums fuel' (S index)
      end
  end.

(** [_retry_failed_images], likewise over [self.failed_images]. *)
Fixpoint retry_failed_images (fuel : nat) (index : nat) : M spider unit :=
  match fuel with
  | O => out_of_fuel
  | S fuel' =>
      let* o := get_obj in
      match failed_images o !! index with
      | None => ret tt
      | Some (img_url, save_path) =>
          let* _ := _download_image img_url save_path in
          retry_failed_images fuel' (S index)
      end
  end.

(** [run] *)
Definition run (fuel : nat) : M spider unit :=
  let* ' (all_albums, _, _) :=
    list_pages fuel (Some "https://xn--drdgbhrb-xx6n10qjm3s.tljkd-01.sbs/t/13/")
      ∅ 0 [] in
  let* failed := first_pass all_albums [] in
  second_pass failed ;;;
  match all_albums with
  | [] => raise ZeroDivisionError
  | _ => ret tt
  end ;;;
  let* o := get_obj in
  match failed_albums o, failed_images o with
  | [], [] => ret tt
  | _, _ =>
      let* line := input w in
      let retry_input := Py.lower (Py.strip line) in
      if String.eqb retry_input "y" || String.eqb retry_input EmptyString then
        match failed_albums o with
        | [] => ret tt
        | _ => retry_failed_albums fuel 0
        end ;;;
        let* o' := get_obj in
        match failed_images o' with
        | [] => ret tt
        | _ => retry_failed_images fuel 0
        end
      else ret tt
  end.

End Spider.

End Meitu.

(** ** sifang_crawler.py *)

Module Sifang.

(** What the code reads off an anchor [a] of [soup.find_all('a', href=True)]. *)
Record anchor := {
  a_href : string;     (** [a.get('href')] *)
  a_str : string       (** [str(a)], the markup of the tag *)
}.

(** What the code reads off a tag of [find_all('img', src=True)]. *)
Record img := {
  src : string;
  style : option string;
  width : option string;
  height : option string;
  parent_hrefs : list string   (** [href] of the enclosing [<a href>] tags *)
}.

(** A parsed page, seen through the queries the crawler makes. *)
Record page := {
  title : option string;          (** [soup.title.text] *)
  anchors : list anchor;          (** [soup.find_all('a', href=True)] *)
  article : option (list img);    (** images of the article content region *)
  imgs : list img;                (** [soup.find_all('img', src=True)] *)
  recommend_srcs : list string    (** [src] of the images in recommend containers *)
}.

(** The library functions the crawler calls. *)
Record lib := {
  urljoin : string -> string -> string;
  query_page : string -> option string;
    (** first value of [parse_qs(urlparse(u).query).get('page')] *)
  parse_int : string -> option Z;          (** [int(s)]; [None] is [ValueError] *)
  with_page : string -> Z -> string;
    (** scheme, netloc and path of the URL with its query, [page] replaced *)
  url_ext : string -> string;
    (** [os.path.splitext(urlparse(u).path)[1]] *)
  path_join : string -> string -> string;  (** [os.path.join] *)
  pil_ok : string -> bool;
    (** [Image.open], [verify()] and [load()] succeed on these bytes *)
  soup : string -> page                    (** [BeautifulSoup(text, 'html.parser')] *)
}.

Record failed_image := {
  fi_url : string;
  fi_save_path : string;
  fi_album_url : string;
  fi_album_name : string
}.

Record crawler := {
  verify : bool;
  save_path : string;
  completed_albums : gset string;
  completed_file : list string;      (** the lines of completed_albums.txt *)
  total_albums : nat;                (** [stats['total_albums']] *)
  downloaded_albums : nat;
  total_images : nat;
  downloaded_images : nat;
  failed_albums : list (string * exn);
  failed_images : list failed_image
}.

Definition set_completed (c : gset string) (f : list string) (o : crawler) : crawler :=
  {| verify := verify o; save_path := save_path o;
     completed_albums := c; completed_file := f;
     total_albums := total_albums o; downloaded_albums := downloaded_albums o;
     total_images := total_images o; downloaded_images := downloaded_images o;
     failed_albums := failed_albums o; failed_images := failed_images o |}.

Definition set_stats (ta da ti di : nat) (o : crawler) : crawler :=
  {| verify := verify o; save_path := save_path o;
     completed_albums := completed_albums o; completed_file := completed_file o;
     total_albums := ta; downloaded_albums := da;
     total_images := ti; downloaded_images := di;
     failed_albums := failed_albums o; failed_images := failed_images o |}.

Definition set_failed (fa : list (string * exn)) (fi : list failed_image)
    (o : crawler) : crawler :=
  {| verify := verify o; save_path := save_path o;
     completed_albums := completed_albums o; completed_file := completed_file o;
     total_albums := total_albums o; downloaded_albums := downloaded_albums o;
     total_images := total_images o; downloaded_images := downloaded_images o;
     failed_albums := fa; failed_images := fi |}.

(** [load_completed_albums], from the lines of the file *)
Definition load_completed_albums (lines : list string) : gset string :=
  list_to_set (Py.strip <$> lines).

(** [save_completed_album] *)
Definition save_completed_album (album_url : string) : M crawler unit :=
  let* o := get_obj in
  if bool_decide (album_url ∈ completed_albums o) then ret tt
  else
    modify_obj (set_completed ({[album_url]} ∪ completed_albums o)
                  (completed_file o ++ [album_url])) ;;;
    emit (EvAppend "completed_albums.txt" album_url).

Definition save_cookies : M crawler unit := emit EvSaveCookies.

(** The band of [min(base_delay * 2 ** (retries - 1) + uniform(0, 2), max_delay)]. *)
Definition backoff_lo (retries : nat) : Z :=
  Z.min (6 * 2 ^ (Z.of_nat retries - 1)) 45.
Definition backoff_hi (retries : nat) : Z :=
  Z.min (6 * 2 ^ (Z.of_nat retries - 1) + 2) 45.

Section Fetch.
Context (w : world).

(** [retry_request]: one unit of fuel per iteration of the [while]. *)
Fixpoint retry_request_loop (fuel : nat) (url : string)
    (max_retries retries : nat) : M crawler (option response) :=
  if Nat.ltb retries max_retries then
    match fuel with
    | O => out_of_fuel
    | S fuel' =>
        let on_request_exception (reset : bool) : M crawler (option response) :=
          (if reset then sleep 20 40 else ret tt) ;;;
          let retries' := S retries in
          if Nat.leb max_retries retries'
          then input w ;;; retry_request_loop fuel' url max_retries 0
          else sleep (backoff_lo retries') (backoff_hi retries') ;;;
               retry_request_loop fuel' url max_retries retries' in
        sleep 2 5 ;;;
        let* o := request w url in
        match eager o with
        | NetResp r =>
            if status r =? 443
            then sleep 15 30 ;;;
                 retry_request_loop fuel' url max_retries (S retries)
            else if status_is_error r then on_request_exception false
            else if negb (Py.str_in "sifang.lat" (final_url r)) then ret None
            else sleep 1 3 ;;; ret (Some r)
        | NetFail FConnReset => on_request_exception true
        | NetFail FOther => raise (NetError FOther)
        | NetFail _ => on_request_exception false
        end
    end
  else ret None.

Definition retry_request (fuel : nat) (url : string)
  : M crawler (option response) :=
  retry_request_loop fuel url 5 0.

End Fetch.

Inductive next_page :=
| NoNext
| ExplicitLink (url : string)
| SynthLink (url : string).

Definition arrow_patterns : list string :=
  ["→"; "›"; "»"; "下一页"; "Next"; "next"; "more"].

Definition obvious_ad_keywords : list string :=
  ["ad/"; "ads/"; "advertisement/"; "banner/"; "doubleclick.net";
   "googlesyndication.com"; "adserver."; "affiliate."; "tracking."].

Definition img_extensions : list string :=
  [".jpg"; ".jpeg"; ".png"; ".gif"; ".webp"; ".bmp"].

Section Parse.
Context (L : lib).

(** [is_image_corrupted] *)
Definition is_image_corrupted (img_path : string) : M crawler bool :=
  emit (EvDecode img_path) ;;;
  let* f := get_fs in
  ret (match f !! img_path with
       | Some c => negb (pil_ok L c)
       | None => true
       end).

(** [get_album_list] *)
Definition get_album_list (page_url : string) (pg : page) : list string :=
  foldl (fun album_links a =>
           if Py.str_in "/albums/" (a_href a) then
             let full_url := urljoin L page_url (a_href a) in
             if Py.mem full_url album_links then album_links
             else album_links ++ [full_url]
           else album_links)
        [] (anchors pg).

Definition is_arrow (a : anchor) : bool :=
  existsb (fun pattern => Py.str_in pattern (a_str a)) arrow_patterns.

(** [int(parse_qs(urlparse(u).query).get('page', [d])[0])] *)
Definition page_number (u d : string) : option Z :=
  parse_int L (default d (query_page L u)).

Definition is_page_successor (current_page : Z) (a : anchor) : bool :=
  Py.str_in "page=" (a_href a)
  && match page_number (a_href a) "0" with
     | Some page_num => page_num =? current_page + 1
     | None => false
     end.

(** Steps 1 and 2 of [get_next_page], shared with [get_album_images]:
    the arrow button, else the link to the page after the current one. *)
Definition find_next_button (page_url : string) (pg : page)
  : exn + option anchor :=
  match List.find is_arrow (anchors pg) with
  | Some a => inr (Some a)
  | None =>
      match page_number page_url "1" with
      | None => inl ValueError
      | Some current_page =>
          inr (List.find (is_page_successor current_page) (anchors pg))
      end
  end.

Definition max_page_of (current_page : Z) (pg : page) : Z :=
  foldl (fun max_page a =>
           if Py.str_in "page=" (a_href a) then
             match page_number (a_href a) "0" with
             | Some page_num =>
                 if max_page <? page_num then page_num else max_page
             | None => max_page
             end
           else max_page)
        current_page (anchors pg).

(** [get_next_page] on a parsed page, with the return site it leaves by. *)
Definition resolve_next (page_url : string) (pg : page) : exn + next_page :=
  match find_next_button page_url pg with
  | inl e => inl e
  | inr (Some next_button) =>
      let next_url := urljoin L page_url (a_href next_button) in
      if Py.str_in "sifang.lat" next_url then inr (ExplicitLink next_url)
      else inr NoNext
  | inr None =>
      match page_number page_url "1" with
      | None => inl ValueError
      | Some current_page =>
          let max_page := max_page_of current_page pg in
          let next_page := current_page + 1 in
          if next_page <=? max_page
          then inr (SynthLink (with_page L page_url next_page))
          else inr NoNext
      end
  end.

Definition next_url_of (n : next_page) : option string :=
  match n with
  | NoNext => None
  | ExplicitLink u | SynthLink u => Some u
  end.

(** [get_next_page] *)
Definition get_next_page (page_url : string) (soup : option page)
  : M crawler (option string) :=
  match soup with
  | None => ret None
  | Some pg =>
      match resolve_next page_url pg with
      | inl e => raise e
      | inr n => ret (next_url_of n)
      end
  end.

End Parse.

Section Album.
Context (L : lib) (w : world).

(** The album name of [get_album_images], from the first page. *)
Definition album_name_of (album_url : string) (pg : page) : string :=
  let name0 :=
    match title pg with
    | Some t => Py.strip t
    | None => String.append "album_" (Py.last_piece (Py.split "/" album_url))
    end in
  let name1 :=
    if Py.str_in " | " name0 then hd EmptyString (Py.split " | " name0)
    else name0 in
  Py.take_chars 50 (Py.strip (Py.remove_chars "<>:/\|?*" name1)).

Definition normalize_src (current_url s : string) : string :=
  if Py.startswith s "//" then String.append "https:" s
  else if Py.startswith s "/" then urljoin L current_url s
  else s.

Definition is_hidden (i : img) : bool :=
  match style i with
  | Some st =>
      let st := Py.lower st in
      Py.str_in "opacity:0" st || Py.str_in "visibility:hidden" st
      || Py.str_in "display:none" st
  | None => false
  end.

Definition too_small (i : img) : bool :=
  match width i, height i with
  | Some wd, Some ht =>
      match parse_int L wd, parse_int L ht with
      | Some a, Some b => (a <? 100) || (b <? 100)
      | _, _ => false
      end
  | _, _ => false
  end.

(** An enclosing link points at another album. *)
Definition in_other_album_link (current_url : string) (i : img) : bool :=
  existsb (fun parent_href =>
             Py.str_in "/albums/" parent_href
             && negb (String.eqb parent_href current_url))
          (parent_hrefs i).

Definition has_img_extension (s : string) : bool :=
  existsb (fun ext => Py.endswith (Py.lower s) ext) img_extensions.

Definition third_party_host (s : string) : bool :=
  Py.str_in "wp.com" s || Py.str_in "imgbox.com" s
  || Py.str_in "imgur.com" s || Py.str_in "pixhost.to" s.

(** The strict filter: the URL this tag offers for the page list, if any. *)
Definition strict_candidate (pg : page) (current_url : string) (i : img)
  : option string :=
  if String.eqb (src i) EmptyString then None else
  let s := normalize_src current_url (src i) in
  if existsb (fun k => Py.str_in k (Py.lower s)) obvious_ad_keywords then None
  else if is_hidden i then None
  else if too_small i then None
  else if in_other_album_link current_url i then None
  else if Py.mem s (recommend_srcs pg) then None
  else if has_img_extension s then
    if third_party_host s then Some s
    else if Py.str_in "sifang.lat" s then
      match article pg with
      | Some content => if Py.mem s (src <$> content) then Some s else None
      | None => None
      end
    else Some s
  else None.

(** The relaxed filter of the second pass. *)
Definition relaxed_candidate (current_url : string) (i : img)
  : option string :=
  if String.eqb (src i) EmptyString then None else
  let s := normalize_src current_url (src i) in
  if negb (Py.str_in "ad." (Py.lower s))
     && negb (Py.str_in "ads." (Py.lower s))
     && negb (Py.str_in "advertisement" (Py.lower s))
  then
    if negb (in_other_album_link current_url i) then
      if has_img_extension s then Some s else None
    else None
  else None.

(** [if src not in page_images and src not in all_image_links:
       page_images.append(src)] *)
Definition add_unique (all_image_links page_images : list string)
    (s : string) : list string :=
  if negb (Py.mem s page_images) && negb (Py.mem s all_image_links)
  then page_images ++ [s]
  else page_images.

Definition collect (all_image_links : list string)
    (cand : img -> option string) (img_tags : list img) : list string :=
  foldl (fun page_images i =>
           match cand i with
           | Some s => add_unique all_image_links page_images s
           | None => page_images
           end)
        [] img_tags.

Definition img_tags_of (pg : page) : list img :=
  match article pg with
  | Some content => content
  | None => imgs pg
  end.

(** The images one album page adds to [all_image_links]. *)
Definition page_images_of (pg : page) (current_url : string)
    (all_image_links : list string) : list string :=
  let img_tags := img_tags_of pg in
  let page_images :=
    collect all_image_links (strict_candidate pg current_url) img_tags in
  match page_images, img_tags with
  | [], _ :: _ =>
      collect all_image_links (relaxed_candidate current_url) img_tags
  | _, _ => page_images
  end.

Definition is_empty_name (album_name : option string) : bool :=
  match album_name with
  | None => true
  | Some n => String.eqb n EmptyString
  end.

Definition lift_sum {A} (r : exn + A) : M crawler A :=
  match r with
  | inl e => raise e
  | inr a => ret a
  end.

(** The [while current_url] loop of [get_album_images]. *)
Fixpoint album_pages_loop (fuel : nat) (album_url : string)
    (current_url : option string) (album_name : option string)
    (all_image_links : list string)
  : M crawler (option string * list string) :=
  match current_url with
  | None => ret (album_name, all_image_links)
  | Some cur =>
      match fuel with
      | O => out_of_fuel
      | S fuel' =>
          let* response := retry_request w fuel' cur in
          match response with
          | None => ret (album_name, all_image_links)
          | Some r =>
              let pg := soup L (body r) in
              let album_name' :=
                if is_empty_name album_name
                then Some (album_name_of album_url pg)
                else album_name in
              let* next_page_button := lift_sum (find_next_button L cur pg) in
              let all' := all_image_links
                          ++ page_images_of pg cur all_image_links in
              let next :=
                match next_page_button with
                | Some a =>
                    let next_url := urljoin L album_url (a_href a) in
                    if Py.str_in "sifang.lat" next_url
                       && Py.str_in "/albums/" next_url
                    then Py.truthy next_url
                    else None
                | None => None
                end in
              match next with
              | Some _ => sleep 2 4
              | None => ret tt
              end ;;;
              album_pages_loop fuel' album_url next album_name' all'
          end
      end
  end.

(** [get_album_images] *)
Definition get_album_images (fuel : nat) (album_url : string)
  : M crawler (option string * list string) :=
  sleep 3 6 ;;;
  album_pages_loop fuel album_url (Py.truthy album_url) None [].

End Album.

Section Download.
Context (L : lib) (w : world).

Definition temp_path_of (save_path : string) : string :=
  String.append save_path ".tmp".

Definition bump_downloaded_images (o : crawler) : crawler :=
  set_stats (total_albums o) (downloaded_albums o) (total_images o)
    (S (downloaded_images o)) o.

(** The sleep of the [except] clause that catches the fault, in attempt
    [retry]. *)
Definition after_fault (f : fault) (retry : nat) : M crawler unit :=
  match f with
  | FConnReset => sleep (10 + Z.of_nat retry * 5) (20 + Z.of_nat retry * 5)
  | FConn => sleep 5 10
  | FRequest => sleep 5 10
  | FOther => sleep 3 8
  end.

(** [for retry in range(max_retries)] of [download_image], with [n]
    iterations left. *)
Fixpoint download_attempts (n retry : nat) (image_url save_path : string)
  : M crawler bool :=
  match n with
  | O => ret false
  | S n' =>
      sleep 2 6 ;;;
      let* o := request w image_url in
      match o with
      | NetFail f =>
          after_fault f retry ;;;
          download_attempts n' (S retry) image_url save_path
      | NetResp r =>
          if status_is_error r then
            sleep 5 10 ;;;
            download_attempts n' (S retry) image_url save_path
          else if negb (Py.startswith (default EmptyString (content_type r))
                          "image/")
          then ret false
          else
            let temp_path := temp_path_of save_path in
            write_file temp_path (body r) ;;;
            match broken r with
            | Some f =>
                after_fault f retry ;;;
                download_attempts n' (S retry) image_url save_path
            | None =>
                let* corrupted := is_image_corrupted L temp_path in
                if corrupted then
                  unlink temp_path ;;;
                  sleep 3 5 ;;;
                  download_attempts n' (S retry) image_url save_path
                else
                  replace temp_path save_path ;;;
                  modify_obj bump_downloaded_images ;;;
                  sleep 1 3 ;;;
                  ret true
            end
      end
  end.

(** The skip rule at the head of [download_image]: is the file at
    [save_path] kept as it is? *)
Definition keep_existing (save_path : string) : M crawler bool :=
  let* f := get_fs in
  let* o := get_obj in
  match f !! save_path with
  | Some _ =>
      if negb (verify o) then ret true
      else
        let* corrupted := is_image_corrupted L save_path in
        ret (negb corrupted)
  | None => ret false
  end.

(** [download_image] *)
Definition download_image (image_url save_path : string) : M crawler bool :=
  let* skip := keep_existing save_path in
  if skip then ret true
  else download_attempts 5 0 image_url save_path.

Definition add_failed_image (fi : failed_image) (o : crawler) : crawler :=
  set_failed (failed_albums o) (failed_images o ++ [fi]) o.

Definition add_failed_album (album_url : string) (e : exn) (o : crawler)
  : crawler :=
  set_failed (failed_albums o ++ [(album_url, e)]) (failed_images o) o.

(** The image tasks of one album, [i] the index of the first one. *)
Fixpoint download_images (album_url album_name album_dir : string)
    (i : nat) (image_links : list string) : M crawler nat :=
  match image_links with
  | [] => ret O
  | img_url :: rest =>
      let img_name :=
        String.append "image_"
          (String.append (Py.format_03d i) (url_ext L img_url)) in
      let save_path := path_join L album_dir img_name in
      let* result := download_image img_url save_path in
      (if result then ret tt
       else modify_obj (add_failed_image
              {| fi_url := img_url; fi_save_path := save_path;
                 fi_album_url := album_url; fi_album_name := album_name |})) ;;;
      let* downloaded := download_images album_url album_name album_dir
                           (S i) rest in
      ret ((if result then 1 else 0) + downloaded)%nat
  end.

(** [download_album] *)
Definition download_album (fuel : nat) (album_url : string) : M crawler bool :=
  catch any_exception
    (let* ' (album_name, image_links) := get_album_images L w fuel album_url in
     let* o := get_obj in
     let* name :=
       match album_name with
       | Some n => ret n
       | None => raise TypeError
       end in
     let album_dir := path_join L (save_path o) name in
     modify_obj (fun o => set_stats (total_albums o) (downloaded_albums o)
                   (total_images o + length image_links) (downloaded_images o) o) ;;;
     let* downloaded := download_images album_url name album_dir 1 image_links in
     modify_obj (fun o => set_stats (total_albums o) (S (downloaded_albums o))
                   (total_images o) (downloaded_images o) o) ;;;
     save_completed_album album_url ;;;
     save_cookies ;;;
     ret true)
    (fun e =>
       modify_obj (add_failed_album album_url e) ;;;
       ret false).

(** The loop of the nested [crawl_albums] of [download]; [queue] is what
    was put on the album queue so far. *)
Fixpoint crawl_albums_loop (fuel : nat) (current_url : option string)
    (queue : list string) : M crawler (list string) :=
  match current_url with
  | None => ret queue
  | Some cur =>
      match fuel with
      | O => out_of_fuel
      | S fuel' =>
          let* response := retry_request w fuel' cur in
          match response with
          | None =>
              let* next := get_next_page L cur None in
              crawl_albums_loop fuel' (next ≫= Py.truthy) queue
          | Some r =>
              let pg := soup L (body r) in
              let albums := get_album_list L cur pg in
              let* o := get_obj in
              let queue' :=
                queue ++ List.filter
                           (fun album_url =>
                              negb (bool_decide (album_url ∈ completed_albums o)))
                           albums in
              let* next := get_next_page L cur (Some pg) in
              sleep 4 8 ;;;
              crawl_albums_loop fuel' (next ≫= Py.truthy) queue'
          end
      end
  end.

Definition crawl_albums (fuel : nat) : M crawler (list string) :=
  crawl_albums_loop fuel (Some "https://sifang.lat/") [].

(** The consumer loop of [download]: each queued album is submitted, then
    [stats['total_albums']] is incremented. *)
Fixpoint process_queue (fuel : nat) (queue : list string) : M crawler unit :=
  match queue with
  | [] => ret tt
  | album_url :: rest =>
      let* _ := download_album fuel album_url in
      modify_obj (fun o => set_stats (S (total_albums o)) (downloaded_albums o)
                    (total_images o) (downloaded_images o) o) ;;;
      process_queue fuel rest
  end.

(** The names bound in the body of [download] (assigned, imported or
    defined there), at module level, and the built-ins. *)
Definition download_locals : list string :=
  ["self"; "queue"; "album_queue"; "threading"; "crawl_complete";
   "crawl_albums"; "crawl_thread"; "executor"; "futures"; "album_item";
   "future"; "done"; "result"; "e"; "retry_input"; "i"; "failed_album";
   "failed_image"; "success_count"; "img_index"; "progress";
   "failed_log_file"; "f"; "album"; "img"].

Definition module_globals : list string :=
  ["os"; "sys"; "time"; "random"; "requests"; "concurrent"; "threading";
   "BeautifulSoup"; "urljoin"; "urlparse"; "parse_qs"; "urlencode"; "Image";
   "io"; "json"; "argparse"; "logging"; "logger"; "DEFAULT_SAVE_PATH";
   "SifangCrawler"; "main"].

Definition builtins_used : list string :=
  ["print"; "input"; "len"; "enumerate"; "int"; "set"; "open"; "Exception"].

(** Reading a variable in the body of [download]. *)
Definition read_name (name : string) : M crawler unit :=
  if Py.mem name download_locals || Py.mem name module_globals
     || Py.mem name builtins_used
  then ret tt
  else raise (NameError name).

Fixpoint retry_albums (fuel : nat) (albums : list (string * exn))
  : M crawler unit :=
  match albums with
  | [] => ret tt
  | (url, _) :: rest =>
      let* _ := download_album fuel url in
      retry_albums fuel rest
  end.

Fixpoint retry_images (images : list failed_image) : M crawler unit :=
  match images with
  | [] => ret tt
  | fi :: rest =>
      let* _ := download_image (fi_url fi) (fi_save_path fi) in
      retry_images rest
  end.

(** The text written to failed_items.log; of an exception only the
    class is kept. *)
Definition failed_log (o : crawler) : string :=
  String.concat EmptyString
    (["=== 失败相册 ==="; Py.nl]
     ++ concat ((fun a => ["URL: "; fst a; Py.nl;
                           "Error: "; exn_name (snd a); Py.nl; Py.nl])
                <$> failed_albums o)
     ++ ["=== 失败图片 ==="; Py.nl]
     ++ concat ((fun i => ["URL: "; fi_url i; Py.nl;
                           "Save Path: "; fi_save_path i; Py.nl;
                           "Album URL: "; fi_album_url i; Py.nl;
                           "Album Name: "; fi_album_name i; Py.nl; Py.nl])
                <$> failed_images o)).

(** [download], after the consumer loop: the summary, the prompt, the
    retries or the log file. *)
Definition download_summary (fuel : nat) : M crawler unit :=
  save_cookies ;;;
  read_name "total_albums" ;;;
  let* o := get_obj in
  match failed_albums o, failed_images o with
  | [], [] => ret tt
  | _, _ =>
      let* line := input w in
      if String.eqb (Py.lower (Py.strip line)) "y" then
        retry_albums fuel (failed_albums o) ;;;
        let* o' := get_obj in
        retry_images (failed_images o')
      else
        write_file (path_join L (save_path o) "failed_items.log")
          (failed_log o)
  end.

(** [download]. The crawl runs in a thread of its own: when it dies of
    an exception, [crawl_complete] is never set and the consumer loop
    does not end. *)
Definition download (fuel : nat) : M crawler unit :=
  let* queue := catch any_exception (crawl_albums fuel)
                  (fun _ => out_of_fuel) in
  process_queue fuel queue ;;;
  download_summary fuel.

(** [for album_url in albums: if album_url not in self.completed_albums
    and not any(item['url'] == album_url for item in self.album_queue):
    self.album_queue.append(...)] of [get_all_albums] *)
Definition enqueue_new (completed : gset string) (album_queue : list string)
    (albums : list string) : list string :=
  foldl (fun q album_url =>
           if negb (bool_decide (album_url ∈ completed))
              && negb (existsb (String.eqb album_url) q)
           then q ++ [album_url]
           else q)
        album_queue albums.

(** The [while current_url] loop of [get_all_albums]; [album_queue] is
    [self.album_queue], the URLs of its items in order (their status is
    ['pending'] throughout). *)
Fixpoint get_all_albums_loop (fuel : nat) (current_url : option string)
    (album_queue : list string) : M crawler (list string) :=
  match current_url with
  | None => ret album_queue
  | Some cur =>
      match fuel with
      | O => out_of_fuel
      | S fuel' =>
          let* response := retry_request w fuel' cur in
          match response with
          | None =>
              let* next := get_next_page L cur None in
              get_all_albums_loop fuel' (next ≫= Py.truthy) album_queue
          | Some r =>
              let pg := soup L (body r) in
              let albums := get_album_list L cur pg in
              let* o := get_obj in
              let album_queue' :=
                enqueue_new (completed_albums o) album_queue albums in
              let* next := get_next_page L cur (Some pg) in
              sleep 2 4 ;;;
              get_all_albums_loop fuel' (next ≫= Py.truthy) album_queue'
          end
      end
  end.

(** [get_all_albums] *)
Definition get_all_albums (fuel : nat) (start_url : string)
    (album_queue : list string) : M crawler (list string) :=
  let* album_queue' :=
    get_all_albums_loop fuel (Py.truthy start_url) album_queue in
  modify_obj (fun o => set_stats (length album_queue') (downloaded_albums o)
                (total_images o) (downloaded_images o) o) ;;;
  ret album_queue'.

End Download.

End Sifang.

(** ** 爬取ku1372的所有图集.py *)

Module Ku1372.

Record lib := {
  download_link_of : string -> option string;
    (** of the page text: the [href] of the pack-download anchor inside
        [div.Title111], as [get_download_link] finds it *)
  path_join : string -> string -> string
}.

(** The counter [thread_success_count] of the enclosing page loop. *)
Record counters := {
  thread_success_count : nat
}.

Definition bump_success (o : counters) : counters :=
  {| thread_success_count := S (thread_success_count o) |}.

(** [re.sub] of the characters that a file name may not hold, the
    backslash, the slash, the colon, the star, the question mark, the
    double quote, the angle brackets and the bar, by an underscore *)
Fixpoint safe_name_of (album_name : string) : string :=
  match album_name with
  | EmptyString => EmptyString
  | String c t =>
      if Py.str_in (String c EmptyString)
           (String.append "\/:*?" (String.append Py.dquote "<>|"))
      then String "_" (safe_name_of t)
      else String c (safe_name_of t)
  end.

Definition looks_like_html (content : string) : bool :=
  Py.str_in "<!DOCTYPE html>" content || Py.str_in "<html>" content
  || Py.str_in "<head>" content.

Section Wrapper.
Context (L : lib) (w : world).

(** [get_soup] followed by the search of [get_download_link] *)
Definition get_download_link (album_url : string) : M counters (option string) :=
  let* o := request w album_url in
  match eager o with
  | NetResp r => ret (download_link_of L (body r))
  | NetFail _ => ret None
  end.

Definition remove_if_exists (save_path : string) : M counters unit :=
  let* f := get_fs in
  match f !! save_path with
  | Some _ => unlink save_path
  | None => ret tt
  end.

(** The [while retry_count < max_retries] loop of
    [download_album_wrapper], with [n] iterations left. *)
Fixpoint download_attempts (n : nat) (album_url save_path : string)
  : M counters bool :=
  match n with
  | O => ret false
  | S n' =>
      let failed : M counters bool :=
        remove_if_exists save_path ;;;
        sleep 4 8 ;;;
        download_attempts n' album_url save_path in
      let rejected : M counters bool :=
        unlink save_path ;;;
        sleep 4 8 ;;;
        download_attempts n' album_url save_path in
      let* link := get_download_link album_url in
      match link ≫= Py.truthy with
      | None => ret false
      | Some download_url =>
          sleep 2 4 ;;;
          let* o := request w download_url in
          match o with
          | NetFail _ => failed
          | NetResp r =>
              if status_is_error r then failed
              else
                let total_size := default 0 (content_length r) in
                write_file save_path (body r) ;;;
                match broken r with
                | Some _ => failed
                | None =>
                    let final_size := Z.of_nat (String.length (body r)) in
                    if looks_like_html (Py.take 512 (body r)) then rejected
                    else if final_size <? 1024 then rejected
                    else if (0 <? total_size)
                            && (1024 <? Z.abs (final_size - total_size))
                    then rejected
                    else modify_obj bump_success ;;; ret true
                end
          end
      end
  end.

(** [download_album_wrapper], the closure of [main] *)
Definition download_album_wrapper (album_name album_url tag_dir : string)
    (verify : bool) : M counters bool :=
  let safe_name := safe_name_of album_name in
  let save_path := path_join L tag_dir (String.append safe_name ".zip") in
  let* f := get_fs in
  let* skip :=
    match f !! save_path with
    | Some content =>
        if verify then
          if 1024 <? Z.of_nat (String.length content) then ret true
          else unlink save_path ;;; ret false
        else ret true
    | None => ret false
    end in
  if skip then ret true
  else download_attempts 5 album_url save_path.

End Wrapper.

(** *** The album lists of a tag *)

(** An [li] of the album list: the [href] and the [title] of its first
    anchor, where it has one. *)
Record album_li := {
  al_a : option (option string * option string)
}.

(** An anchor of the pager [div.page]. *)
Record pager_link := {
  pl_text : string;            (** [a.text] *)
  pl_href : option string;     (** [a.get('href')] *)
  pl_class : list string       (** [a.get('class', [])] *)
}.

(** A parsed page, seen through the queries of [get_albums]. *)
Record listing := {
  m_list : option (list album_li);
    (** [div.m-list], and its [find_all('li')] *)
  page_div : option (list pager_link)
    (** [div.page], and its [find_all('a')] *)
}.

Record parser := {
  listing_of : string -> listing;          (** [BeautifulSoup(text, 'html.parser')] *)
  tag_id_of : string -> option string;     (** group 1 of [re.search('/b/(\d+)/?', url)] *)
  link_page_of : string -> option nat
    (** [int] of group 1 of [re.search('_([0-9]+)\.html', href)] *)
}.

(** An album as [get_albums] lists it *)
Record album := {
  name : string;
  url : option string
}.

Section Listing.
Context (P : parser) (w : world).

(** [get_soup]: the text of the page, or [None] when the request raises *)
Definition get_soup {O} (page_url : string) : M O (option string) :=
  let* o := request w page_url in
  match eager o with
  | NetResp r => ret (Some (body r))
  | NetFail _ => ret None
  end.

(** The URL of page [page] in [get_albums]: the tag URL itself for the
    first page, then [list_<tag id>_<page>.html] under it, or
    [list_<page>.html] when the tag URL shows no id. *)
Definition albums_page_url (tag_url : string) (page : nat) : string :=
  if Nat.eqb page 1 then tag_url
  else
    let file :=
      match tag_id_of P tag_url with
      | Some tag_id =>
          String.append "list_"
            (String.append tag_id
               (String.append "_"
                  (String.append (Py.decimal page) ".html")))
      | None =>
          String.append "list_" (String.append (Py.decimal page) ".html")
      end in
    if Py.endswith tag_url "/" then String.append tag_url file
    else String.append tag_url (String.append "/" file).

(** [a_text in ['下一页', 'ÏÂÒ»Ò³', 'Next', 'next'] or '下一页' in a_text] *)
Definition is_next_text (a : pager_link) : bool :=
  let a_text := Py.strip (pl_text a) in
  Py.mem a_text ["下一页"; "ÏÂÒ»Ò³"; "Next"; "next"]
  || Py.str_in "下一页" a_text.

(** The second search of [get_albums]: a link to [list_...] that is not
    the current page and whose number is the next one. *)
Definition is_next_href (page : nat) (a : pager_link) : bool :=
  match pl_href a with
  | Some href =>
      Py.str_in "list_" href
      && negb (Py.mem "this-page" (pl_class a))
      && match link_page_of P href with
         | Some link_page => Nat.eqb link_page (page + 1)
         | None => false
         end
  | None => false
  end.

(** The albums of the [li] elements, in [get_albums] *)
Definition albums_of (lis : list album_li) : list album :=
  omap (fun li =>
          match al_a li with
          | Some (href, title) =>
              Some {| name := Py.strip (default EmptyString title);
                      url := href |}
          | None => None
          end) lis.

(** [get_albums]: the [while True] loop, with [page] and [albums] its
    variables. The [import re] in the branch that builds the URL of a page
    other than the first makes [re] a local variable of [get_albums]:
    [re_bound] tells whether that import has run. The second search, which
    calls [re.compile], reads the variable. *)
Fixpoint get_albums_loop {O} (fuel : nat) (tag_url : string) (page : nat)
    (re_bound : bool) (albums : list album) : M O (list album) :=
  match fuel with
  | O => out_of_fuel
  | S fuel' =>
      let re_bound' := re_bound || negb (Nat.eqb page 1) in
      let* soup := get_soup (albums_page_url tag_url page) in
      match soup with
      | None => ret albums
      | Some text =>
          let pg := listing_of P text in
          match m_list pg with
          | None | Some [] => ret albums
          | Some li_list =>
              let albums' := albums ++ albums_of li_list in
              match page_div pg with
              | None => ret albums'
              | Some links =>
                  let* next_page :=
                    if existsb is_next_text links then ret true
                    else if re_bound'
                         then ret (existsb (is_next_href page) links)
                         else raise (UnboundLocalError "re") in
                  if next_page
                  then sleep 4 8 ;;;
                       get_albums_loop fuel' tag_url (S page) re_bound' albums'
                  else ret albums'
              end
          end
      end
  end.

Definition get_albums {O} (fuel : nat) (tag_url : string)
  : M O (list album) :=
  get_albums_loop fuel tag_url 1 false [].

End Listing.

End Ku1372.


(** * Reasoning about runs *)

(** The URLs requested, in order. *)
Definition requests_of (evs : list event) : list string :=
  omap (fun e => match e with EvRequest u => Some u | _ => None end) evs.

Definition is_request (e : event) : bool :=
  match e with EvRequest _ => true | _ => false end.

(** A property [Q s s' evs] of the runs of a computation, from state [s] to
    state [s'] with events [evs]. *)
Definition sat {O A} (Q : state O -> state O -> list event -> Prop)
    (m : M O A) : Prop :=
  forall s r s' evs, m s = (r, s', evs) -> Q s s' evs.

(** Properties that hold of the empty run and of two runs in sequence. *)
Class Sequential {O} (Q : state O -> state O -> list event -> Prop) := {
  seq_nil : forall s, Q s s [];
  seq_app : forall s1 s2 s3 e1 e2, Q s1 s2 e1 -> Q s2 s3 e2 -> Q s1 s3 (e1 ++ e2)
}.

(** ** Inputs of the examples *)

(** Every request times out; the operator presses enter at every prompt. *)
Definition down_world : world :=
  {| net := fun _ _ => NetFail FRequest;
     operator := fun _ => Some EmptyString |}.

Definition crawler0 (v : bool) : Sifang.crawler :=
  {| Sifang.verify := v; Sifang.save_path := "out";
     Sifang.completed_albums := ∅; Sifang.completed_file := [];
     Sifang.total_albums := 0; Sifang.downloaded_albums := 0;
     Sifang.total_images := 0; Sifang.downloaded_images := 0;
     Sifang.failed_albums := []; Sifang.failed_images := [] |}.

Definition sifang_start (v : bool) : state Sifang.crawler :=
  Build_state ∅ 0 0 (crawler0 v).

Definition spider0 (v : bool) : Meitu.spider :=
  {| Meitu.save_path := "out"; Meitu.verify := v; Meitu.page_sleep := 5;
     Meitu.failed_images := []; Meitu.failed_albums := [] |}.

Definition meitu_start (v : bool) : state Meitu.spider :=
  Build_state ∅ 0 0 (spider0 v).

(** Every request is answered by a redirect to another site. *)
Definition redirect_world : world :=
  {| net := fun _ _ =>
       NetResp {| status := 200; final_url := "https://ads.example/landing";
                  content_type := Some "text/html"; content_length := None;
                  body := EmptyString; broken := None |};
     operator := fun _ => None |}.

(** A parser for the examples: the text of the page is taken as the value
    of [data-screenshots]. *)
Definition meitu_lib : Meitu.lib :=
  {| Meitu.soup := fun text =>
       {| Meitu.album_elements := []; Meitu.next_href := None;
          Meitu.book_pages := Some (Some text) |};
     Meitu.path_join := fun a b => String.append a (String.append "/" b);
     Meitu.pil_ok := fun c => Py.startswith c "IMG" |}.

(** A disk that holds one file that is no image. *)
Definition meitu_with_junk : state Meitu.spider :=
  Build_state {[ "out/a/001.jpg" := "junk" ]} 0 0 (spider0 true).

(** A parser for the examples: it knows the texts of three pages, an album
    page with one image, a listing page whose [Next] link is the page
    itself, and a listing page with one album and no next page. *)
Definition album_page : Sifang.page :=
  {| Sifang.title := Some "Album A | sifang"; Sifang.anchors := [];
     Sifang.article := None;
     Sifang.imgs :=
       [{| Sifang.src := "https://img.example/1.jpg"; Sifang.style := None;
           Sifang.width := None; Sifang.height := None;
           Sifang.parent_hrefs := [] |}];
     Sifang.recommend_srcs := [] |}.

Definition loop_page : Sifang.page :=
  {| Sifang.title := Some "sifang"; 
     Sifang.anchors := [{| Sifang.a_href := "/";
                           Sifang.a_str := "<a href=/>Next</a>" |}];
     Sifang.article := None; Sifang.imgs := []; Sifang.recommend_srcs := [] |}.

Definition listing_page : Sifang.page :=
  {| Sifang.title := Some "Listing";
     Sifang.anchors := [{| Sifang.a_href := "/albums/a";
                           Sifang.a_str := "<a href=/albums/a>A</a>" |}];
     Sifang.article := None; Sifang.imgs := []; Sifang.recommend_srcs := [] |}.

Definition empty_page : Sifang.page :=
  {| Sifang.title := None; Sifang.anchors := []; Sifang.article := None;
     Sifang.imgs := []; Sifang.recommend_srcs := [] |}.

Definition sifang_lib : Sifang.lib :=
  {| Sifang.urljoin := fun base href =>
       if Py.startswith href "http" then href
       else String.append "https://sifang.lat" href;
     Sifang.query_page := fun _ => None;
     Sifang.parse_int := fun t =>
       if String.eqb t "0" then Some 0
       else if String.eqb t "1" then Some 1
       else if String.eqb t "2" then Some 2
       else None;
     Sifang.with_page := fun u _ => u;
     Sifang.url_ext := fun _ => ".jpg";
     Sifang.path_join := fun a b => String.append a (String.append "/" b);
     Sifang.pil_ok := fun c => Py.startswith c "IMG";
     Sifang.soup := fun text =>
       if String.eqb text "album" then album_page
       else if String.eqb text "loop" then loop_page
       else if String.eqb text "listing" then listing_page
       else empty_page |}.

(** A disk that holds, at the destination of an image, a file that does
    not decode; validation is on. *)
Definition sifang_with_junk : state Sifang.crawler :=
  Build_state {[ "out/a/image_001.jpg" := "junk" ]} 0 0 (crawler0 true).

(** The image server first sends bytes that do not decode, then the
    image. *)
Definition flaky_image_world : world :=
  {| net := fun t _ =>
       NetResp {| status := 200; final_url := "https://img.example/1.jpg";
                  content_type := Some "image/jpeg"; content_length := None;
                  body := if Nat.ltb t 1 then "junk" else "IMG-bytes";
                  broken := None |};
     operator := fun _ => None |}.

(** A disk that holds one image that decodes. *)
Definition sifang_with_image (v : bool) : state Sifang.crawler :=
  Build_state {[ "out/a/image_001.jpg" := "IMG1" ]} 0 0 (crawler0 v).

(** The discipline of the writes of a download to [save_path]: files are
    written and removed at the temporary path only, and the destination
    changes by a rename of the temporary path only. *)
Definition writes_to_temp_only (save_path : string) (e : event) : Prop :=
  match e with
  | EvWrite p | EvUnlink p => p = Sifang.temp_path_of save_path
  | EvReplace a b => a = Sifang.temp_path_of save_path /\ b = save_path
  | _ => True
  end.

Definition is_replace (e : event) : bool :=
  match e with EvReplace _ _ => true | _ => false end.

Definition is_fs_event (e : event) : bool :=
  match e with
  | EvWrite _ | EvUnlink _ | EvReplace _ _ => true
  | _ => false
  end.

(** Every request is answered with an image that decodes. *)
Definition image_world : world :=
  {| net := fun _ _ =>
       NetResp {| status := 200; final_url := "https://img.example/1.jpg";
                  content_type := Some "image/jpeg"; content_length := None;
                  body := "IMG-bytes"; broken := None |};
     operator := fun _ => None |}.

Definition ku_lib : Ku1372.lib :=
  {| Ku1372.download_link_of := fun _ => Some "https://dl.example/a.zip";
     Ku1372.path_join := fun a b => String.append a (String.append "/" b) |}.

Definition ku_start : state Ku1372.counters :=
  Build_state ∅ 0 0 {| Ku1372.thread_success_count := 0 |}.

Definition ku_page : response :=
  {| status := 200; final_url := "https://www.ku1372.cc/a.html";
     content_type := Some "text/html"; content_length := None;
     body := "page"; broken := None |}.

(** The archive server sends the first bytes and drops the connection. *)
Definition broken_world : world :=
  {| net := fun _ url =>
       if String.eqb url "https://dl.example/a.zip"
       then NetResp {| status := 200; final_url := url;
                       content_type := Some "application/zip";
                       content_length := Some 4096;
                       body := "PK-partial"; broken := Some FRequest |}
       else NetResp ku_page;
     operator := fun _ => None |}.

(** The archive server answers with an HTML error page. *)
Definition html_world : world :=
  {| net := fun _ url =>
       if String.eqb url "https://dl.example/a.zip"
       then NetResp {| status := 200; final_url := url;
                       content_type := Some "text/html";
                       content_length := None;
                       body := "<html><head><title>busy</title></head></html>";
                       broken := None |}
       else NetResp ku_page;
     operator := fun _ => None |}.

(** The album page lists one picture twice. *)
Definition dup_world : world :=
  {| net := fun _ _ =>
       NetResp {| status := 200; final_url := "https://example.org/a";
                  content_type := Some "text/html"; content_length := None;
                  body := "a.jpg#$a.jpg#$b.jpg"; broken := None |};
     operator := fun _ => None |}.

(** First-seen order, in the words of the specification: of the candidates
    [l], in order, each one is kept at its first occurrence, unless it is
    among the URLs [seen] before. *)
Fixpoint first_seen (seen : list string) (l : list string) : list string :=
  match l with
  | [] => []
  | x :: rest =>
      if bool_decide (x ∈ seen) then first_seen seen rest
      else x :: first_seen (seen ++ [x]) rest
  end.

Definition album_response : response :=
  {| status := 200; final_url := "https://sifang.lat/albums/a";
     content_type := Some "text/html"; content_length := None;
     body := "album"; broken := None |}.

(** The site serves the album page and its image. *)
Definition album_world : world :=
  {| net := fun _ url =>
       if String.eqb url "https://img.example/1.jpg"
       then NetResp {| status := 200; final_url := url;
                       content_type := Some "image/jpeg";
                       content_length := None;
                       body := "IMG-bytes"; broken := None |}
       else NetResp album_response;
     operator := fun _ => None |}.

(** The site serves the album page; the image host answers with an HTML
    page. *)
Definition album_html_world : world :=
  {| net := fun _ url =>
       if String.eqb url "https://img.example/1.jpg"
       then NetResp {| status := 200; final_url := url;
                       content_type := Some "text/html";
                       content_length := None;
                       body := "<html>blocked</html>"; broken := None |}
       else NetResp album_response;
     operator := fun _ => None |}.

(** Every page of the site is the listing page whose [Next] link is the
    page itself. *)
Definition loop_world : world :=
  {| net := fun _ _ =>
       NetResp {| status := 200; final_url := "https://sifang.lat/";
                  content_type := Some "text/html"; content_length := None;
                  body := "loop"; broken := None |};
     operator := fun _ => None |}.

(** The candidates that an album page offers, given the URLs [seen] on the
    pages before it: the URLs of its image tags that pass the strict
    filter, in the order of the tags, or, when none of these is new and the
    page has image tags, those that pass the relaxed filter. *)
Definition candidates (L : Sifang.lib) (pg : Sifang.page)
    (current_url : string) (seen : list string) : list string :=
  let strict :=
    omap (Sifang.strict_candidate L pg current_url) (Sifang.img_tags_of pg) in
  match first_seen seen strict, Sifang.img_tags_of pg with
  | [], _ :: _ =>
      omap (Sifang.relaxed_candidate L current_url) (Sifang.img_tags_of pg)
  | _, _ => strict
  end.

(** The candidates of the pages of an album, page by page, [seen] being
    the URLs collected before the first of them. *)
Fixpoint page_candidates (L : Sifang.lib) (seen : list string)
    (pages : list (string * Sifang.page)) : list (list string) :=
  match pages with
  | [] => []
  | (current_url, pg) :: rest =>
      let c := candidates L pg current_url seen in
      c :: page_candidates L (seen ++ first_seen seen c) rest
  end.

(** An album of two pages: the first shows two pictures, one of them
    twice, and links to the second, which shows one of them again and a
    third. *)
Definition picture (u : string) : Sifang.img :=
  {| Sifang.src := u; Sifang.style := None; Sifang.width := None;
     Sifang.height := None; Sifang.parent_hrefs := [] |}.

Definition sifang_album2_lib : Sifang.lib :=
  {| Sifang.urljoin := Sifang.urljoin sifang_lib;
     Sifang.query_page := Sifang.query_page sifang_lib;
     Sifang.parse_int := Sifang.parse_int sifang_lib;
     Sifang.with_page := Sifang.with_page sifang_lib;
     Sifang.url_ext := Sifang.url_ext sifang_lib;
     Sifang.path_join := Sifang.path_join sifang_lib;
     Sifang.pil_ok := Sifang.pil_ok sifang_lib;
     Sifang.soup := fun text =>
       if String.eqb text "first" then
         {| Sifang.title := Some "Album A | sifang";
            Sifang.anchors :=
              [{| Sifang.a_href := "/albums/a?page=2";
                  Sifang.a_str := "<a href=/albums/a?page=2>Next</a>" |}];
            Sifang.article := None;
            Sifang.imgs := [picture "https://img.example/x.jpg";
                            picture "https://img.example/y.jpg";
                            picture "https://img.example/x.jpg"];
            Sifang.recommend_srcs := [] |}
       else
         {| Sifang.title := Some "Album A | sifang";
            Sifang.anchors := [];
            Sifang.article := None;
            Sifang.imgs := [picture "https://img.example/y.jpg";
                            picture "https://img.example/z.jpg"];
            Sifang.recommend_srcs := [] |} |}.

Definition album2_world : world :=
  {| net := fun _ url =>
       NetResp {| status := 200; final_url := url;
                  content_type := Some "text/html"; content_length := None;
                  body := if String.eqb url "https://sifang.lat/albums/a"
                          then "first" else "second";
                  broken := None |};
     operator := fun _ => None |}.

(** A response that [retry_request] returns to its caller. *)
Definition served (r : response) : Prop :=
  broken r = None /\ status r <> 443 /\ status_is_error r = false
  /\ Py.str_in "sifang.lat" (final_url r) = true.

(** A listing of sifang: each page is served whenever it is asked for, the
    next page of each is the one that follows in the list, and the last one
    has none. *)
Inductive sifang_listing (L : Sifang.lib) (w : world) : list string -> Prop :=
| sifang_last u :
    (forall t, exists r,
        net w t u = NetResp r /\ served r
        /\ exists n, Sifang.resolve_next L u (Sifang.soup L (body r)) = inr n
                     /\ Sifang.next_url_of n ≫= Py.truthy = None) ->
    sifang_listing L w [u]
| sifang_next u v rest :
    (forall t, exists r,
        net w t u = NetResp r /\ served r
        /\ exists n, Sifang.resolve_next L u (Sifang.soup L (body r)) = inr n
                     /\ Sifang.next_url_of n ≫= Py.truthy = Some v) ->
    sifang_listing L w (v :: rest) ->
    sifang_listing L w (u :: v :: rest).

(** A listing of 美图色色: [_parse_albums] finds on each page the link to
    the one that follows in the list, and none on the last one. *)
Inductive meitu_listing (L : Meitu.lib) (w : world) : list string -> Prop :=
| meitu_last u :
    (forall s, exists albums s' evs,
        Meitu._parse_albums L w u s = (Ret (albums, None), s', evs)) ->
    meitu_listing L w [u]
| meitu_next u v rest :
    (forall s, exists albums s' evs,
        Meitu._parse_albums L w u s = (Ret (albums, Some v), s', evs)) ->
    meitu_listing L w (v :: rest) ->
    meitu_listing L w (u :: v :: rest).

(** A property of runs that looks at the fields of the object only. *)
Definition obj_rel {O} (R : O -> O -> Prop)
    (s s' : state O) (evs : list event) : Prop :=
  R (obj s) (obj s').

(** The progress record and the list of failed albums are as before. *)
Definition record_kept (o o' : Sifang.crawler) : Prop :=
  Sifang.completed_albums o' = Sifang.completed_albums o
  /\ Sifang.completed_file o' = Sifang.completed_file o
  /\ Sifang.failed_albums o' = Sifang.failed_albums o
  /\ Sifang.verify o' = Sifang.verify o
  /\ Sifang.save_path o' = Sifang.save_path o.

(** Every page of the site is the listing page with one album. *)
Definition listing_world : world :=
  {| net := fun _ _ =>
       NetResp {| status := 200; final_url := "https://sifang.lat/";
                  content_type := Some "text/html"; content_length := None;
                  body := "listing"; broken := None |};
     operator := fun _ => None |}.

(** The start of a second run: the record of the first run holds the album. *)
Definition sifang_rerun : state Sifang.crawler :=
  Build_state ∅ 0 0
    (Sifang.set_completed
       (Sifang.load_completed_albums ["https://sifang.lat/albums/a"])
       ["https://sifang.lat/albums/a"] (crawler0 false)).

(** ** Predicates of the statements *)

(** The answer to a request of [retry_request] ends in its handler of
    [requests.RequestException]: the request itself fails, the body breaks
    off, or [raise_for_status] raises on a status from 400 to 599 other
    than 443. The boolean tells whether the exception is the connection
    error 10054. *)
Definition request_exception (o : net_outcome) : option bool :=
  match eager o with
  | NetFail FConnReset => Some true
  | NetFail FOther => None
  | NetFail _ => Some false
  | NetResp r =>
      if status r =? 443 then None
      else if status_is_error r then Some false
      else None
  end.

(** No character of [s] is one of [bad]. *)
Definition free_of (bad : string) (s : string) : Prop :=
  forall c, In c (list_ascii_of_string s) ->
            Py.str_in (String c EmptyString) bad = false.

(** What the two filters have in common. *)
Definition acceptable (L : Sifang.lib) (current_url : string)
    (i : Sifang.img) (u : string) : Prop :=
  Sifang.src i <> EmptyString
  /\ u = Sifang.normalize_src L current_url (Sifang.src i)
  /\ Sifang.in_other_album_link current_url i = false
  /\ Sifang.has_img_extension u = true.

(** The progress record, the list of failed albums and the album counters
    are as before. *)
Definition albums_kept (o o' : Sifang.crawler) : Prop :=
  record_kept o o'
  /\ Sifang.total_albums o' = Sifang.total_albums o
  /\ Sifang.downloaded_albums o' = Sifang.downloaded_albums o.

(** The album [u] is settled: recorded as completed, or listed as failed. *)
Definition settled (u : string) (o : Sifang.crawler) : Prop :=
  u ∈ Sifang.completed_albums o \/ u ∈ (fst <$> Sifang.failed_albums o).

(** The record and the list of failed albums only grow. *)
Definition albums_grow (o o' : Sifang.crawler) : Prop :=
  Sifang.completed_albums o ⊆ Sifang.completed_albums o'
  /\ Sifang.failed_albums o `prefix_of` Sifang.failed_albums o'.

(** Every request of the run comes directly after a sleep of at least [lo]
    seconds; [slept] tells whether the event before the run was such a
    sleep. *)
Fixpoint paced_from (lo : Z) (slept : bool) (evs : list event) : bool :=
  match evs with
  | [] => true
  | EvRequest _ :: rest => slept && paced_from lo false rest
  | EvSleep a _ :: rest => paced_from lo (lo <=? a) rest
  | _ :: rest => paced_from lo false rest
  end.

Definition paced {O} (lo : Z) (s s' : state O) (evs : list event) : Prop :=
  paced_from lo false evs = true.

(** The file of the progress record holds no line twice, and each of its
    lines is in the set. *)
Definition record_consistent (o : Sifang.crawler) : Prop :=
  NoDup (Sifang.completed_file o)
  /\ forall a, a ∈ Sifang.completed_file o -> a ∈ Sifang.completed_albums o.

Definition keeps_consistent (o o' : Sifang.crawler) : Prop :=
  record_consistent o -> record_consistent o'.

(** The file events of a run concern the one path [p], and none is a
    rename. *)
Definition touches_only (p : string) (e : event) : Prop :=
  match e with
  | EvWrite q | EvUnlink q => q = p
  | EvReplace _ _ => False
  | _ => True
  end.

(** Every request is answered with status 443. *)
Definition blocked_world : world :=
  {| net := fun _ url =>
       NetResp {| status := 443; final_url := url;
                  content_type := Some "text/html"; content_length := None;
                  body := EmptyString; broken := None |};
     operator := fun _ => None |}.

(** A tag of ku1372 with two pages: the first lists one album and links to
    the next page, the second lists one album and has no pager. *)
Definition ku_parser : Ku1372.parser :=
  {| Ku1372.listing_of := fun text =>
       if String.eqb text "first" then
         {| Ku1372.m_list :=
              Some [{| Ku1372.al_a := Some (Some "/a.html", Some " A ") |}];
            Ku1372.page_div :=
              Some [{| Ku1372.pl_text := "Next";
                       Ku1372.pl_href := Some "list_12_2.html";
                       Ku1372.pl_class := [] |}] |}
       else
         {| Ku1372.m_list :=
              Some [{| Ku1372.al_a := Some (Some "/b.html", None) |}];
            Ku1372.page_div := None |};
     Ku1372.tag_id_of := fun _ => Some "12";
     Ku1372.link_page_of := fun _ => None |}.

Definition ku_tag_world : world :=
  {| net := fun _ url =>
       NetResp {| status := 200; final_url := url;
                  content_type := Some "text/html"; content_length := None;
                  body := if String.eqb url "https://www.ku1372.cc/b/12/"
                          then "first" else "second";
                  broken := None |};
     operator := fun _ => None |}.

(** A tag of ku1372 whose pager links to the pages by their numbers only:
    no anchor carries a next text. *)
Definition ku_numbered_parser : Ku1372.parser :=
  {| Ku1372.listing_of := fun _ =>
       {| Ku1372.m_list :=
            Some [{| Ku1372.al_a := Some (Some "/a.html", Some "A") |}];
          Ku1372.page_div :=
            Some [{| Ku1372.pl_text := "1";
                     Ku1372.pl_href := Some "list_12_1.html";
                     Ku1372.pl_class := ["this-page"] |};
                  {| Ku1372.pl_text := "2";
                     Ku1372.pl_href := Some "list_12_2.html";
                     Ku1372.pl_class := [] |}] |};
     Ku1372.tag_id_of := fun _ => Some "12";
     Ku1372.link_page_of := fun href =>
       if Py.str_in "_2.html" href then Some 2%nat
       else if Py.str_in "_1.html" href then Some 1%nat
       else None |}.

(** The server fails twice, then serves every request. *)
Definition recovering_world : world :=
  {| net := fun t url =>
       if Nat.ltb t 2 then NetFail FConn
       else NetResp {| status := 200; final_url := url;
                       content_type := Some "text/html";
                       content_length := None;
                       body := "ok"; broken := None |};
     operator := fun _ => None |}.

(** A parser for the examples: every page lists one album, has no next
    page, and gives its text as the value of [data-screenshots]. *)
Definition meitu_album_lib : Meitu.lib :=
  {| Meitu.soup := fun text =>
       {| Meitu.album_elements := [(Some "/a/1", Some "Album")];
          Meitu.next_href := None;
          Meitu.book_pages := Some (Some text) |};
     Meitu.path_join := fun a b => String.append a (String.append "/" b);
     Meitu.pil_ok := fun c => Py.startswith c "IMG" |}.

(** An archive of exactly 1024 bytes, and a server that delivers it. *)
Definition archive_1024 : string := String.append "PK" (Py.zeros 1022).

Definition archive_world : world :=
  {| net := fun _ url =>
       if String.eqb url "https://dl.example/a.zip"
       then NetResp {| status := 200; final_url := url;
                       content_type := Some "application/zip";
                       content_length := Some 1024;
                       body := archive_1024; broken := None |}
       else NetResp ku_page;
     operator := fun _ => None |}.

(** The number that a string of decimal digits writes, read from the left
    with [acc] the value of the digits before. *)
Fixpoint digits_value (s : string) (acc : nat) : nat :=
  match s with
  | EmptyString => acc
  | String c t => digits_value t (10 * acc + (nat_of_ascii c - 48))
  end.

Definition is_digit (c : ascii) : Prop :=
  (48 <= nat_of_ascii c <= 57)%nat.

Fixpoint all_digits (s : string) : Prop :=
  match s with
  | EmptyString => True
  | String c t => is_digit c /\ all_digits t
  end.

(** What [os.path.splitext] gives as an extension: nothing, or a dot and
    what follows it. *)
Definition is_ext (e : string) : Prop :=
  e = EmptyString \/ exists t, e = String "." t.

(** A page whose title has 24 characters, in 72 bytes. *)
Definition cjk_title : string :=
  "四方图集四方图集四方图集四方图集四方图集四方图集".

Definition cjk_page : Sifang.page :=
  {| Sifang.title := Some cjk_title; Sifang.anchors := [];
     Sifang.article := None; Sifang.imgs := []; Sifang.recommend_srcs := [] |}.

(** An album of two pages: the first holds one image and an arrow to the
    second; the request for the second is redirected away from the site. *)
Definition next_anchor : Sifang.anchor :=
  {| Sifang.a_href := "/albums/a?page=2";
     Sifang.a_str := "<a href=/albums/a?page=2>Next</a>" |}.

Definition paged_page : Sifang.page :=
  {| Sifang.title := Some "Album A | sifang";
     Sifang.anchors := [next_anchor];
     Sifang.article := None;
     Sifang.imgs := Sifang.imgs album_page;
     Sifang.recommend_srcs := [] |}.

Definition sifang_paged_lib : Sifang.lib :=
  {| Sifang.urljoin := Sifang.urljoin sifang_lib;
     Sifang.query_page := Sifang.query_page sifang_lib;
     Sifang.parse_int := Sifang.parse_int sifang_lib;
     Sifang.with_page := Sifang.with_page sifang_lib;
     Sifang.url_ext := Sifang.url_ext sifang_lib;
     Sifang.path_join := Sifang.path_join sifang_lib;
     Sifang.pil_ok := Sifang.pil_ok sifang_lib;
     Sifang.soup := fun _ => paged_page |}.

Definition paged_response : response :=
  {| status := 200; final_url := "https://sifang.lat/albums/a";
     content_type := Some "text/html"; content_length := None;
     body := "paged"; broken := None |}.

Definition away_response : response :=
  {| status := 200; final_url := "https://ads.example/landing";
     content_type := Some "text/html"; content_length := None;
     body := EmptyString; broken := None |}.

Definition paged_world : world :=
  {| net := fun _ url =>
       if String.eqb url "https://sifang.lat/albums/a"
       then NetResp paged_response
       else if String.eqb url "https://img.example/1.jpg"
       then NetResp {| status := 200; final_url := url;
                       content_type := Some "image/jpeg";
                       content_length := None;
                       body := "IMG-bytes"; broken := None |}
       else NetResp away_response;
     operator := fun _ => None |}.

(** * Properties *)

(** ** The monad *)

Lemma bind_Ret {O A B} (m : M O A) (k : A -> M O B) s a s1 e1 :
  m s = (Ret a, s1, e1) ->
  bind m k s = (let '(r, s2, e2) := k a s1 in (r, s2, e1 ++ e2)).
Proof. intros H. unfold bind. rewrite H. reflexivity. Qed.

Lemma bind_Exc {O A B} (m : M O A) (k : A -> M O B) s e s1 e1 :
  m s = (Exc e, s1, e1) -> bind m k s = (Exc e, s1, e1).
Proof. intros H. unfold bind. rewrite H. reflexivity. Qed.

Lemma bind_Fuel {O A B} (m : M O A) (k : A -> M O B) s s1 e1 :
  m s = (Fuel, s1, e1) -> bind m k s = (Fuel, s1, e1).
Proof. intros H. unfold bind. rewrite H. reflexivity. Qed.

Lemma bind_inv {O A B} (m : M O A) (k : A -> M O B) s r s' evs :
  bind m k s = (r, s', evs) ->
  (exists a s1 e1 e2,
      m s = (Ret a, s1, e1) /\ k a s1 = (r, s', e2) /\ evs = e1 ++ e2)
  \/ (exists e, m s = (Exc e, s', evs) /\ r = Exc e)
  \/ (m s = (Fuel, s', evs) /\ r = Fuel).
Proof.
  unfold bind. destruct (m s) as [[[a|e|] s1] e1].
  - destruct (k a s1) as [[r2 s2] e2] eqn:Hk. intros [= <- <- <-].
    left. exists a, s1, e1, e2. auto.
  - intros [= <- <- <-]. right. left. eauto.
  - intros [= <- <- <-]. right. right. auto.
Qed.

Lemma bind_sleep {O B} lo hi (k : unit -> M O B) s :
  bind (sleep lo hi) k s
  = (let '(r, s2, e2) := k tt s in (r, s2, EvSleep lo hi :: e2)).
Proof. reflexivity. Qed.

Lemma bind_request {O B} w url (k : net_outcome -> M O B) (s : state O) :
  bind (request w url) k s
  = (let '(r, s2, e2) :=
       k (net w (clock s) url)
         (Build_state (fs s) (S (clock s)) (prompts s) (obj s)) in
     (r, s2, EvRequest url :: e2)).
Proof. reflexivity. Qed.

Lemma bind_get_obj {O B} (k : O -> M O B) (s : state O) :
  bind get_obj k s = k (obj s) s.
Proof.
  unfold bind, get_obj. destruct (k (obj s) s) as [[r s2] e2]. reflexivity.
Qed.

Lemma bind_ret {O A B} (a : A) (k : A -> M O B) (s : state O) :
  bind (ret a) k s = k a s.
Proof. unfold bind, ret. destruct (k a s) as [[r s2] e2]. reflexivity. Qed.

Lemma bind_modify_obj {O B} (f : O -> O) (k : unit -> M O B) (s : state O) :
  bind (modify_obj f) k s
  = k tt (Build_state (fs s) (clock s) (prompts s) (f (obj s))).
Proof.
  unfold bind, modify_obj. destruct (k tt _) as [[r s2] e2]. reflexivity.
Qed.

Lemma bind_get_fs {O B} (k : gmap string string -> M O B) (s : state O) :
  bind get_fs k s = k (fs s) s.
Proof.
  unfold bind, get_fs. destruct (k (fs s) s) as [[r s2] e2]. reflexivity.
Qed.

Lemma bind_emit {O B} e (k : unit -> M O B) (s : state O) :
  bind (emit e) k s = (let '(r, s2, e2) := k tt s in (r, s2, e :: e2)).
Proof. reflexivity. Qed.

Lemma bind_write_file {O B} path content (k : unit -> M O B) (s : state O) :
  bind (write_file path content) k s
  = (let '(r, s2, e2) :=
       k tt (Build_state (<[path := content]> (fs s)) (clock s) (prompts s)
               (obj s)) in
     (r, s2, EvWrite path :: e2)).
Proof. reflexivity. Qed.

Lemma bind_unlink {O B} path (k : unit -> M O B) (s : state O) :
  bind (unlink path) k s
  = (let '(r, s2, e2) :=
       k tt (Build_state (delete path (fs s)) (clock s) (prompts s) (obj s)) in
     (r, s2, EvUnlink path :: e2)).
Proof. reflexivity. Qed.

Lemma bind_replace {O B} src dst (k : unit -> M O B) (s : state O) :
  bind (replace src dst) k s
  = (let '(r, s2, e2) :=
       k tt (Build_state
               (match fs s !! src with
                | Some c => <[dst := c]> (delete src (fs s))
                | None => fs s
                end) (clock s) (prompts s) (obj s)) in
     (r, s2, EvReplace src dst :: e2)).
Proof. reflexivity. Qed.

Lemma bind_input {O B} (w : world) (k : string -> M O B) (s : state O) :
  bind (input w) k s
  = match operator w (prompts s) with
    | Some line =>
        let '(r, s2, e2) :=
          k line (Build_state (fs s) (clock s) (S (prompts s)) (obj s)) in
        (r, s2, EvPrompt :: e2)
    | None =>
        (Exc EOFError, Build_state (fs s) (clock s) (S (prompts s)) (obj s),
         [EvPrompt])
    end.
Proof.
  unfold bind, input. destruct (operator w (prompts s)); reflexivity.
Qed.

Lemma sat_ret {O A} Q `{!Sequential Q} (a : A) : sat (O:=O) Q (ret a).
Proof. intros s r s' evs [= <- <- <-]. apply seq_nil. Qed.

Lemma sat_raise {O A} Q `{!Sequential Q} e : sat (O:=O) (A:=A) Q (raise e).
Proof. intros s r s' evs [= <- <- <-]. apply seq_nil. Qed.

Lemma sat_out_of_fuel {O A} Q `{!Sequential Q} : sat (O:=O) (A:=A) Q out_of_fuel.
Proof. intros s r s' evs [= <- <- <-]. apply seq_nil. Qed.

Lemma sat_get_obj {O} Q `{!Sequential Q} : sat (O:=O) Q get_obj.
Proof. intros s r s' evs [= <- <- <-]. apply seq_nil. Qed.

Lemma sat_get_fs {O} Q `{!Sequential Q} : sat (O:=O) Q get_fs.
Proof. intros s r s' evs [= <- <- <-]. apply seq_nil. Qed.

Lemma sat_bind {O A B} Q `{!Sequential Q} (m : M O A) (k : A -> M O B) :
  sat Q m -> (forall a, sat Q (k a)) -> sat Q (bind m k).
Proof.
  intros Hm Hk s r s' evs H.
  apply bind_inv in H as [(a & s1 & e1 & e2 & H1 & H2 & ->)|[(e & H1 & _)|[H1 _]]].
  - eapply seq_app; [eapply Hm|eapply Hk]; eauto.
  - eapply Hm; eauto.
  - eapply Hm; eauto.
Qed.

Lemma sat_catch {O A} Q `{!Sequential Q} sel (m : M O A) h :
  sat Q m -> (forall e, sat Q (h e)) -> sat Q (catch sel m h).
Proof.
  intros Hm Hh s r s' evs. unfold catch.
  destruct (m s) as [[[a|e|] s1] e1] eqn:H1.
  - intros [= <- <- <-]. eapply Hm; eauto.
  - destruct (sel e).
    + destruct (h e s1) as [[r2 s2] e2] eqn:H2. intros [= <- <- <-].
      eapply seq_app; [eapply Hm|eapply Hh]; eauto.
    + intros [= <- <- <-]. eapply Hm; eauto.
  - intros [= <- <- <-]. eapply Hm; eauto.
Qed.

(** ** Retrying requests *)

Ltac run := repeat (unfold bind at 1; simpl).

(** On a site that is down, with an operator who confirms every prompt,
    [retry_request] is still running after any number of iterations, one
    request each. *)
Lemma retry_request_down fuel url retries (s : state Sifang.crawler) :
  (retries < 5)%nat ->
  exists s' evs,
    Sifang.retry_request_loop down_world fuel url 5 retries s = (Fuel, s', evs)
    /\ clock s' = (clock s + fuel)%nat.
Proof.
  revert retries s. induction fuel as [|fuel IH]; intros retries s Hlt.
  - simpl. destruct (Nat.ltb_spec retries 5); [|lia].
    eexists _, _. split; [reflexivity|]. simpl. lia.
  - simpl. destruct (Nat.ltb_spec retries 5); [|lia].
    destruct retries as [|[|[|[|[|]]]]]; try lia; run;
    match goal with
    | |- context [Sifang.retry_request_loop _ _ _ _ ?r ?st] =>
        destruct (IH r st) as (s' & evs & -> & Hc); [lia|]
    end; eexists _, _; (split; [reflexivity|]); simpl in *; lia.
Qed.

(** The first five attempts on a site that is down: the delay between them
    doubles and is capped, and the fifth failure prompts the operator. *)
Example retry_request_backoff_trace :
  snd (Sifang.retry_request down_world 5 "https://sifang.lat/" (sifang_start false))
  = [EvSleep 2 5; EvRequest "https://sifang.lat/"; EvSleep 6 8;
     EvSleep 2 5; EvRequest "https://sifang.lat/"; EvSleep 12 14;
     EvSleep 2 5; EvRequest "https://sifang.lat/"; EvSleep 24 26;
     EvSleep 2 5; EvRequest "https://sifang.lat/"; EvSleep 45 45;
     EvSleep 2 5; EvRequest "https://sifang.lat/"; EvPrompt].
Proof. vm_compute. reflexivity. Qed.

(** Inversion of the runs of the primitive computations. *)
Ltac prim_inv H :=
  first
    [ apply bind_inv in H;
      destruct H as [(? & ? & ? & ? & ? & H & ?)|[(? & H & ?)|[H ?]]];
      try discriminate; subst
    | (unfold ret, raise, out_of_fuel, sleep, emit, get_obj, get_fs, modify_obj,
         set_fs, request, input, write_file, unlink, replace in H;
       inversion H; clear H; subst) ].

Ltac monad_inv :=
  repeat match goal with
    | H : bind _ _ _ = _ |- _ => prim_inv H
    | H : ret _ _ = _ |- _ => prim_inv H
    | H : raise _ _ = _ |- _ => prim_inv H
    | H : out_of_fuel _ = _ |- _ => prim_inv H
    | H : sleep _ _ _ = _ |- _ => prim_inv H
    | H : emit _ _ = _ |- _ => prim_inv H
    | H : get_obj _ = _ |- _ => prim_inv H
    | H : get_fs _ = _ |- _ => prim_inv H
    | H : modify_obj _ _ = _ |- _ => prim_inv H
    | H : request _ _ _ = _ |- _ => prim_inv H
    | H : input _ _ = _ |- _ => prim_inv H
    | H : write_file _ _ _ = _ |- _ => prim_inv H
    | H : unlink _ _ = _ |- _ => prim_inv H
    | H : replace _ _ _ = _ |- _ => prim_inv H
    end.

Ltac case_inv :=
  match goal with
  | H : (match ?x with _ => _ end) _ = (_, _, _) |- _ => destruct x eqn:?
  end.

Ltac monad_cases := repeat (monad_inv; try case_inv).

Ltac bool_hyps :=
  repeat match goal with
    | H : Nat.leb _ _ = true |- _ => apply Nat.leb_le in H
    | H : Nat.leb _ _ = false |- _ => apply Nat.leb_gt in H
    | H : Nat.ltb _ _ = true |- _ => apply Nat.ltb_lt in H
    | H : Nat.ltb _ _ = false |- _ => apply Nat.ltb_ge in H
    | H : Z.eqb _ _ = true |- _ => apply Z.eqb_eq in H
    | H : negb _ = true |- _ => apply negb_true_iff in H
    | H : negb _ = false |- _ => apply negb_false_iff in H
    end.

(** [retry_request] gives up only on an answer of the server: a redirect
    away from the site, or a status 443. *)
Lemma retry_request_gives_up w fuel url max_retries retries
    (s s' : state Sifang.crawler) evs :
  Sifang.retry_request_loop w fuel url max_retries retries s = (Ret None, s', evs) ->
  ((max_retries <= retries)%nat /\ s' = s)
  \/ exists t resp,
    clock s' = S t /\ eager (net w t url) = NetResp resp
    /\ (status resp = 443
        \/ (status_is_error resp = false
            /\ Py.str_in "sifang.lat" (final_url resp) = false)).
Proof.
  revert retries s s' evs.
  induction fuel as [|fuel IH]; intros retries s s' evs;
    cbn [Sifang.retry_request_loop];
    destruct (Nat.ltb_spec retries max_retries) as [Hlt|Hge].
  - intros H. monad_inv.
  - intros H. monad_inv. left; auto.
  - intros H. right. monad_cases;
      try match goal with
        | H : Sifang.retry_request_loop _ _ _ _ _ _ = _ |- _ =>
            apply IH in H as [[Hle ->]|H]; [|exact H]
        end; bool_hyps; simpl in *; try lia; eauto 10.
  - intros H. monad_inv. left; auto.
Qed.

Ltac forall_list :=
  repeat first [ apply List.Forall_nil
               | apply List.Forall_cons; [solve [auto]|] ].

(** [_get_response] returns after [k <= n] further requests, all to
    [url], sleeping 4 to 8 seconds after each but the last failure; when
    every attempt fails it returns [None] after exactly [n] requests. *)
Lemma get_response_loop_spec w url retries n (s : state Meitu.spider) :
  (n <= retries)%nat ->
  exists v s' evs k,
    Meitu.get_response_loop w url retries n s = (Ret v, s', evs)
    /\ fs s' = fs s /\ obj s' = obj s /\ prompts s' = prompts s
    /\ clock s' = (clock s + k)%nat /\ (k <= n)%nat
    /\ requests_of evs = replicate k url
    /\ Forall (fun e => e = EvRequest url \/ e = EvSleep 4 8) evs
    /\ ((forall t, (clock s <= t < clock s + n)%nat ->
                   Meitu.attempt_ok (net w t url) = None) ->
        v = None /\ k = n).
Proof.
  revert s. induction n as [|n IH]; intros s Hn.
  - exists None, s, [], 0%nat. simpl. rewrite Nat.add_0_r.
    repeat split; auto.
  - cbn [Meitu.get_response_loop]. run.
    destruct (Meitu.attempt_ok (net w (clock s) url)) as [r|] eqn:Hok.
    + run. eexists _, _, _, 1%nat. split; [reflexivity|]. simpl.
      repeat split; auto; try lia; try forall_list;
        try (rewrite H in Hok by lia; discriminate).
    + destruct (Nat.ltb_spec (retries - S n) (retries - 1)) as [Hlt|Hge].
      * run.
        destruct (IH (Build_state (fs s) (S (clock s)) (prompts s) (obj s)))
          as (v & s' & evs & k & -> & Hfs & Hobj & Hpr & Hck & Hk & Hreq & Hev
              & Hall); [lia|].
        simpl in *. eexists _, _, _, (S k). split; [reflexivity|].
        assert (Hall' : (forall t, (clock s <= t < clock s + S n)%nat ->
                           Meitu.attempt_ok (net w t url) = None) ->
                        v = None /\ k = n).
        { intros H. apply Hall. intros t Ht. apply H. lia. }
        repeat split; auto; try lia; try forall_list; try apply Hall'; auto.
        -- simpl. rewrite Hreq. reflexivity.
        -- f_equal. apply Hall'; auto.
      * assert (n = 0)%nat as -> by lia.
        simpl. eexists _, _, _, 1%nat. split; [reflexivity|]. simpl.
        repeat split; auto; try lia; forall_list.
Qed.

(** C3, as the specification states it, fails on [retry_request] of
    sifang_crawler.py: on a site that stays down, with an operator who
    confirms each prompt, the call never returns a failure; after any number
    [fuel] of iterations it has issued [fuel] requests and is still in its
    loop. *)
Lemma C3_retry_request_unbounded :
  (~ exists fuel r s' evs,
       Sifang.retry_request down_world fuel "https://sifang.lat/"
         (sifang_start false) = (Ret r, s', evs))
  /\ (forall fuel, exists s' evs,
        Sifang.retry_request down_world fuel "https://sifang.lat/"
          (sifang_start false) = (Fuel, s', evs)
        /\ clock s' = fuel).
Proof.
  assert (H : forall fuel, exists s' evs,
             Sifang.retry_request down_world fuel "https://sifang.lat/"
               (sifang_start false) = (Fuel, s', evs)
             /\ clock s' = fuel).
  { intros fuel.
    destruct (retry_request_down fuel "https://sifang.lat/" 0 (sifang_start false))
      as (s' & evs & Hrun & Hck); [lia|].
    exists s', evs. split; [exact Hrun|]. simpl in Hck. lia. }
  split; [|exact H].
  intros (fuel & r & s' & evs & Hrun).
  destruct (H fuel) as (s2 & e2 & Hrun2 & _). congruence.
Qed.

(** One iteration of [retry_request] that ends in the handler of
    [RequestException], with [retries] failures counted before: the next
    iteration starts after the backoff delay, or, when this is the fifth
    failure in a row, after the operator has answered the prompt, with the
    count back at 0. *)
Lemma retry_request_loop_exception (w : world) fuel url retries
    (s : state Sifang.crawler) reset :
  (retries < 5)%nat ->
  request_exception (net w (clock s) url) = Some reset ->
  let pause := if reset then [EvSleep 20 40] else [] in
  let s1 := Build_state (fs s) (S (clock s)) (prompts s) (obj s) in
  Sifang.retry_request_loop w (S fuel) url 5 retries s
  = if Nat.ltb (S retries) 5 then
      let '(r, s', evs) := Sifang.retry_request_loop w fuel url 5 (S retries) s1 in
      (r, s',
       [EvSleep 2 5; EvRequest url] ++ pause
       ++ [EvSleep (Z.min (6 * 2 ^ Z.of_nat retries) 45)
             (Z.min (6 * 2 ^ Z.of_nat retries + 2) 45)] ++ evs)
    else
      match operator w (prompts s) with
      | Some _ =>
          let '(r, s', evs) :=
            Sifang.retry_request_loop w fuel url 5 0
              (Build_state (fs s) (S (clock s)) (S (prompts s)) (obj s)) in
          (r, s', [EvSleep 2 5; EvRequest url] ++ pause ++ [EvPrompt] ++ evs)
      | None =>
          (Exc EOFError,
           Build_state (fs s) (S (clock s)) (S (prompts s)) (obj s),
           [EvSleep 2 5; EvRequest url] ++ pause ++ [EvPrompt])
      end.
Proof.
  intros Hlt Hexc pause s1.
  assert (Hlo : Sifang.backoff_lo (S retries) = Z.min (6 * 2 ^ Z.of_nat retries) 45).
  { unfold Sifang.backoff_lo. do 3 f_equal. lia. }
  assert (Hhi : Sifang.backoff_hi (S retries)
                = Z.min (6 * 2 ^ Z.of_nat retries + 2) 45).
  { unfold Sifang.backoff_hi. do 4 f_equal. lia. }
  assert (Hon : forall rs,
    rs = reset ->
    (bind (if rs then sleep 20 40 else ret tt) (fun _ =>
       if Nat.leb 5 (S retries)
       then bind (input w) (fun _ => Sifang.retry_request_loop w fuel url 5 0)
       else bind (sleep (Sifang.backoff_lo (S retries))
                    (Sifang.backoff_hi (S retries)))
              (fun _ => Sifang.retry_request_loop w fuel url 5 (S retries)))) s1
    = if Nat.ltb (S retries) 5 then
      let '(r, s', evs) := Sifang.retry_request_loop w fuel url 5 (S retries) s1 in
      (r, s',
       pause
       ++ [EvSleep (Z.min (6 * 2 ^ Z.of_nat retries) 45)
             (Z.min (6 * 2 ^ Z.of_nat retries + 2) 45)] ++ evs)
    else
      match operator w (prompts s) with
      | Some _ =>
          let '(r, s', evs) :=
            Sifang.retry_request_loop w fuel url 5 0
              (Build_state (fs s) (S (clock s)) (S (prompts s)) (obj s)) in
          (r, s', pause ++ [EvPrompt] ++ evs)
      | None =>
          (Exc EOFError,
           Build_state (fs s) (S (clock s)) (S (prompts s)) (obj s),
           pause ++ [EvPrompt])
      end).
  { intros rs ->. rewrite Hlo, Hhi. subst pause.
    destruct (Nat.ltb_spec (S retries) 5) as [Hs|Hs];
      destruct (Nat.leb_spec 5 (S retries)) as [Hs'|Hs']; try lia;
      destruct reset; rewrite ?bind_sleep, ?bind_ret, ?bind_input,
                        ?bind_sleep; subst s1; cbn [prompts fs clock obj];
      try (destruct (operator w (prompts s)); [|reflexivity]);
      match goal with
      | |- context [Sifang.retry_request_loop ?a ?b ?c ?d ?e ?st] =>
          destruct (Sifang.retry_request_loop a b c d e st) as [[r s'] evs]
      end; reflexivity. }
  cbn [Sifang.retry_request_loop].
  destruct (Nat.ltb_spec retries 5) as [_|]; [|lia].
  rewrite bind_sleep, bind_request. fold s1.
  unfold request_exception in Hexc.
  destruct (eager (net w (clock s) url)) as [r0|f].
  - destruct (status r0 =? 443); [discriminate|].
    destruct (status_is_error r0); [|discriminate].
    injection Hexc as <-. rewrite (Hon false eq_refl).
    destruct (Nat.ltb (S retries) 5).
    + destruct (Sifang.retry_request_loop w fuel url 5 (S retries) s1)
        as [[r s'] evs]. reflexivity.
    + destruct (operator w (prompts s)); [|reflexivity].
      destruct (Sifang.retry_request_loop w fuel url 5 0 _)
        as [[r s'] evs]. reflexivity.
  - destruct f; try discriminate; injection Hexc as <-;
      rewrite (Hon _ eq_refl);
      (destruct (Nat.ltb (S retries) 5);
       [destruct (Sifang.retry_request_loop w fuel url 5 (S retries) s1)
          as [[r s'] evs]; reflexivity
       |destruct (operator w (prompts s)); [|reflexivity];
        destruct (Sifang.retry_request_loop w fuel url 5 0 _)
          as [[r s'] evs]; reflexivity]).
Qed.

(** While every request ends in that handler and the operator answers
    every prompt, [retry_request] does not return: after any number of
    iterations it has issued as many requests and is still in its loop. *)
Lemma retry_request_loop_unbounded (w : world) url :
  (forall t, request_exception (net w t url) <> None) ->
  (forall n, operator w n <> None) ->
  forall fuel retries (s : state Sifang.crawler),
    (retries < 5)%nat ->
    exists s' evs,
      Sifang.retry_request_loop w fuel url 5 retries s = (Fuel, s', evs)
      /\ clock s' = (clock s + fuel)%nat
      /\ length (requests_of evs) = fuel
      /\ prompts s' = (prompts s + (retries + fuel) / 5)%nat.
Proof.
  intros Hexc Hop. induction fuel as [|fuel IH]; intros retries s Hlt.
  - exists s, []. cbn [Sifang.retry_request_loop].
    destruct (Nat.ltb_spec retries 5); [|lia].
    rewrite !Nat.add_0_r, Nat.div_small by lia.
    repeat split; auto.
  - destruct (request_exception (net w (clock s) url)) as [reset|] eqn:He;
      [|exfalso; exact (Hexc _ He)].
    rewrite (retry_request_loop_exception w fuel url retries s reset Hlt He).
    assert (Hreq : forall pre : list event,
               pre = [] \/ pre = [EvSleep 20 40] ->
               forall tl, requests_of (pre ++ tl) = requests_of tl).
    { intros pre [->| ->] tl; reflexivity. }
    assert (Hpause : (if reset then [EvSleep 20 40] else [])
                     = [] \/ (if reset then [EvSleep 20 40] else [])
                             = [EvSleep 20 40])
      by (destruct reset; auto).
    destruct (Nat.ltb_spec (S retries) 5) as [Hs|Hs].
    + destruct (IH (S retries)
                  (Build_state (fs s) (S (clock s)) (prompts s) (obj s)) Hs)
        as (s' & evs & -> & Hck & Hlen & Hpr).
      eexists _, _. split; [reflexivity|]. cbn [clock prompts] in Hck, Hpr.
      split; [lia|]. split.
      * change (requests_of ([EvSleep 2 5; EvRequest url] ++ ?x))
          with (url :: requests_of x).
        rewrite (Hreq _ Hpause). simpl. lia.
      * rewrite Hpr.
        replace (S retries + fuel)%nat with (retries + S fuel)%nat by lia.
        reflexivity.
    + assert (retries = 4)%nat as -> by lia.
      destruct (operator w (prompts s)) as [line|] eqn:Hline;
        [|exfalso; exact (Hop _ Hline)].
      destruct (IH 0%nat
                  (Build_state (fs s) (S (clock s)) (S (prompts s)) (obj s)))
        as (s' & evs & -> & Hck & Hlen & Hpr); [lia|].
      eexists _, _. split; [reflexivity|]. cbn [clock prompts] in Hck, Hpr.
      split; [lia|]. split.
      * change (requests_of ([EvSleep 2 5; EvRequest url] ++ ?x))
          with (url :: requests_of x).
        rewrite (Hreq _ Hpause). simpl. lia.
      * rewrite Hpr.
        replace (4 + S fuel)%nat with (fuel + 1 * 5)%nat by lia.
        rewrite Nat.div_add by lia. simpl. lia.
Qed.

(** C3, amended. In 美图色色.py, [_get_response] makes at most 5 calls of
    [session.get], sleeps 4 to 8 seconds between them (no exponential
    growth), and returns [None] after exactly 5 calls when all of them
    fail. In sifang_crawler.py, [retry_request] reports a failure ([None])
    only on an answer of the server, a redirect off the site or a status
    443. A failure by exception is retried: after the k-th in a row, k
    below 5, the next request follows a delay of
    min(6 * 2^(k-1) + jitter, 45) seconds, the jitter between 0 and 2 (and a
    pause of 20 to 40 seconds before it after error 10054); the fifth in a
    row prompts the operator, and once the prompt is answered the count
    starts again at 0. So, while every request fails by exception and the
    operator answers, the call issues requests without end. *)
Theorem C3_retry_bounds (w : world) (url : string) :
  (forall s : state Meitu.spider,
      exists v s' evs k,
        Meitu._get_response w url 5 s = (Ret v, s', evs)
        /\ (k <= 5)%nat
        /\ requests_of evs = replicate k url
        /\ Forall (fun e => e = EvRequest url \/ e = EvSleep 4 8) evs
        /\ ((forall t, (clock s <= t < clock s + 5)%nat ->
                       Meitu.attempt_ok (net w t url) = None) ->
            v = None /\ k = 5%nat))
  /\ (forall fuel (s s' : state Sifang.crawler) evs,
         Sifang.retry_request w fuel url s = (Ret None, s', evs) ->
         exists t resp,
           clock s' = S t /\ eager (net w t url) = NetResp resp
           /\ (status resp = 443
               \/ (status_is_error resp = false
                   /\ Py.str_in "sifang.lat" (final_url resp) = false)))
  /\ (forall fuel retries (s : state Sifang.crawler) reset,
         (retries < 5)%nat ->
         request_exception (net w (clock s) url) = Some reset ->
         let pause := if reset then [EvSleep 20 40] else [] in
         Sifang.retry_request_loop w (S fuel) url 5 retries s
         = if Nat.ltb (S retries) 5 then
             let '(r, s', evs) :=
               Sifang.retry_request_loop w fuel url 5 (S retries)
                 (Build_state (fs s) (S (clock s)) (prompts s) (obj s)) in
             (r, s',
              [EvSleep 2 5; EvRequest url] ++ pause
              ++ [EvSleep (Z.min (6 * 2 ^ Z.of_nat retries) 45)
                    (Z.min (6 * 2 ^ Z.of_nat retries + 2) 45)] ++ evs)
           else
             match operator w (prompts s) with
             | Some _ =>
                 let '(r, s', evs) :=
                   Sifang.retry_request_loop w fuel url 5 0
                     (Build_state (fs s) (S (clock s)) (S (prompts s))
                        (obj s)) in
                 (r, s',
                  [EvSleep 2 5; EvRequest url] ++ pause ++ [EvPrompt] ++ evs)
             | None =>
                 (Exc EOFError,
                  Build_state (fs s) (S (clock s)) (S (prompts s)) (obj s),
                  [EvSleep 2 5; EvRequest url] ++ pause ++ [EvPrompt])
             end)
  /\ ((forall t, request_exception (net w t url) <> None) ->
      (forall n, operator w n <> None) ->
      forall fuel (s : state Sifang.crawler),
        exists s' evs,
          Sifang.retry_request w fuel url s = (Fuel, s', evs)
          /\ length (requests_of evs) = fuel
          /\ prompts s' = (prompts s + fuel / 5)%nat).
Proof.
  split; [|split; [|split]].
  - intros s. unfold Meitu._get_response.
    destruct (get_response_loop_spec w url 5 5 s)
      as (v & s' & evs & k & Hrun & _ & _ & _ & _ & Hk & Hreq & Hev & Hall);
      [lia|].
    exists v, s', evs, k. auto.
  - intros fuel s s' evs Hrun. unfold Sifang.retry_request in Hrun.
    apply retry_request_gives_up in Hrun as [[Hle _]|H]; [lia|exact H].
  - intros fuel retries s reset Hlt Hexc.
    apply (retry_request_loop_exception w fuel url retries s reset Hlt Hexc).
  - intros Hexc Hop fuel s. unfold Sifang.retry_request.
    destruct (retry_request_loop_unbounded w url Hexc Hop fuel 0 s)
      as (s' & evs & Hrun & _ & Hlen & Hpr); [lia|].
    exists s', evs. auto.
Qed.

Lemma C3_retry_bounds_witness :
  (exists v s' evs,
      Meitu._get_response down_world "https://example.org/a" 5 (meitu_start true)
      = (Ret v, s', evs)
      /\ v = None /\ requests_of evs = replicate 5 "https://example.org/a")
  /\ (exists t resp,
        eager (net redirect_world t "https://sifang.lat/") = NetResp resp
        /\ Py.str_in "sifang.lat" (final_url resp) = false)
  /\ (exists s' evs,
        Sifang.retry_request down_world 7 "https://sifang.lat/"
          (sifang_start false)
        = (Fuel, s', [EvSleep 2 5; EvRequest "https://sifang.lat/"; EvSleep 6 8;
                      EvSleep 2 5; EvRequest "https://sifang.lat/"; EvSleep 12 14;
                      EvSleep 2 5; EvRequest "https://sifang.lat/"; EvSleep 24 26;
                      EvSleep 2 5; EvRequest "https://sifang.lat/"; EvSleep 45 45;
                      EvSleep 2 5; EvRequest "https://sifang.lat/"; EvPrompt]
                     ++ evs)
        /\ prompts s' = 1%nat).
Proof.
  destruct (C3_retry_bounds down_world "https://example.org/a") as [Hm _].
  destruct (C3_retry_bounds redirect_world "https://sifang.lat/")
    as (_ & Hs & _).
  destruct (C3_retry_bounds down_world "https://sifang.lat/")
    as (_ & _ & Hstep & Hloop).
  split; [|split].
  - destruct (Hm (meitu_start true)) as (v & s' & evs & k & Hrun & _ & Hreq & _ & Hall).
    destruct Hall as [-> ->]; [reflexivity|].
    exists None, s', evs. auto.
  - destruct (Hs 1%nat (sifang_start false)
                (Build_state ∅ 1 0 (crawler0 false))
                [EvSleep 2 5; EvRequest "https://sifang.lat/"])
      as (t & resp & _ & Hnet & [H443|[_ Hdom]]).
    + reflexivity.
    + exfalso. simpl in Hnet. injection Hnet as <-. discriminate H443.
    + exists t, resp. auto.
  - assert (Hexc : forall t, request_exception
                                (net down_world t "https://sifang.lat/") <> None)
      by (intros t; vm_compute; discriminate).
    assert (Hop : forall n, operator down_world n <> None)
      by (intros n; vm_compute; discriminate).
    destruct (Hloop Hexc Hop 7%nat (sifang_start false))
      as (s' & evs & Hrun & _ & Hpr).
    unfold Sifang.retry_request in Hrun |- *.
    pose proof Hrun as Hrun2.
    rewrite (Hstep 6%nat 0%nat _ false ltac:(lia) eq_refl) in Hrun2.
    cbn [Nat.ltb Nat.leb] in Hrun2.
    rewrite (Hstep 5%nat 1%nat _ false ltac:(lia) eq_refl) in Hrun2.
    cbn [Nat.ltb Nat.leb] in Hrun2.
    rewrite (Hstep 4%nat 2%nat _ false ltac:(lia) eq_refl) in Hrun2.
    cbn [Nat.ltb Nat.leb] in Hrun2.
    rewrite (Hstep 3%nat 3%nat _ false ltac:(lia) eq_refl) in Hrun2.
    cbn [Nat.ltb Nat.leb] in Hrun2.
    rewrite (Hstep 2%nat 4%nat _ false ltac:(lia) eq_refl) in Hrun2.
    cbn [Nat.ltb Nat.leb operator down_world prompts] in Hrun2.
    match type of Hrun2 with
    | context [Sifang.retry_request_loop ?a ?b ?c ?d ?e ?st] =>
        destruct (Sifang.retry_request_loop a b c d e st)
          as [[r2 s2] e2] eqn:Hrest
    end.
    injection Hrun2 as _ _ Hevs.
    exists s', e2. split; [|exact Hpr].
    rewrite Hrun, <- Hevs. reflexivity.
Defined.

(** ** The fetch of an album page that fails (美图色色.py) *)

(** C10. When [_get_response] returns [None] for the page of an album,
    [_parse_album_images] raises [AttributeError] where it reads
    [response.text], and returns no list; [_download_album] lets the
    exception through before it can append to [self.failed_albums]; the
    handler of [run] only logs it, so the album enters neither the list of
    [run] nor the fields of the spider. *)
Theorem C10_parse_album_images_unguarded (L : Meitu.lib) (w : world)
    (album_title album_url : string) (s s1 : state Meitu.spider)
    (e1 : list event) :
  Meitu._get_response w album_url 5 s = (Ret None, s1, e1) ->
  Meitu._parse_album_images L w album_url s = (Exc AttributeError, s1, e1)
  /\ Meitu._download_album L w (Meitu.Info album_title album_url) s
     = (Exc AttributeError, s1, e1)
  /\ (forall failed,
         Meitu.first_pass L w [(album_title, album_url)] failed s
         = (Ret failed, s1, e1))
  /\ obj s1 = obj s.
Proof.
  intros Hget.
  assert (Hparse : Meitu._parse_album_images L w album_url s
                   = (Exc AttributeError, s1, e1)).
  { unfold Meitu._parse_album_images.
    rewrite (bind_Ret _ _ _ _ _ _ Hget). simpl. unfold bind, raise. simpl.
    rewrite app_nil_r. reflexivity. }
  assert (Hdown : Meitu._download_album L w (Meitu.Info album_title album_url) s
                  = (Exc AttributeError, s1, e1)).
  { unfold Meitu._download_album. unfold bind at 1. simpl.
    rewrite (bind_Exc _ _ _ _ _ _ Hparse). reflexivity. }
  repeat split; auto.
  - intros failed. cbn [Meitu.first_pass]. unfold bind at 1, catch.
    rewrite (bind_Exc _ _ _ _ _ _ Hdown). simpl.
    rewrite !app_nil_r. reflexivity.
  - unfold Meitu._get_response in Hget.
    destruct (get_response_loop_spec w album_url 5 5 s)
      as (v & s' & evs & k & Hrun & _ & Hobj & _); [lia|].
    congruence.
Qed.

Lemma C10_parse_album_images_unguarded_witness :
  exists s1 e1,
    Meitu._parse_album_images meitu_lib down_world "https://example.org/a"
      (meitu_start true) = (Exc AttributeError, s1, e1)
    /\ Meitu.failed_albums (obj s1) = [].
Proof.
  eexists _, _.
  destruct (C10_parse_album_images_unguarded meitu_lib down_world "a"
              "https://example.org/a" (meitu_start true)
              _ _ eq_refl) as (Hparse & _ & _ & Hobj).
  split; [exact Hparse|]. rewrite Hobj. reflexivity.
Defined.

(** ** The skip rule of the download workers *)

(** C5, as the specification states it, fails on [_download_image] of
    美图色色.py: with validation enabled and a file at the destination that
    does not decode, it reports success at once, without decoding and
    without fetching. *)
Lemma C5_meitu_keeps_corrupt_file :
  Meitu.verify (obj meitu_with_junk) = true
  /\ fs meitu_with_junk !! "out/a/001.jpg" = Some "junk"
  /\ Meitu.pil_ok meitu_lib "junk" = false
  /\ Meitu._download_image meitu_lib down_world "https://example.org/1.jpg"
       "out/a/001.jpg" meitu_with_junk
     = (Ret true, meitu_with_junk, []).
Proof. repeat split; vm_compute; reflexivity. Qed.

Arguments Sifang.download_attempts : simpl never.
Arguments Meitu.get_response_loop : simpl never.
Arguments Ku1372.download_attempts : simpl never.

Lemma download_attempts_S L w n retry image_url save_path :
  Sifang.download_attempts L w (S n) retry image_url save_path
  = bind (sleep 2 6) (fun _ =>
      bind (request w image_url) (fun o =>
        match o with
        | NetFail f =>
            bind (Sifang.after_fault f retry) (fun _ =>
              Sifang.download_attempts L w n (S retry) image_url save_path)
        | NetResp r =>
            if status_is_error r then
              bind (sleep 5 10) (fun _ =>
                Sifang.download_attempts L w n (S retry) image_url save_path)
            else if negb (Py.startswith (default EmptyString (content_type r))
                            "image/")
            then ret false
            else
              let temp_path := Sifang.temp_path_of save_path in
              bind (write_file temp_path (body r)) (fun _ =>
                match broken r with
                | Some f =>
                    bind (Sifang.after_fault f retry) (fun _ =>
                      Sifang.download_attempts L w n (S retry) image_url save_path)
                | None =>
                    bind (Sifang.is_image_corrupted L temp_path) (fun corrupted =>
                      if corrupted then
                        bind (unlink temp_path) (fun _ =>
                          bind (sleep 3 5) (fun _ =>
                            Sifang.download_attempts L w n (S retry)
                              image_url save_path))
                      else
                        bind (replace temp_path save_path) (fun _ =>
                          bind (modify_obj Sifang.bump_downloaded_images) (fun _ =>
                            bind (sleep 1 3) (fun _ => ret true))))
                end)
        end)).
Proof. reflexivity. Qed.

Lemma get_response_loop_S (w : world) url retries n :
  Meitu.get_response_loop w url retries (S n)
  = bind (request w url) (fun o =>
      match Meitu.attempt_ok o with
      | Some r => bind (sleep 4 8) (fun _ => ret (Some r))
      | None =>
          if Nat.ltb (retries - S n) (retries - 1)
          then bind (sleep 4 8) (fun _ =>
                 Meitu.get_response_loop w url retries n)
          else ret None
      end).
Proof. reflexivity. Qed.

(** A response that [_get_response] returns is the answer to one of its
    calls. *)
Lemma get_response_loop_some (w : world) url retries n
    (s s' : state Meitu.spider) r evs :
  Meitu.get_response_loop w url retries n s = (Ret (Some r), s', evs) ->
  exists t, (clock s <= t < clock s + n)%nat
            /\ Meitu.attempt_ok (net w t url) = Some r.
Proof.
  revert s s' evs. induction n as [|n IH]; intros s s' evs H.
  - change (ret None s = (Ret (Some r), s', evs)) in H. monad_inv.
  - rewrite get_response_loop_S in H. monad_cases.
    + exists (clock s). split; [lia|]. congruence.
    + match goal with
      | H : Meitu.get_response_loop _ _ _ _ _ = _ |- _ =>
          apply IH in H as (t & Ht & Hok)
      end.
      simpl in Ht. exists t. split; [lia|exact Hok].
Qed.

Ltac destruct_run :=
  match goal with
  | |- context [let (_, _) := ?X in _] =>
      lazymatch X with
      | context [let (_, _) := _ in _] => fail
      | _ => destruct X as [[? ?] ?] eqn:?
      end
  end.

(** The skip rule of [download_image], case by case. *)
Lemma keep_existing_spec (L : Sifang.lib) save_path (s : state Sifang.crawler) :
  Sifang.keep_existing L save_path s
  = match fs s !! save_path with
    | Some c =>
        if negb (Sifang.verify (obj s)) then (Ret true, s, [])
        else (Ret (Sifang.pil_ok L c), s, [EvDecode save_path])
    | None => (Ret false, s, [])
    end.
Proof.
  unfold Sifang.keep_existing, Sifang.is_image_corrupted. run.
  destruct (fs s !! save_path) as [c|] eqn:Hfs; [|reflexivity].
  destruct (Sifang.verify (obj s)); simpl; [|reflexivity].
  run. rewrite Hfs. rewrite negb_involutive. reflexivity.
Qed.

(** C5, amended. [download_image] of sifang_crawler.py follows the rule: a
    file at the destination is kept without a request when validation is
    off, or when it is on and the file decodes; when it is on and the file
    does not decode, the download starts. [_download_image] of 美图色色.py
    keeps any file at the destination, whatever the validation flag. *)
Theorem C5_skip_rule (L : Sifang.lib) (w : world) (image_url save_path : string)
    (s : state Sifang.crawler) (c : string) :
  fs s !! save_path = Some c ->
  (Sifang.verify (obj s) = false ->
   Sifang.download_image L w image_url save_path s = (Ret true, s, []))
  /\ (Sifang.verify (obj s) = true -> Sifang.pil_ok L c = true ->
      Sifang.download_image L w image_url save_path s
      = (Ret true, s, [EvDecode save_path]))
  /\ (Sifang.verify (obj s) = true -> Sifang.pil_ok L c = false ->
      exists r s' evs,
        Sifang.download_image L w image_url save_path s
        = (r, s', EvDecode save_path :: EvSleep 2 6 :: EvRequest image_url :: evs))
  /\ (forall (Lm : Meitu.lib) (sm : state Meitu.spider) cm,
         fs sm !! save_path = Some cm ->
         Meitu._download_image Lm w image_url save_path sm = (Ret true, sm, [])).
Proof.
  intros Hfs. repeat split.
  - intros Hv. unfold Sifang.download_image, bind.
    rewrite keep_existing_spec, Hfs, Hv. reflexivity.
  - intros Hv Hok. unfold Sifang.download_image, bind.
    rewrite keep_existing_spec, Hfs, Hv, Hok. reflexivity.
  - intros Hv Hbad. unfold Sifang.download_image. unfold bind at 1.
    rewrite keep_existing_spec, Hfs, Hv, Hbad. simpl.
    rewrite download_attempts_S, bind_sleep, bind_request.
    destruct_run.
    eexists _, _, _. reflexivity.
  - intros Lm sm cm Hm. unfold Meitu._download_image. run.
    rewrite Hm. reflexivity.
Qed.

Lemma C5_skip_rule_witness :
  Sifang.download_image sifang_lib down_world "https://img.example/1.jpg"
    "out/a/image_001.jpg" (sifang_with_image true)
  = (Ret true, sifang_with_image true, [EvDecode "out/a/image_001.jpg"]).
Proof.
  assert (Hfs : fs (sifang_with_image true) !! "out/a/image_001.jpg"
                = Some "IMG1") by (vm_compute; reflexivity).
  apply (proj1 (proj2 (C5_skip_rule sifang_lib down_world
                         "https://img.example/1.jpg" "out/a/image_001.jpg"
                         (sifang_with_image true) "IMG1" Hfs)));
    vm_compute; reflexivity.
Defined.

(** ** Downloads through a temporary file (sifang_crawler.py) *)

Lemma string_length_append (a b : string) :
  String.length (String.append a b) = (String.length a + String.length b)%nat.
Proof. induction a as [|c a IH]; simpl; [reflexivity|]. rewrite IH. reflexivity. Qed.

Lemma temp_path_ne (save_path : string) :
  Sifang.temp_path_of save_path <> save_path.
Proof.
  intros H. apply (f_equal String.length) in H.
  unfold Sifang.temp_path_of in H. rewrite string_length_append in H.
  simpl in H. lia.
Qed.

(** The attempts of [download_image]: the result is a boolean; all writes
    go to the temporary path; a failure leaves the destination as it was;
    a success leaves there a file that decodes, moved from the temporary
    path. *)
Lemma download_attempts_spec (L : Sifang.lib) (w : world) image_url save_path
    n retry (s s' : state Sifang.crawler) r evs :
  Sifang.download_attempts L w n retry image_url save_path s = (r, s', evs) ->
  exists b, r = Ret b
    /\ Forall (writes_to_temp_only save_path) evs
    /\ (length (requests_of evs) <= n)%nat
    /\ (b = false ->
        fs s' !! save_path = fs s !! save_path
        /\ Forall (fun e => is_replace e = false) evs)
    /\ (b = true ->
        exists c, fs s' !! save_path = Some c /\ Sifang.pil_ok L c = true
          /\ fs s' !! Sifang.temp_path_of save_path = None
          /\ EvReplace (Sifang.temp_path_of save_path) save_path ∈ evs).
Proof.
  pose proof (temp_path_ne save_path) as Hne.
  revert retry s s' r evs. induction n as [|n IH]; intros retry s s' r evs H.
  - change (ret false s = (r, s', evs)) in H. monad_inv.
    exists false. repeat split; auto; discriminate.
  - rewrite download_attempts_S in H.
    unfold Sifang.after_fault, Sifang.is_image_corrupted in H.
    monad_cases;
      try match goal with
        | H : Sifang.download_attempts _ _ _ _ _ _ _ = _ |- _ =>
            apply IH in H as (b & -> & Hev & Hlen & Hf & Ht)
        end.
    all: simpl in *.
    all: eexists; split; [reflexivity|].
    all: (split; [repeat (apply List.Forall_cons; [simpl; auto|]);
                  first [assumption | apply List.Forall_nil]|]).
    all: (split; [simpl; lia|]).
    all: split; intros Hb; try discriminate Hb.
    all: try (destruct (Hf Hb) as [Hfs Hrep]; split;
              [rewrite Hfs; simpl; simplify_map_eq; auto
              |repeat (apply List.Forall_cons; [reflexivity|]); assumption]).
    all: try (destruct (Ht Hb) as (c & Hc1 & Hc2 & Hc3 & Hc4); exists c;
              repeat split; auto; rewrite !elem_of_cons; auto 10).
    + split; [reflexivity|]. repeat constructor.
    + rewrite lookup_insert_eq in *. exists (body r0).
      apply negb_false_iff in Heqb1.
      rewrite lookup_insert_eq, lookup_insert_ne, lookup_delete_eq by auto.
      repeat split; auto. rewrite !elem_of_cons. auto 10.
Qed.

(** C4, amended: see [C4_non_image_rejected] below. An attempt that is
    answered with a content type that is no image ends the call at once. *)
Lemma download_attempts_non_image (L : Sifang.lib) (w : world)
    image_url save_path n retry (s : state Sifang.crawler) resp :
  net w (clock s) image_url = NetResp resp ->
  status_is_error resp = false ->
  Py.startswith (default EmptyString (content_type resp)) "image/" = false ->
  Sifang.download_attempts L w (S n) retry image_url save_path s
  = (Ret false, Build_state (fs s) (S (clock s)) (prompts s) (obj s),
     [EvSleep 2 6; EvRequest image_url]).
Proof.
  intros Hnet Hst Hct.
  rewrite download_attempts_S, bind_sleep, bind_request, Hnet, Hst, Hct.
  reflexivity.
Qed.

Lemma ku_download_attempts_S L w n album_url save_path :
  Ku1372.download_attempts L w (S n) album_url save_path
  = (let failed : M Ku1372.counters bool :=
       bind (Ku1372.remove_if_exists save_path) (fun _ =>
         bind (sleep 4 8) (fun _ =>
           Ku1372.download_attempts L w n album_url save_path)) in
     let rejected : M Ku1372.counters bool :=
       bind (unlink save_path) (fun _ =>
         bind (sleep 4 8) (fun _ =>
           Ku1372.download_attempts L w n album_url save_path)) in
     bind (Ku1372.get_download_link L w album_url) (fun link =>
       match link ≫= Py.truthy with
       | None => ret false
       | Some download_url =>
           bind (sleep 2 4) (fun _ =>
             bind (request w download_url) (fun o =>
               match o with
               | NetFail _ => failed
               | NetResp r =>
                   if status_is_error r then failed
                   else
                     bind (write_file save_path (body r)) (fun _ =>
                       match broken r with
                       | Some _ => failed
                       | None =>
                           if Ku1372.looks_like_html (Py.take 512 (body r))
                           then rejected
                           else if Z.of_nat (String.length (body r)) <? 1024
                           then rejected
                           else if (0 <? default 0 (content_length r))
                                   && (1024 <? Z.abs
                                         (Z.of_nat (String.length (body r))
                                          - default 0 (content_length r)))
                           then rejected
                           else bind (modify_obj Ku1372.bump_success)
                                  (fun _ => ret true)
                       end)
               end))
       end)).
Proof. reflexivity. Qed.

Lemma ku_download_attempts_spec (L : Ku1372.lib) (w : world) n album_url
    save_path (s s' : state Ku1372.counters) r evs :
  Ku1372.download_attempts L w n album_url save_path s = (r, s', evs) ->
  exists b, r = Ret b
    /\ (length (requests_of evs) <= 2 * n)%nat
    /\ Forall (touches_only save_path) evs
    /\ (b = true ->
        Ku1372.thread_success_count (obj s')
        = S (Ku1372.thread_success_count (obj s))
        /\ exists c, fs s' !! save_path = Some c
             /\ 1024 <= Z.of_nat (String.length c)
             /\ Ku1372.looks_like_html (Py.take 512 c) = false)
    /\ (b = false ->
        Ku1372.thread_success_count (obj s')
        = Ku1372.thread_success_count (obj s)
        /\ (fs s !! save_path = None -> fs s' !! save_path = None)).
Proof.
  revert s s' r evs. induction n as [|n IH]; intros s s' r evs H.
  - cbv [Ku1372.download_attempts] in H. monad_inv. exists false.
    split; [reflexivity|]. simpl. split; [lia|]. split; [constructor|].
    split; [discriminate|auto].
  - rewrite ku_download_attempts_S in H. cbv zeta in H.
    unfold Ku1372.get_download_link, Ku1372.remove_if_exists in H.
    monad_cases;
      try match goal with
        | H : Ku1372.download_attempts _ _ _ _ _ _ = _ |- _ =>
            apply IH in H as (b & -> & Hlen & Hev & Ht & Hf);
            exists b; split; [reflexivity|]
        end;
      try (exists false; split; [reflexivity|]);
      try (exists true; split; [reflexivity|]);
      simpl in *;
      unfold requests_of in *; simpl;
      repeat rewrite ?omap_app, ?length_app; simpl.
    all: try (split; [lia|]).
    all: try (split; [repeat first [apply Forall_cons; split; [simpl; auto|]
                                   | apply Forall_app; split
                                   | apply Forall_nil; exact I
                                   | assumption ]|]).
    all: repeat match goal with
           | H : <[_ := _]> _ !! _ = None |- _ =>
               rewrite lookup_insert_eq in H; discriminate H
           end.
    all: split; intros Hb; try discriminate Hb.
    all: try (destruct (Ht Hb) as (Hc & c & Hc1 & Hc2 & Hc3);
              split; [exact Hc|exists c; auto]).
    all: try (destruct (Hf Hb) as (Hc & Hfs); split; [exact Hc|];
              intros Hnone; apply Hfs;
              first [ apply lookup_delete_eq | assumption ]).
    all: try (split; [reflexivity|]; exists (body r0);
              rewrite lookup_insert_eq; split; [reflexivity|];
              split; [|assumption];
              match goal with
              | H : (_ <? 1024) = false |- _ => apply Z.ltb_ge in H; exact H
              end).
    all: try (split; [reflexivity|auto]).
Qed.

(** C2, as the specification states it, fails on the archive download of
    爬取ku1372的所有图集.py: [download_album_wrapper] opens the destination
    itself for writing. When the connection drops in the middle of the body,
    each of the five attempts writes the bytes received to the destination
    and then removes the file; there is no temporary path and no rename. *)
Lemma C2_archive_written_in_place :
  fst (fst (Ku1372.download_album_wrapper ku_lib broken_world "a"
              "https://www.ku1372.cc/a.html" "out/tag" false ku_start))
  = Ret false
  /\ filter is_fs_event
       (snd (Ku1372.download_album_wrapper ku_lib broken_world "a"
               "https://www.ku1372.cc/a.html" "out/tag" false ku_start))
     = [EvWrite "out/tag/a.zip"; EvUnlink "out/tag/a.zip";
        EvWrite "out/tag/a.zip"; EvUnlink "out/tag/a.zip";
        EvWrite "out/tag/a.zip"; EvUnlink "out/tag/a.zip";
        EvWrite "out/tag/a.zip"; EvUnlink "out/tag/a.zip";
        EvWrite "out/tag/a.zip"; EvUnlink "out/tag/a.zip"]
  /\ ~ Forall (writes_to_temp_only "out/tag/a.zip")
         (snd (Ku1372.download_album_wrapper ku_lib broken_world "a"
                 "https://www.ku1372.cc/a.html" "out/tag" false ku_start)).
Proof.
  split; [vm_compute; reflexivity|].
  assert (Hfilter :
    filter is_fs_event
      (snd (Ku1372.download_album_wrapper ku_lib broken_world "a"
              "https://www.ku1372.cc/a.html" "out/tag" false ku_start))
    = [EvWrite "out/tag/a.zip"; EvUnlink "out/tag/a.zip";
       EvWrite "out/tag/a.zip"; EvUnlink "out/tag/a.zip";
       EvWrite "out/tag/a.zip"; EvUnlink "out/tag/a.zip";
       EvWrite "out/tag/a.zip"; EvUnlink "out/tag/a.zip";
       EvWrite "out/tag/a.zip"; EvUnlink "out/tag/a.zip"])
    by (vm_compute; reflexivity).
  split; [exact Hfilter|].
  intros H. rewrite Forall_forall in H.
  assert (Hin : EvWrite "out/tag/a.zip"
                ∈ filter is_fs_event
                    (snd (Ku1372.download_album_wrapper ku_lib broken_world "a"
                            "https://www.ku1372.cc/a.html" "out/tag" false
                            ku_start))).
  { rewrite Hfilter, !elem_of_cons. auto. }
  apply list_elem_of_filter in Hin as [_ Hin].
  apply H in Hin. discriminate Hin.
Qed.

Lemma is_image_corrupted_run (L : Sifang.lib) img_path
    (s : state Sifang.crawler) :
  Sifang.is_image_corrupted L img_path s
  = (Ret (match fs s !! img_path with
          | Some c => negb (Sifang.pil_ok L c)
          | None => true
          end), s, [EvDecode img_path]).
Proof. reflexivity. Qed.

(** One attempt of [download_image] whose answer is an image that arrives
    whole: the body is written to the temporary path and decoded there;
    when it decodes, the temporary path is renamed to the destination and
    the call ends with [True]; when it does not, the temporary file is
    removed and, after a pause, the next attempt starts. *)
Lemma download_attempts_image (L : Sifang.lib) (w : world)
    image_url save_path n retry (s : state Sifang.crawler) resp :
  net w (clock s) image_url = NetResp resp ->
  status_is_error resp = false ->
  Py.startswith (default EmptyString (content_type resp)) "image/" = true ->
  broken resp = None ->
  let temp_path := String.append save_path ".tmp" in
  Sifang.download_attempts L w (S n) retry image_url save_path s
  = if Sifang.pil_ok L (body resp)
    then (Ret true,
          Build_state
            (<[save_path := body resp]>
               (delete temp_path (<[temp_path := body resp]> (fs s))))
            (S (clock s)) (prompts s)
            (Sifang.bump_downloaded_images (obj s)),
          [EvSleep 2 6; EvRequest image_url; EvWrite temp_path;
           EvDecode temp_path; EvReplace temp_path save_path; EvSleep 1 3])
    else
      let '(r, s', evs) :=
        Sifang.download_attempts L w n (S retry) image_url save_path
          (Build_state (delete temp_path (<[temp_path := body resp]> (fs s)))
             (S (clock s)) (prompts s) (obj s)) in
      (r, s',
       [EvSleep 2 6; EvRequest image_url; EvWrite temp_path;
        EvDecode temp_path; EvUnlink temp_path; EvSleep 3 5] ++ evs).
Proof.
  intros Hnet Hst Hct Hbr temp_path.
  rewrite download_attempts_S, bind_sleep, bind_request, Hnet, Hst, Hct.
  cbn [negb]. cbv zeta. fold (Sifang.temp_path_of save_path).
  change (String.append save_path ".tmp") with (Sifang.temp_path_of save_path)
    in temp_path. subst temp_path.
  rewrite bind_write_file, Hbr.
  rewrite (bind_Ret _ _ _ _ _ _ (is_image_corrupted_run L _ _)).
  cbn [fs]. rewrite lookup_insert_eq.
  destruct (Sifang.pil_ok L (body resp)); cbn [negb].
  - rewrite bind_replace. cbn [fs]. rewrite lookup_insert_eq.
    rewrite bind_modify_obj, bind_sleep. reflexivity.
  - rewrite bind_unlink, bind_sleep.
    destruct (Sifang.download_attempts L w n (S retry) image_url save_path _)
      as [[r s'] evs]. reflexivity.
Qed.

(** One attempt whose body breaks off: what was received stays at the
    temporary path, and the next attempt starts. *)
Lemma download_attempts_broken (L : Sifang.lib) (w : world)
    image_url save_path n retry (s : state Sifang.crawler) resp f :
  net w (clock s) image_url = NetResp resp ->
  status_is_error resp = false ->
  Py.startswith (default EmptyString (content_type resp)) "image/" = true ->
  broken resp = Some f ->
  let temp_path := String.append save_path ".tmp" in
  exists lo hi,
    Sifang.download_attempts L w (S n) retry image_url save_path s
    = let '(r, s', evs) :=
        Sifang.download_attempts L w n (S retry) image_url save_path
          (Build_state (<[temp_path := body resp]> (fs s))
             (S (clock s)) (prompts s) (obj s)) in
      (r, s',
       [EvSleep 2 6; EvRequest image_url; EvWrite temp_path; EvSleep lo hi]
       ++ evs).
Proof.
  intros Hnet Hst Hct Hbr temp_path.
  rewrite download_attempts_S, bind_sleep, bind_request, Hnet, Hst, Hct.
  cbn [negb]. cbv zeta.
  change (String.append save_path ".tmp") with (Sifang.temp_path_of save_path)
    in temp_path. subst temp_path.
  rewrite bind_write_file, Hbr.
  destruct f; unfold Sifang.after_fault; rewrite bind_sleep;
    destruct (Sifang.download_attempts L w n (S retry) image_url save_path _)
      as [[r s'] evs]; eexists _, _; reflexivity.
Qed.

(** The archive of 爬取ku1372的所有图集.py is written where it is to stay:
    the file events of [download_album_wrapper] all concern the
    destination, none is a rename, and a call that reports failure leaves
    no file there. *)
Lemma ku_wrapper_in_place (L : Ku1372.lib) (w : world)
    (album_name album_url tag_dir : string) (verify : bool)
    (s s' : state Ku1372.counters) (r : outcome bool) (evs : list event) :
  let save_path :=
    Ku1372.path_join L tag_dir
      (String.append (Ku1372.safe_name_of album_name) ".zip") in
  Ku1372.download_album_wrapper L w album_name album_url tag_dir verify s
  = (r, s', evs) ->
  Forall (touches_only save_path) evs
  /\ (r = Ret false -> fs s' !! save_path = None).
Proof.
  intros save_path. unfold Ku1372.download_album_wrapper. fold save_path.
  intros H. monad_cases; simpl in *;
    try match goal with
      | H : Ku1372.download_attempts _ _ _ _ _ _ = _ |- _ =>
          apply ku_download_attempts_spec in H
            as (b & -> & Hlen & Hev & Ht & Hf)
      end.
  all: (split; [repeat first [apply Forall_cons; split; [simpl; auto|]
                             | apply Forall_nil; exact I
                             | assumption ]|]).
  all: intros [= Hb]; try discriminate Hb.
  all: subst; destruct (Hf eq_refl) as (_ & Hfs); apply Hfs;
       first [apply lookup_delete_eq | assumption].
Qed.

(** C2, amended. [download_image] of sifang_crawler.py makes at most 5
    requests; it writes and removes files at the temporary path only, and
    the destination changes only by the rename of the temporary path, after
    the file there has decoded. A call that reports failure leaves at the
    destination what was there before; a call that reports success either
    kept the existing file untouched or left a decoded file at the
    destination and none at the temporary path. In each attempt that is
    answered with an image, the body is written to the temporary path and
    decoded there: when it decodes, the rename follows and the call ends;
    when it does not, the temporary file is removed and the next attempt
    starts; when the body breaks off, the part received stays at the
    temporary path and the next attempt starts. [download_album_wrapper] of
    爬取ku1372的所有图集.py has no temporary path: its file events all
    concern the destination, none is a rename, and a call that reports
    failure leaves no file there. *)
Theorem C2_temp_then_rename (L : Sifang.lib) (w : world)
    (image_url save_path : string) (s s' : state Sifang.crawler)
    (r : outcome bool) (evs : list event) :
  Sifang.download_image L w image_url save_path s = (r, s', evs) ->
  let temp_path := String.append save_path ".tmp" in
  (exists b, r = Ret b
    /\ Forall (writes_to_temp_only save_path) evs
    /\ (length (requests_of evs) <= 5)%nat
    /\ (b = false ->
        fs s' !! save_path = fs s !! save_path
        /\ Forall (fun e => is_replace e = false) evs)
    /\ (b = true ->
        (s' = s /\ requests_of evs = [])
        \/ exists c, fs s' !! save_path = Some c /\ Sifang.pil_ok L c = true
             /\ fs s' !! temp_path = None
             /\ EvReplace temp_path save_path ∈ evs))
  /\ (forall n retry (s0 : state Sifang.crawler) resp,
         net w (clock s0) image_url = NetResp resp ->
         status_is_error resp = false ->
         Py.startswith (default EmptyString (content_type resp)) "image/"
         = true ->
         (broken resp = None ->
          Sifang.download_attempts L w (S n) retry image_url save_path s0
          = if Sifang.pil_ok L (body resp)
            then (Ret true,
                  Build_state
                    (<[save_path := body resp]>
                       (delete temp_path
                          (<[temp_path := body resp]> (fs s0))))
                    (S (clock s0)) (prompts s0)
                    (Sifang.bump_downloaded_images (obj s0)),
                  [EvSleep 2 6; EvRequest image_url; EvWrite temp_path;
                   EvDecode temp_path; EvReplace temp_path save_path;
                   EvSleep 1 3])
            else
              let '(r2, s2, e2) :=
                Sifang.download_attempts L w n (S retry) image_url save_path
                  (Build_state
                     (delete temp_path (<[temp_path := body resp]> (fs s0)))
                     (S (clock s0)) (prompts s0) (obj s0)) in
              (r2, s2,
               [EvSleep 2 6; EvRequest image_url; EvWrite temp_path;
                EvDecode temp_path; EvUnlink temp_path; EvSleep 3 5] ++ e2))
         /\ (forall f, broken resp = Some f ->
             exists lo hi,
               Sifang.download_attempts L w (S n) retry image_url save_path s0
               = let '(r2, s2, e2) :=
                   Sifang.download_attempts L w n (S retry) image_url
                     save_path
                     (Build_state (<[temp_path := body resp]> (fs s0))
                        (S (clock s0)) (prompts s0) (obj s0)) in
                 (r2, s2,
                  [EvSleep 2 6; EvRequest image_url; EvWrite temp_path;
                   EvSleep lo hi] ++ e2)))
  /\ (forall (Lk : Ku1372.lib) album_name album_url tag_dir verify
             (sk sk' : state Ku1372.counters) rk ek,
         Ku1372.download_album_wrapper Lk w album_name album_url tag_dir
           verify sk = (rk, sk', ek) ->
         let archive :=
           Ku1372.path_join Lk tag_dir
             (String.append (Ku1372.safe_name_of album_name) ".zip") in
         Forall (touches_only archive) ek
         /\ (rk = Ret false -> fs sk' !! archive = None)).
Proof.
  intros Hdl temp_path. split; [|split].
  2: { intros n retry s0 resp Hnet Hst Hct. split.
       - intros Hbr.
         apply (download_attempts_image L w image_url save_path n retry s0
                  resp Hnet Hst Hct Hbr).
       - intros f Hbr.
         apply (download_attempts_broken L w image_url save_path n retry s0
                  resp f Hnet Hst Hct Hbr). }
  2: { intros Lk album_name album_url tag_dir verify sk sk' rk ek Hk.
       apply (ku_wrapper_in_place Lk w album_name album_url tag_dir verify
                sk sk' rk ek Hk). }
  change temp_path with (Sifang.temp_path_of save_path). clear temp_path.
  revert Hdl.
  unfold Sifang.download_image. unfold bind at 1.
  rewrite keep_existing_spec.
  assert (Hskip : forall ev, requests_of ev = [] ->
            Forall (writes_to_temp_only save_path) ev ->
            exists b, Ret true = Ret b
              /\ Forall (writes_to_temp_only save_path) ev
              /\ (length (requests_of ev) <= 5)%nat
              /\ (b = false ->
                  fs s !! save_path = fs s !! save_path
                  /\ Forall (fun e => is_replace e = false) ev)
              /\ (b = true ->
                  (s = s /\ requests_of ev = [])
                  \/ exists c, fs s !! save_path = Some c
                       /\ Sifang.pil_ok L c = true
                       /\ fs s !! Sifang.temp_path_of save_path = None
                       /\ EvReplace (Sifang.temp_path_of save_path) save_path
                          ∈ ev)).
  { intros ev Hreq Hev. exists true. rewrite Hreq.
    split; [reflexivity|]. split; [assumption|]. split; [simpl; lia|].
    split; [discriminate|]. intros _. left. auto. }
  assert (Hrun : forall ev r2 s2 e2,
            Forall (writes_to_temp_only save_path) ev ->
            Forall (fun e => is_replace e = false) ev ->
            requests_of ev = [] ->
            Sifang.download_attempts L w 5 0 image_url save_path s
            = (r2, s2, e2) ->
            exists b, r2 = Ret b
              /\ Forall (writes_to_temp_only save_path) (ev ++ e2)
              /\ (length (requests_of (ev ++ e2)) <= 5)%nat
              /\ (b = false ->
                  fs s2 !! save_path = fs s !! save_path
                  /\ Forall (fun e => is_replace e = false) (ev ++ e2))
              /\ (b = true ->
                  (s2 = s /\ requests_of (ev ++ e2) = [])
                  \/ exists c, fs s2 !! save_path = Some c
                       /\ Sifang.pil_ok L c = true
                       /\ fs s2 !! Sifang.temp_path_of save_path = None
                       /\ EvReplace (Sifang.temp_path_of save_path) save_path
                          ∈ ev ++ e2)).
  { intros ev r2 s2 e2 Hev Hrep Hreq Hrun.
    apply download_attempts_spec in Hrun as (b & -> & Hev2 & Hlen & Hf & Ht).
    exists b. split; [reflexivity|].
    split; [apply Forall_app; auto|].
    split; [unfold requests_of in *; rewrite omap_app, Hreq; exact Hlen|].
    split.
    - intros Hb. destruct (Hf Hb). split; [assumption|].
      apply Forall_app; auto.
    - intros Hb. right. destruct (Ht Hb) as (c & ? & ? & ? & ?).
      exists c. repeat split; auto. apply elem_of_app. auto. }
  destruct (fs s !! save_path) as [c0|] eqn:Hfs;
    [destruct (Sifang.verify (obj s)); simpl;
     [destruct (Sifang.pil_ok L c0)|]|]; simpl.
  - intros [= <- <- <-]. rewrite ?Hfs.
    apply (Hskip [EvDecode save_path]); [reflexivity|].
    constructor; [exact I|constructor].
  - destruct (Sifang.download_attempts L w 5 0 image_url save_path s)
      as [[r2 s2] e2] eqn:Hrun2.
    intros [= <- <- <-]. rewrite ?Hfs.
    apply (Hrun [EvDecode save_path]); auto;
      (constructor; [first [exact I|reflexivity]|constructor]).
  - intros [= <- <- <-]. rewrite ?Hfs.
    apply (Hskip []); [reflexivity|constructor].
  - destruct (Sifang.download_attempts L w 5 0 image_url save_path s)
      as [[r2 s2] e2] eqn:Hrun2.
    intros [= <- <- <-]. rewrite ?Hfs.
    apply (Hrun []); auto.
Qed.

Lemma C2_temp_then_rename_witness :
  exists s' evs,
    Sifang.download_image sifang_lib flaky_image_world
      "https://img.example/1.jpg" "out/a/image_001.jpg" (sifang_start false)
    = (Ret true, s', evs)
    /\ Forall (writes_to_temp_only "out/a/image_001.jpg") evs
    /\ filter is_fs_event evs
       = [EvWrite "out/a/image_001.jpg.tmp";
          EvUnlink "out/a/image_001.jpg.tmp";
          EvWrite "out/a/image_001.jpg.tmp";
          EvReplace "out/a/image_001.jpg.tmp" "out/a/image_001.jpg"]
    /\ fs s' !! "out/a/image_001.jpg" = Some "IMG-bytes"
    /\ fs s' !! "out/a/image_001.jpg.tmp" = None.
Proof.
  destruct (Sifang.download_image sifang_lib flaky_image_world
              "https://img.example/1.jpg" "out/a/image_001.jpg"
              (sifang_start false)) as [[r s'] evs] eqn:Hrun.
  pose proof (C2_temp_then_rename _ _ _ _ _ _ _ _ Hrun) as [Hframe [Hstep _]].
  destruct Hframe as (b & _ & Hev & _).
  assert (Heq : Sifang.download_image sifang_lib flaky_image_world
                  "https://img.example/1.jpg" "out/a/image_001.jpg"
                  (sifang_start false)
                = Sifang.download_attempts sifang_lib flaky_image_world 5 0
                    "https://img.example/1.jpg" "out/a/image_001.jpg"
                    (sifang_start false)) by reflexivity.
  rewrite Heq in Hrun.
  rewrite (proj1 (Hstep 4%nat 0%nat (sifang_start false) _
                    eq_refl eq_refl eq_refl) eq_refl) in Hrun.
  cbn [body Sifang.pil_ok sifang_lib] in Hrun.
  change (Py.startswith "junk" "IMG") with false in Hrun. cbv iota in Hrun.
  rewrite (proj1 (Hstep 3%nat 1%nat _ _ eq_refl eq_refl eq_refl) eq_refl)
    in Hrun.
  cbn [body Sifang.pil_ok sifang_lib] in Hrun.
  change (Py.startswith "IMG-bytes" "IMG") with true in Hrun.
  cbv iota in Hrun. injection Hrun as <- <- <-.
  eexists _, _. split; [reflexivity|]. split; [exact Hev|].
  split; [reflexivity|]. split; vm_compute; reflexivity.
Defined.

(** ** Answers that are no image *)

(** C4, as the specification states it, fails on the archive download of
    爬取ku1372的所有图集.py: [download_album_wrapper] does not read the
    content type. An HTML page sent in place of the archive is written to
    the destination, recognised by its first bytes, removed, and the
    download is tried again, five times in all. *)
Lemma C4_archive_html_written_and_retried :
  fst (fst (Ku1372.download_album_wrapper ku_lib html_world "a"
              "https://www.ku1372.cc/a.html" "out/tag" false ku_start))
  = Ret false
  /\ requests_of
       (snd (Ku1372.download_album_wrapper ku_lib html_world "a"
               "https://www.ku1372.cc/a.html" "out/tag" false ku_start))
     = ["https://www.ku1372.cc/a.html"; "https://dl.example/a.zip";
        "https://www.ku1372.cc/a.html"; "https://dl.example/a.zip";
        "https://www.ku1372.cc/a.html"; "https://dl.example/a.zip";
        "https://www.ku1372.cc/a.html"; "https://dl.example/a.zip";
        "https://www.ku1372.cc/a.html"; "https://dl.example/a.zip"]
  /\ filter is_fs_event
       (snd (Ku1372.download_album_wrapper ku_lib html_world "a"
               "https://www.ku1372.cc/a.html" "out/tag" false ku_start))
     = [EvWrite "out/tag/a.zip"; EvUnlink "out/tag/a.zip";
        EvWrite "out/tag/a.zip"; EvUnlink "out/tag/a.zip";
        EvWrite "out/tag/a.zip"; EvUnlink "out/tag/a.zip";
        EvWrite "out/tag/a.zip"; EvUnlink "out/tag/a.zip";
        EvWrite "out/tag/a.zip"; EvUnlink "out/tag/a.zip"].
Proof. repeat split; vm_compute; reflexivity. Qed.

(** The requests of the attempts of [download_image] are issued at the
    successive times from [clock s] on. An answer that is served with a
    content type that is no image, at whatever attempt, is the last one:
    the call ends there with [False]. *)
Lemma download_attempts_non_image_last (L : Sifang.lib) (w : world)
    image_url save_path n retry (s s' : state Sifang.crawler) r evs :
  Sifang.download_attempts L w n retry image_url save_path s = (r, s', evs) ->
  (clock s <= clock s')%nat
  /\ forall t resp,
       (clock s <= t < clock s')%nat ->
       net w t image_url = NetResp resp ->
       status_is_error resp = false ->
       Py.startswith (default EmptyString (content_type resp)) "image/" = false ->
       clock s' = S t /\ r = Ret false
       /\ exists evs0, evs = evs0 ++ [EvSleep 2 6; EvRequest image_url].
Proof.
  revert retry s s' r evs. induction n as [|n IH]; intros retry s s' r evs H.
  - change (ret false s = (r, s', evs)) in H. monad_inv.
    split; [lia|]. intros t resp Ht. lia.
  - rewrite download_attempts_S in H.
    unfold Sifang.after_fault, Sifang.is_image_corrupted in H.
    monad_cases;
      try match goal with
        | H : Sifang.download_attempts _ _ _ _ _ _ _ = _ |- _ =>
            apply IH in H as [Hle Hlast]
        end.
    all: simpl in *.
    all: split; [lia|].
    all: intros t resp Ht Hnet Hst Hct.
    all: bool_hyps.
    all: match type of Ht with
         | (?a <= _ < _)%nat => destruct (Nat.eq_dec t a) as [->|Hne]
         end; [try congruence|try lia].
    all: try (destruct (Hlast t resp) as (Hck & -> & evs0 & ->);
              [lia|assumption..|];
              split; [exact Hck|]; split; [reflexivity|];
              eexists; rewrite ?app_comm_cons; reflexivity).
    split; [reflexivity|]. split; [reflexivity|]. exists []. reflexivity.
Qed.

(** C4, amended. In sifang_crawler.py, an answer that is served with a
    content type that is no image ends [download_image] at once with
    [False], at whatever attempt it comes and whatever the disk holds: it
    is the last request of the call, nothing is written after it, the
    destination is as it was before the call, and [download_album] appends
    the image to [failed_images]. In 美图色色.py, [_download_image] does the
    same and appends the image to [failed_images] itself. *)
Theorem C4_non_image_rejected (L : Sifang.lib) (w : world)
    (image_url save_path : string) (s s' : state Sifang.crawler)
    (r : outcome bool) (evs : list event) (t : nat) (resp : response) :
  Sifang.download_image L w image_url save_path s = (r, s', evs) ->
  (clock s <= t < clock s')%nat ->
  net w t image_url = NetResp resp ->
  status_is_error resp = false ->
  Py.startswith (default EmptyString (content_type resp)) "image/" = false ->
  (clock s' = S t /\ r = Ret false
   /\ (exists evs0, evs = evs0 ++ [EvSleep 2 6; EvRequest image_url])
   /\ fs s' !! save_path = fs s !! save_path)
  /\ (forall n retry (s0 : state Sifang.crawler),
         clock s0 = t ->
         Sifang.download_attempts L w (S n) retry image_url save_path s0
         = (Ret false, Build_state (fs s0) (S t) (prompts s0) (obj s0),
            [EvSleep 2 6; EvRequest image_url]))
  /\ (forall album_url album_name album_dir i,
         save_path
         = Sifang.path_join L album_dir
             (String.append "image_"
                (String.append (Py.format_03d i) (Sifang.url_ext L image_url))) ->
         Sifang.download_images L w album_url album_name album_dir i
           [image_url] s
         = (Ret 0%nat,
            Build_state (fs s') (clock s') (prompts s')
              (Sifang.add_failed_image
                 {| Sifang.fi_url := image_url;
                    Sifang.fi_save_path := save_path;
                    Sifang.fi_album_url := album_url;
                    Sifang.fi_album_name := album_name |} (obj s')),
            evs))
  /\ (forall (Lm : Meitu.lib) (sm s1 : state Meitu.spider) e1 path,
         fs sm !! path = None ->
         Meitu._get_response w image_url 5 sm = (Ret (Some resp), s1, e1) ->
         Meitu._download_image Lm w image_url path sm
         = (Ret false,
            Build_state (fs s1) (clock s1) (prompts s1)
              (Meitu.add_failed_image image_url path (obj s1)),
            e1)).
Proof.
  intros Hrun Ht Hnet Hst Hct.
  assert (Hend : clock s' = S t /\ r = Ret false
                 /\ (exists evs0, evs = evs0 ++ [EvSleep 2 6; EvRequest image_url])
                 /\ fs s' !! save_path = fs s !! save_path).
  { pose proof Hrun as Hrun'.
    unfold Sifang.download_image in Hrun. unfold bind at 1 in Hrun.
    rewrite keep_existing_spec in Hrun.
    assert (Hatt : forall ev r2 s2 e2,
              Sifang.download_attempts L w 5 0 image_url save_path s
              = (r2, s2, e2) ->
              (r2, s2, ev ++ e2) = (r, s', evs) ->
              clock s' = S t /\ r = Ret false
              /\ (exists evs0, evs = evs0 ++ [EvSleep 2 6; EvRequest image_url])
              /\ fs s' !! save_path = fs s !! save_path).
    { intros ev r2 s2 e2 Hatt [= <- <- <-].
      pose proof Hatt as Hspec.
      apply download_attempts_non_image_last in Hatt as [_ Hlast].
      destruct (Hlast t resp Ht Hnet Hst Hct) as (Hck & -> & evs0 & ->).
      apply download_attempts_spec in Hspec as (b & [= <-] & _ & _ & Hf & _).
      split; [exact Hck|]. split; [reflexivity|].
      split; [exists (ev ++ evs0); rewrite app_assoc; reflexivity|].
      apply Hf. reflexivity. }
    destruct (fs s !! save_path) as [c0|] eqn:Hfs;
      [destruct (Sifang.verify (obj s)); simpl in Hrun;
       [destruct (Sifang.pil_ok L c0)|]|]; simpl in Hrun.
    - injection Hrun as <- <- <-. lia.
    - destruct (Sifang.download_attempts L w 5 0 image_url save_path s)
        as [[r2 s2] e2] eqn:Hatt2.
      apply (Hatt [EvDecode save_path] r2 s2 e2 eq_refl Hrun).
    - injection Hrun as <- <- <-. lia.
    - destruct (Sifang.download_attempts L w 5 0 image_url save_path s)
        as [[r2 s2] e2] eqn:Hatt2.
      apply (Hatt [] r2 s2 e2 eq_refl Hrun). }
  split; [exact Hend|]. split; [|split].
  - intros n retry s0 <-.
    apply (download_attempts_non_image _ _ _ _ _ _ _ _ Hnet Hst Hct).
  - intros album_url album_name album_dir i Hpath.
    destruct Hend as (_ & -> & _).
    cbn [Sifang.download_images]. rewrite <- Hpath.
    rewrite (bind_Ret _ _ _ _ _ _ Hrun). cbn.
    rewrite !app_nil_r. reflexivity.
  - intros Lm sm s1 e1 path Hm Hget. unfold Meitu._download_image.
    unfold bind at 1. simpl. rewrite Hm.
    rewrite (bind_Ret _ _ _ _ _ _ Hget). rewrite Hct. simpl.
    rewrite app_nil_r. reflexivity.
Qed.

Lemma C4_non_image_rejected_witness :
  exists s' evs,
    Sifang.download_image sifang_lib recovering_world
      "https://img.example/1.jpg" "out/a/image_001.jpg" sifang_with_junk
    = (Ret false, s', evs)
    /\ clock s' = 3%nat
    /\ (exists evs0, evs = evs0 ++ [EvSleep 2 6;
                                    EvRequest "https://img.example/1.jpg"])
    /\ fs s' !! "out/a/image_001.jpg" = Some "junk".
Proof.
  destruct (Sifang.download_image sifang_lib recovering_world
              "https://img.example/1.jpg" "out/a/image_001.jpg"
              sifang_with_junk) as [[r s'] evs] eqn:Hrun.
  assert (Hck : clock (snd (fst (Sifang.download_image sifang_lib
                  recovering_world "https://img.example/1.jpg"
                  "out/a/image_001.jpg" sifang_with_junk))) = 3%nat)
    by (vm_compute; reflexivity).
  rewrite Hrun in Hck. cbn [fst snd] in Hck.
  destruct (C4_non_image_rejected sifang_lib recovering_world
              "https://img.example/1.jpg" "out/a/image_001.jpg"
              sifang_with_junk s' r evs 2%nat
              {| status := 200; final_url := "https://img.example/1.jpg";
                 content_type := Some "text/html"; content_length := None;
                 body := "ok"; broken := None |} Hrun)
    as ((_ & -> & Hev & Hfs) & _).
  - rewrite Hck. simpl. lia.
  - reflexivity.
  - reflexivity.
  - reflexivity.
  - exists s', evs. split; [reflexivity|]. split; [exact Hck|].
    split; [exact Hev|]. rewrite Hfs. reflexivity.
Defined.

(** ** De-duplication of the image list *)

(** C6, as the specification states it, fails on [_parse_album_images] of
    美图色色.py: every non-empty piece of [data-screenshots] is appended,
    with no test for membership; a URL listed twice is returned twice. *)
Lemma C6_meitu_keeps_duplicates :
  fst (fst (Meitu._parse_album_images meitu_lib dup_world
              "https://example.org/a" (meitu_start true)))
  = Ret ["a.jpg"; "a.jpg"; "b.jpg"]
  /\ ~ NoDup ["a.jpg"; "a.jpg"; "b.jpg"].
Proof.
  split; [vm_compute; reflexivity|].
  intros H. apply NoDup_cons in H as [H _]. apply H. left.
Qed.

Lemma first_seen_NoDup (seen l : list string) :
  NoDup seen -> NoDup (seen ++ first_seen seen l).
Proof.
  revert seen. induction l as [|x l IH]; intros seen Hnd; simpl.
  - rewrite app_nil_r. assumption.
  - case_bool_decide as Hin; [auto|].
    rewrite cons_middle, app_assoc. apply IH.
    apply NoDup_app. repeat split; auto.
    + intros y Hy Hy'. apply list_elem_of_singleton in Hy'. subst. auto.
    + apply NoDup_singleton.
Qed.

(** The loop that fills [page_images] keeps the candidates in first-seen
    order, against the page list so far and the album list. *)
Lemma collect_from (all_image_links acc : list string)
    (cand : Sifang.img -> option string) (img_tags : list Sifang.img) :
  foldl (fun page_images i =>
           match cand i with
           | Some s => Sifang.add_unique all_image_links page_images s
           | None => page_images
           end) acc img_tags
  = acc ++ first_seen (all_image_links ++ acc) (omap cand img_tags).
Proof.
  revert acc. induction img_tags as [|i tags IH]; intros acc; simpl.
  - rewrite app_nil_r. reflexivity.
  - rewrite IH. destruct (cand i) as [x|]; simpl; [|reflexivity].
    unfold Sifang.add_unique, Py.mem.
    pose proof (elem_of_app all_image_links acc x) as Happ.
    repeat case_bool_decide; simpl; try tauto.
    rewrite <- !app_assoc. reflexivity.
Qed.

Lemma collect_first_seen (all_image_links : list string)
    (cand : Sifang.img -> option string) (img_tags : list Sifang.img) :
  Sifang.collect all_image_links cand img_tags
  = first_seen all_image_links (omap cand img_tags).
Proof.
  unfold Sifang.collect. rewrite collect_from, app_nil_r. reflexivity.
Qed.

Lemma page_images_first_seen (L : Sifang.lib) (pg : Sifang.page)
    (current_url : string) (all_image_links : list string) :
  Sifang.page_images_of L pg current_url all_image_links
  = first_seen all_image_links
      (omap (Sifang.strict_candidate L pg current_url) (Sifang.img_tags_of pg))
  \/ Sifang.page_images_of L pg current_url all_image_links
     = first_seen all_image_links
         (omap (Sifang.relaxed_candidate L current_url) (Sifang.img_tags_of pg)).
Proof.
  unfold Sifang.page_images_of. rewrite !collect_first_seen.
  destruct (first_seen _ (omap (Sifang.strict_candidate _ _ _) _)) eqn:E;
    [destruct (Sifang.img_tags_of pg)|]; auto.
Qed.

Lemma page_images_NoDup (L : Sifang.lib) (pg : Sifang.page)
    (current_url : string) (all_image_links : list string) :
  NoDup all_image_links ->
  NoDup (all_image_links
         ++ Sifang.page_images_of L pg current_url all_image_links).
Proof.
  intros Hnd.
  destruct (page_images_first_seen L pg current_url all_image_links) as [->| ->];
    apply first_seen_NoDup; assumption.
Qed.

(** The list of an album has no duplicates after any number of pages. *)
Lemma album_pages_loop_NoDup (L : Sifang.lib) (w : world) fuel album_url
    current_url album_name all_image_links (s s' : state Sifang.crawler)
    name links evs :
  NoDup all_image_links ->
  Sifang.album_pages_loop L w fuel album_url current_url album_name
    all_image_links s = (Ret (name, links), s', evs) ->
  NoDup links.
Proof.
  revert current_url album_name all_image_links s s' evs.
  induction fuel as [|fuel IH];
    intros current_url album_name all_image_links s s' evs Hnd H;
    destruct current_url as [cur|]; cbn [Sifang.album_pages_loop] in H;
    try (monad_inv; assumption).
  unfold Sifang.lift_sum in H. monad_cases;
    try (assumption
         || (eapply IH; [|eassumption]; apply page_images_NoDup; assumption)).
Qed.

Lemma first_seen_elem (seen l : list string) (u : string) :
  u ∈ first_seen seen l -> u ∈ l /\ u ∉ seen.
Proof.
  revert seen. induction l as [|x l IH]; intros seen; simpl.
  - intros H. apply elem_of_nil in H. contradiction.
  - case_bool_decide as Hin.
    + intros H. destruct (IH _ H). split; [right|]; assumption.
    + intros H. apply elem_of_cons in H as [->|H].
      * split; [left|assumption].
      * destruct (IH _ H) as [H1 H2]. split; [right; assumption|].
        intros Hs. apply H2. apply elem_of_app. auto.
Qed.

Lemma first_seen_app (seen a b : list string) :
  first_seen seen (a ++ b)
  = first_seen seen a ++ first_seen (seen ++ first_seen seen a) b.
Proof.
  revert seen. induction a as [|x a IH]; intros seen; simpl.
  - rewrite app_nil_r. reflexivity.
  - case_bool_decide as Hin; [apply IH|].
    rewrite IH. simpl. rewrite <- app_assoc. reflexivity.
Qed.

Lemma page_images_candidates (L : Sifang.lib) (pg : Sifang.page)
    (current_url : string) (all_image_links : list string) :
  Sifang.page_images_of L pg current_url all_image_links
  = first_seen all_image_links (candidates L pg current_url all_image_links).
Proof.
  unfold Sifang.page_images_of, candidates. rewrite !collect_first_seen.
  destruct (first_seen _ (omap (Sifang.strict_candidate _ _ _) _)) eqn:E;
    [destruct (Sifang.img_tags_of pg)|]; auto.
Qed.

Lemma retry_request_loop_clock w fuel url max_retries retries
    (s s' : state Sifang.crawler) r evs :
  Sifang.retry_request_loop w fuel url max_retries retries s = (r, s', evs) ->
  (clock s <= clock s')%nat.
Proof.
  revert retries s s' evs.
  induction fuel as [|fuel IH]; intros retries s s' evs;
    cbn [Sifang.retry_request_loop];
    destruct (Nat.ltb_spec retries max_retries) as [Hlt|Hge];
    intros H; try (monad_inv; simpl; lia).
  monad_cases;
    try match goal with
      | H : Sifang.retry_request_loop _ _ _ _ _ _ = _ |- _ =>
          apply IH in H
      end; simpl in *; lia.
Qed.

(** A response that [retry_request] returns is the answer to its last
    request. *)
Lemma retry_request_returns w fuel url max_retries retries
    (s s' : state Sifang.crawler) r evs :
  Sifang.retry_request_loop w fuel url max_retries retries s
  = (Ret (Some r), s', evs) ->
  exists t, (clock s <= t)%nat /\ clock s' = S t
            /\ eager (net w t url) = NetResp r
            /\ EvRequest url ∈ evs.
Proof.
  revert retries s s' evs.
  induction fuel as [|fuel IH]; intros retries s s' evs;
    cbn [Sifang.retry_request_loop];
    destruct (Nat.ltb_spec retries max_retries) as [Hlt|Hge];
    intros H; try (monad_inv; fail).
  monad_cases;
    try match goal with
      | H : Sifang.retry_request_loop _ _ _ _ _ _ = _ |- _ =>
          apply IH in H as (t & Ht & Hck & Hnet & Hin); simpl in Ht;
          exists t; split; [lia|]; split; [assumption|];
          split; [assumption|];
          rewrite ?elem_of_app, ?elem_of_cons; auto 10
      end.
  match goal with
  | H : eager (net w (clock ?st) url) = NetResp _ |- _ => exists (clock st)
  end.
  simpl. split; [lia|]. split; [reflexivity|].
  split; [assumption|]. rewrite !elem_of_cons. auto.
Qed.

(** The list of an album after its pages: what was collected before,
    followed by the candidates of the pages that were served, in
    first-seen order. *)
Lemma album_pages_loop_first_seen (L : Sifang.lib) (w : world) fuel album_url
    current_url album_name all_image_links (s s' : state Sifang.crawler)
    name links evs :
  Sifang.album_pages_loop L w fuel album_url current_url album_name
    all_image_links s = (Ret (name, links), s', evs) ->
  exists pages,
    links = all_image_links
            ++ first_seen all_image_links
                 (concat (page_candidates L all_image_links pages))
    /\ Forall (fun p => exists t r,
                 (clock s <= t < clock s')%nat
                 /\ eager (net w t (fst p)) = NetResp r
                 /\ snd p = Sifang.soup L (body r)) pages
    /\ (forall u, u ∈ (fst <$> pages) -> EvRequest u ∈ evs)
    /\ (clock s <= clock s')%nat.
Proof.
  revert current_url album_name all_image_links s s' evs.
  induction fuel as [|fuel IH];
    intros current_url album_name all_image_links s s' evs H;
    destruct current_url as [cur|]; cbn [Sifang.album_pages_loop] in H;
    try (monad_inv; exists []; simpl; rewrite app_nil_r;
         repeat split; auto; intros u Hu; inversion Hu).
  unfold Sifang.lift_sum, Sifang.retry_request in H.
  apply bind_inv in H
    as [(resp & s1 & e1 & e2 & Hreq & H & ->)|[(e & _ & [=])|[_ [=]]]].
  assert (Hmono : (clock s <= clock s1)%nat)
    by exact (retry_request_loop_clock w fuel cur 5 0 _ _ _ _ Hreq).
  destruct resp as [r|].
  2: { monad_inv. exists []. simpl. rewrite app_nil_r.
       repeat split; auto. intros u Hu. inversion Hu. }
  apply retry_request_returns in Hreq as (t & Ht & Hck & Hnet & Hin).
  monad_cases.
  all: match goal with
       | H : Sifang.album_pages_loop _ _ _ _ _ _ _ _ = _ |- _ =>
           apply IH in H as (pages & Hlinks & Hall & Hreqs & Hle)
       end.
  all: exists ((cur, Sifang.soup L (body r)) :: pages).
  all: simpl in *.
  all: rewrite page_images_candidates in Hlinks.
  all: (split; [rewrite first_seen_app, app_assoc; exact Hlinks|]).
  all: (split; [constructor;
                [exists t, r; simpl; repeat split; auto; lia
                |eapply Forall_impl; [exact Hall|];
                 intros p (t' & r' & Ht' & Hp); exists t', r';
                 split; [lia|exact Hp]]|]).
  all: (split; [|lia]).
  all: intros u Hu; apply elem_of_cons in Hu as [->|Hu];
       rewrite ?elem_of_app, ?elem_of_cons; auto 10.
Qed.

Lemma first_seen_complete (l seen : list string) (u : string) :
  u ∈ l -> u ∉ seen -> u ∈ first_seen seen l.
Proof.
  revert seen. induction l as [|x l IH]; intros seen Hin Hseen; simpl.
  - inversion Hin.
  - apply elem_of_cons in Hin as [->|Hin].
    + case_bool_decide; [contradiction|left].
    + case_bool_decide as Hx; [auto|].
      destruct (decide (u = x)) as [->|Hne]; [left|].
      right. apply IH; [assumption|].
      rewrite elem_of_app, list_elem_of_singleton. tauto.
Qed.

(** C6, amended. The list that [get_album_images] of sifang_crawler.py
    returns is in first-seen order and holds no URL twice. Let the pages be
    those that were served during the call, in the order of their requests,
    and let each offer its candidates (the URLs of its image tags that pass
    the strict filter or, when none of them is new and the page has image
    tags, those that pass the relaxed one): the list is the sequence of all
    these candidates, page after page, each URL kept where it occurs first.
    [_parse_album_images] of 美图色色.py does not de-duplicate. *)
Theorem C6_sifang_no_duplicates (L : Sifang.lib) (w : world) (fuel : nat)
    (album_url : string) (s s' : state Sifang.crawler)
    (name : option string) (links : list string) (evs : list event) :
  Sifang.get_album_images L w fuel album_url s = (Ret (name, links), s', evs) ->
  exists pages : list (string * Sifang.page),
    links = first_seen [] (concat (page_candidates L [] pages))
    /\ NoDup links
    /\ (forall u, u ∈ links <-> u ∈ concat (page_candidates L [] pages))
    /\ Forall (fun p => exists t r,
                 (clock s <= t < clock s')%nat
                 /\ eager (net w t (fst p)) = NetResp r
                 /\ snd p = Sifang.soup L (body r)) pages
    /\ (forall u, u ∈ (fst <$> pages) -> EvRequest u ∈ evs).
Proof.
  intros H. unfold Sifang.get_album_images in H.
  rewrite bind_sleep in H.
  destruct (Sifang.album_pages_loop L w fuel album_url (Py.truthy album_url)
              None [] s) as [[r2 s2] e2] eqn:Hloop.
  injection H as -> <- <-.
  pose proof (album_pages_loop_NoDup _ _ _ _ _ _ _ _ _ _ _ _
                (NoDup_nil_2) Hloop) as Hnd.
  apply album_pages_loop_first_seen in Hloop
    as (pages & Hlinks & Hall & Hreqs & _).
  simpl in Hlinks. exists pages. split; [exact Hlinks|].
  split; [exact Hnd|]. split; [|split; [exact Hall|]].
  - intros u. rewrite Hlinks. split.
    + intros Hu. apply first_seen_elem in Hu. tauto.
    + intros Hu. apply first_seen_complete; [exact Hu|]. intros Hn.
      inversion Hn.
  - intros u Hu. right. apply Hreqs, Hu.
Qed.

Lemma C6_sifang_no_duplicates_witness :
  exists s' evs,
    Sifang.get_album_images sifang_album2_lib album2_world 4
      "https://sifang.lat/albums/a" (sifang_start false)
    = (Ret (Some "Album A",
            ["https://img.example/x.jpg"; "https://img.example/y.jpg";
             "https://img.example/z.jpg"]), s', evs)
    /\ NoDup ["https://img.example/x.jpg"; "https://img.example/y.jpg";
              "https://img.example/z.jpg"]
    /\ requests_of evs = ["https://sifang.lat/albums/a";
                          "https://sifang.lat/albums/a?page=2"].
Proof.
  destruct (Sifang.get_album_images sifang_album2_lib album2_world 4
              "https://sifang.lat/albums/a" (sifang_start false))
    as [[r s'] evs] eqn:Hrun.
  assert (Hr : fst (fst (Sifang.get_album_images sifang_album2_lib
                           album2_world 4 "https://sifang.lat/albums/a"
                           (sifang_start false)))
               = Ret (Some "Album A",
                      ["https://img.example/x.jpg"; "https://img.example/y.jpg";
                       "https://img.example/z.jpg"])
               /\ requests_of
                    (snd (Sifang.get_album_images sifang_album2_lib
                            album2_world 4 "https://sifang.lat/albums/a"
                            (sifang_start false)))
                  = ["https://sifang.lat/albums/a";
                     "https://sifang.lat/albums/a?page=2"])
    by (split; vm_compute; reflexivity).
  rewrite Hrun in Hr. cbn [fst snd] in Hr. destruct Hr as [-> Hreq].
  exists s', evs. split; [reflexivity|].
  destruct (C6_sifang_no_duplicates _ _ _ _ _ _ _ _ _ Hrun)
    as (pages & _ & Hnd & _).
  split; [exact Hnd|exact Hreq].
Defined.

(** ** Pagination *)

(** A page that is served is returned by the first attempt. *)
Lemma retry_request_served (w : world) fuel url (s : state Sifang.crawler) r :
  net w (clock s) url = NetResp r -> served r ->
  Sifang.retry_request w (S fuel) url s
  = (Ret (Some r), Build_state (fs s) (S (clock s)) (prompts s) (obj s),
     [EvSleep 2 5; EvRequest url; EvSleep 1 3]).
Proof.
  intros Hnet (Hbr & H443 & Herr & Hdom).
  unfold Sifang.retry_request. cbn [Sifang.retry_request_loop]. simpl.
  rewrite bind_sleep, bind_request, Hnet. unfold eager. rewrite Hbr.
  apply Z.eqb_neq in H443. rewrite H443, Herr, Hdom. reflexivity.
Qed.

Lemma crawl_albums_loop_S (L : Sifang.lib) (w : world) fuel cur queue :
  Sifang.crawl_albums_loop L w (S fuel) (Some cur) queue
  = bind (Sifang.retry_request w fuel cur) (fun response =>
      match response with
      | None =>
          bind (Sifang.get_next_page L cur None) (fun next =>
            Sifang.crawl_albums_loop L w fuel (next ≫= Py.truthy) queue)
      | Some r =>
          let pg := Sifang.soup L (body r) in
          let albums := Sifang.get_album_list L cur pg in
          bind get_obj (fun o =>
            let queue' :=
              queue ++ List.filter
                         (fun album_url =>
                            negb (bool_decide
                                    (album_url ∈ Sifang.completed_albums o)))
                         albums in
            bind (Sifang.get_next_page L cur (Some pg)) (fun next =>
              bind (sleep 4 8) (fun _ =>
                Sifang.crawl_albums_loop L w fuel (next ≫= Py.truthy) queue')))
      end).
Proof. reflexivity. Qed.

(** One turn of the crawl on a page that is served. *)
Lemma crawl_albums_loop_served (L : Sifang.lib) (w : world) fuel cur queue
    (s : state Sifang.crawler) r n :
  net w (clock s) cur = NetResp r -> served r ->
  Sifang.resolve_next L cur (Sifang.soup L (body r)) = inr n ->
  Sifang.crawl_albums_loop L w (S (S fuel)) (Some cur) queue s
  = (let '(res, s2, e2) :=
       Sifang.crawl_albums_loop L w (S fuel)
         (Sifang.next_url_of n ≫= Py.truthy)
         (queue ++ List.filter
                     (fun album_url =>
                        negb (bool_decide
                                (album_url ∈ Sifang.completed_albums (obj s))))
                     (Sifang.get_album_list L cur (Sifang.soup L (body r))))
         (Build_state (fs s) (S (clock s)) (prompts s) (obj s)) in
     (res, s2,
      [EvSleep 2 5; EvRequest cur; EvSleep 1 3] ++ EvSleep 4 8 :: e2)).
Proof.
  intros Hnet Hserved Hnext.
  rewrite crawl_albums_loop_S.
  rewrite (bind_Ret _ _ _ _ _ _ (retry_request_served w fuel cur s r Hnet Hserved)).
  unfold bind at 1. cbn [get_obj obj].
  unfold Sifang.get_next_page. rewrite Hnext.
  unfold bind at 1. cbn [ret]. rewrite bind_sleep.
  destruct (Sifang.crawl_albums_loop _ _ _ _ _ _) as [[res s2] e2].
  reflexivity.
Qed.

(** On the site whose listing page links to itself, the crawl does not end. *)
Lemma crawl_loops (fuel : nat) (queue : list string) (s : state Sifang.crawler) :
  exists s' evs,
    Sifang.crawl_albums_loop sifang_lib loop_world fuel
      (Some "https://sifang.lat/") queue s = (Fuel, s', evs).
Proof.
  revert queue s. induction fuel as [|fuel IH]; intros queue s.
  - eexists _, _. reflexivity.
  - destruct fuel as [|fuel].
    + eexists _, _. reflexivity.
    + erewrite crawl_albums_loop_served;
        [|reflexivity|repeat split; try reflexivity; discriminate|reflexivity].
      match goal with
      | |- context [Sifang.crawl_albums_loop _ _ _ ?c ?q ?st] =>
          change c with (Some "https://sifang.lat/");
          destruct (IH q st) as (s' & evs & ->)
      end.
      eexists _, _. reflexivity.
Qed.


(** [get_next_page] leaves by one of its three return sites, or raises
    [ValueError] on a page number that is no integer. An explicit link is
    the joined [href] of an anchor of the page and lies on the site; a
    synthesized link is the page after the current one, below the largest
    page number linked. *)
Lemma resolve_next_cases (L : Sifang.lib) (page_url : string) (pg : Sifang.page) :
  Sifang.resolve_next L page_url pg = inl ValueError
  \/ Sifang.resolve_next L page_url pg = inr Sifang.NoNext
  \/ (exists a, a ∈ Sifang.anchors pg
        /\ Py.str_in "sifang.lat" (Sifang.urljoin L page_url (Sifang.a_href a)) = true
        /\ Sifang.resolve_next L page_url pg
           = inr (Sifang.ExplicitLink (Sifang.urljoin L page_url (Sifang.a_href a))))
  \/ (exists current_page,
        Sifang.page_number L page_url "1" = Some current_page
        /\ current_page + 1 <= Sifang.max_page_of L current_page pg
        /\ Sifang.resolve_next L page_url pg
           = inr (Sifang.SynthLink (Sifang.with_page L page_url (current_page + 1)))).
Proof.
  unfold Sifang.resolve_next, Sifang.find_next_button.
  destruct (List.find Sifang.is_arrow (Sifang.anchors pg)) as [a|] eqn:Harrow.
  - apply find_some in Harrow as [Hin _].
    destruct (Py.str_in "sifang.lat" (Sifang.urljoin L page_url (Sifang.a_href a)))
      eqn:Hdom; auto.
    right. right. left. exists a. rewrite list_elem_of_In. auto.
  - destruct (Sifang.page_number L page_url "1") as [current_page|]; auto.
    destruct (List.find (Sifang.is_page_successor L current_page)
                (Sifang.anchors pg)) as [a|] eqn:Hsucc.
    + apply find_some in Hsucc as [Hin _].
      destruct (Py.str_in "sifang.lat"
                  (Sifang.urljoin L page_url (Sifang.a_href a))) eqn:Hdom; auto.
      right. right. left. exists a. rewrite list_elem_of_In. auto.
    + destruct (Z.leb_spec (current_page + 1)
                  (Sifang.max_page_of L current_page pg)); auto.
      right. right. right. exists current_page. auto.
Qed.

(** The crawl of sifang on a listing: it requests the pages of the listing,
    each once and in order, and it ends. *)
Lemma crawl_listing (L : Sifang.lib) (w : world) (ps : list string) :
  sifang_listing L w ps ->
  forall fuel queue (s : state Sifang.crawler),
    (length ps < fuel)%nat ->
    exists q s' evs,
      Sifang.crawl_albums_loop L w fuel (head ps) queue s = (Ret q, s', evs)
      /\ requests_of evs = ps.
Proof.
  induction 1 as [u Hu|u v rest Hu Hrest IH]; intros fuel queue s Hfuel.
  - destruct fuel as [|[|fuel]]; simpl in Hfuel; try lia.
    destruct (Hu (clock s)) as (r & Hnet & Hserved & n & Hnext & Hnone).
    change (head (u :: ?[l])) with (Some u). rewrite (crawl_albums_loop_served _ _ _ _ _ _ _ _ Hnet Hserved Hnext).
    rewrite Hnone. simpl. eexists _, _, _. split; reflexivity.
  - destruct fuel as [|[|fuel]]; simpl in Hfuel; try lia.
    destruct (Hu (clock s)) as (r & Hnet & Hserved & n & Hnext & Hsome).
    change (head (u :: ?[l])) with (Some u). rewrite (crawl_albums_loop_served _ _ _ _ _ _ _ _ Hnet Hserved Hnext).
    rewrite Hsome.
    match goal with
    | |- context [Sifang.crawl_albums_loop _ _ _ _ ?q ?st] =>
        destruct (IH (S fuel) q st) as (q' & s' & evs & Hrun & Hreq);
        [simpl; lia|]
    end.
    change (head (v :: rest)) with (Some v) in Hrun. rewrite Hrun.
    eexists _, _, _. split; [reflexivity|]. simpl. rewrite Hreq. reflexivity.
Qed.

(** The listing loop of 美图色色 counts one page for each URL it adds to
    [processed_urls]. *)
Lemma list_pages_counts (L : Meitu.lib) (w : world) fuel current_url
    (processed : gset string) total all (s s' : state Meitu.spider)
    all' processed' total' evs :
  Meitu.list_pages L w fuel current_url processed total all s
  = (Ret (all', processed', total'), s', evs) ->
  processed ⊆ processed'
  /\ (size processed' + total = size processed + total')%nat.
Proof.
  revert current_url processed total all s s' evs.
  induction fuel as [|fuel IH]; intros current_url processed total all s s' evs H;
    destruct current_url as [cur|]; cbn [Meitu.list_pages] in H;
    try (monad_inv; split; [reflexivity|lia]).
  - case_bool_decide; monad_inv. split; [reflexivity|lia].
  - case_bool_decide as Hin; [monad_inv; split; [reflexivity|lia]|].
    assert (Hsize : size ({[cur]} ∪ processed) = S (size processed)).
    { rewrite size_union by (apply disjoint_singleton_l; assumption).
      rewrite size_singleton. reflexivity. }
    pose proof (union_subseteq_r {[cur]} processed) as Hsub0.
    monad_cases;
      try match goal with
        | H : Meitu.list_pages _ _ _ _ _ _ _ _ = _ |- _ =>
            apply IH in H as [Hsub Hcount]
        end;
      (split; [first [assumption | etrans; eassumption]|lia]).
Qed.

(** The listing loop of 美图色色 on a listing of distinct pages: it
    processes exactly the pages of the listing, and it ends. *)
Lemma list_pages_listing (L : Meitu.lib) (w : world) (ps : list string) :
  meitu_listing L w ps -> NoDup ps ->
  forall fuel (processed : gset string) total all (s : state Meitu.spider),
    (length ps <= fuel)%nat ->
    (forall u, u ∈ ps -> u ∉ processed) ->
    exists all' s' evs,
      Meitu.list_pages L w fuel (head ps) processed total all s
      = (Ret (all', list_to_set ps ∪ processed, (total + length ps)%nat), s', evs).
Proof.
  induction 1 as [u Hu|u v rest Hu Hrest IH];
    intros Hnd fuel processed total all s Hfuel Hfresh.
  - destruct fuel as [|fuel]; simpl in Hfuel; try lia.
    change (head (u :: ?[l])) with (Some u). cbn [Meitu.list_pages].
    rewrite bool_decide_eq_false_2 by (apply Hfresh; left).
    destruct (Hu s) as (albums & s' & evs & Hparse).
    rewrite (bind_Ret _ _ _ _ _ _ Hparse). simpl.
    rewrite (right_id_L (∅ : gset string) (∪)).
    replace (total + 1)%nat with (S total) by lia.
    eexists _, _, _. reflexivity.
  - destruct fuel as [|fuel]; simpl in Hfuel; try lia.
    change (head (u :: ?[l])) with (Some u). cbn [Meitu.list_pages].
    rewrite bool_decide_eq_false_2 by (apply Hfresh; left).
    destruct (Hu s) as (albums & s1 & e1 & Hparse).
    rewrite (bind_Ret _ _ _ _ _ _ Hparse). simpl.
    apply NoDup_cons in Hnd as [Hu_fresh Hnd].
    assert (Hv : v ∉ ({[u]} ∪ processed : gset string)).
    { intros [Hin|Hin]%elem_of_union.
      - apply elem_of_singleton in Hin. subst. apply Hu_fresh. left.
      - apply (Hfresh v); [right; left|assumption]. }
    rewrite bool_decide_eq_false_2 by exact Hv. simpl.
    unfold bind at 1. simpl. rewrite bind_sleep.
    match goal with
    | |- context [Meitu.list_pages _ _ _ _ ?p ?t ?a ?st] =>
        destruct (IH Hnd fuel p t a st) as (all' & s' & evs & Hrun);
        [simpl in *; lia| |]
    end.
    + intros x Hx [Hin|Hin]%elem_of_union.
      * apply elem_of_singleton in Hin. subst. auto.
      * apply (Hfresh x); [right; assumption|assumption].
    + change (head (v :: rest)) with (Some v) in Hrun. rewrite Hrun.
      assert (Hset : forall X : gset string,
                 list_to_set (u :: v :: rest) ∪ X
                 = list_to_set (v :: rest) ∪ ({[u]} ∪ X)).
      { intros X. apply set_eq. intros x.
        rewrite !elem_of_union, !elem_of_list_to_set, !elem_of_cons,
          elem_of_singleton. tauto. }
      rewrite Hset.
      replace (total + S (S (length rest)))%nat
        with (S total + length (v :: rest))%nat by (simpl; lia).
      eexists _, _, _. reflexivity.
Qed.



(** ** The progress record (sifang_crawler.py) *)

Section ObjRel.
Context {O : Type} (R : O -> O -> Prop) `{!PreOrder R}.

#[global] Instance obj_rel_sequential : Sequential (obj_rel R).
Proof.
  split.
  - intros s. unfold obj_rel. reflexivity.
  - intros s1 s2 s3 e1 e2 H1 H2. unfold obj_rel in *. etrans; eauto.
Qed.

Lemma sat_emit e : sat (O:=O) (obj_rel R) (emit e).
Proof. intros s r s' evs [= <- <- <-]. unfold obj_rel. reflexivity. Qed.

Lemma sat_sleep lo hi : sat (O:=O) (obj_rel R) (sleep lo hi).
Proof. apply sat_emit. Qed.

Lemma sat_request w url : sat (O:=O) (obj_rel R) (request w url).
Proof. intros s r s' evs [= <- <- <-]. unfold obj_rel. reflexivity. Qed.

Lemma sat_input w : sat (O:=O) (obj_rel R) (input w).
Proof. intros s r s' evs [= <- <- <-]. unfold obj_rel. reflexivity. Qed.

Lemma sat_write_file path c : sat (O:=O) (obj_rel R) (write_file path c).
Proof. intros s r s' evs [= <- <- <-]. unfold obj_rel. reflexivity. Qed.

Lemma sat_unlink path : sat (O:=O) (obj_rel R) (unlink path).
Proof. intros s r s' evs [= <- <- <-]. unfold obj_rel. reflexivity. Qed.

Lemma sat_replace a b : sat (O:=O) (obj_rel R) (replace a b).
Proof. intros s r s' evs [= <- <- <-]. unfold obj_rel. reflexivity. Qed.

Lemma sat_modify_obj f :
  (forall o, R o (f o)) -> sat (O:=O) (obj_rel R) (modify_obj f).
Proof. intros Hf s r s' evs [= <- <- <-]. unfold obj_rel. apply Hf. Qed.

End ObjRel.

#[global] Instance record_kept_preorder : PreOrder record_kept.
Proof.
  split.
  - intros o. unfold record_kept. auto.
  - intros o1 o2 o3 (? & ? & ? & ? & ?) (? & ? & ? & ? & ?).
    unfold record_kept. repeat split; congruence.
Qed.

Ltac sat_step :=
  lazymatch goal with
  | |- sat _ (bind _ _) => apply sat_bind; [try apply _ ..| |intros]
  | |- sat _ (catch _ _ _) => apply sat_catch; [try apply _ ..| |intros]
  | |- sat _ (ret _) => apply sat_ret; apply _
  | |- sat _ (raise _) => apply sat_raise; apply _
  | |- sat _ out_of_fuel => apply sat_out_of_fuel; apply _
  | |- sat _ get_obj => apply sat_get_obj; apply _
  | |- sat _ get_fs => apply sat_get_fs; apply _
  | |- sat _ (emit _) => apply sat_emit; apply _
  | |- sat _ (sleep _ _) => apply sat_sleep; apply _
  | |- sat _ (request _ _) => apply sat_request; apply _
  | |- sat _ (input _) => apply sat_input; apply _
  | |- sat _ (write_file _ _) => apply sat_write_file; apply _
  | |- sat _ (unlink _) => apply sat_unlink; apply _
  | |- sat _ (replace _ _) => apply sat_replace; apply _
  | |- sat _ (match ?x with _ => _ end) => destruct x
  end.

Section Frames.
Context (R : Sifang.crawler -> Sifang.crawler -> Prop) `{!PreOrder R}.

(** What does not touch the object keeps any relation on it. *)
Lemma retry_request_loop_frame w fuel url max_retries retries :
  sat (obj_rel R) (Sifang.retry_request_loop w fuel url max_retries retries).
Proof.
  revert retries. induction fuel as [|fuel IH]; intros retries;
    cbn [Sifang.retry_request_loop]; repeat first [apply IH | sat_step].
Qed.

Lemma album_pages_loop_frame L w fuel album_url current_url album_name all :
  sat (obj_rel R)
    (Sifang.album_pages_loop L w fuel album_url current_url album_name all).
Proof.
  revert current_url album_name all.
  induction fuel as [|fuel IH]; intros current_url album_name all;
    destruct current_url; cbn [Sifang.album_pages_loop];
    unfold Sifang.lift_sum, Sifang.retry_request;
    repeat first [apply IH | apply retry_request_loop_frame | sat_step].
Qed.

Lemma get_album_images_frame L w fuel album_url :
  sat (obj_rel R) (Sifang.get_album_images L w fuel album_url).
Proof.
  unfold Sifang.get_album_images.
  repeat first [apply album_pages_loop_frame | sat_step].
Qed.

End Frames.

Lemma download_attempts_keeps_record L w n retry image_url save_path :
  sat (obj_rel record_kept)
    (Sifang.download_attempts L w n retry image_url save_path).
Proof.
  revert retry. induction n as [|n IH]; intros retry.
  - change (sat (obj_rel record_kept) (ret false : M Sifang.crawler bool)).
    sat_step.
  - rewrite download_attempts_S.
    unfold Sifang.after_fault, Sifang.is_image_corrupted.
    repeat first [apply IH
                 | apply sat_modify_obj; intros o; unfold record_kept; simpl; tauto
                 | sat_step].
Qed.

Lemma download_image_keeps_record L w image_url save_path :
  sat (obj_rel record_kept) (Sifang.download_image L w image_url save_path).
Proof.
  unfold Sifang.download_image, Sifang.keep_existing, Sifang.is_image_corrupted.
  repeat first [apply download_attempts_keeps_record | sat_step].
Qed.

Lemma download_images_keeps_record L w album_url album_name album_dir i links :
  sat (obj_rel record_kept)
    (Sifang.download_images L w album_url album_name album_dir i links).
Proof.
  revert i. induction links as [|img_url rest IH]; intros i;
    cbn [Sifang.download_images];
    repeat first [apply IH | apply download_image_keeps_record
                 | apply sat_modify_obj; intros o; unfold record_kept; simpl; tauto
                 | sat_step].
Qed.

(** [save_completed_album] puts the album in the set, and appends it to
    the file when it was not in the set. *)
Lemma save_completed_album_spec album_url (s : state Sifang.crawler) :
  exists s',
    Sifang.save_completed_album album_url s
    = (Ret tt, s',
       if bool_decide (album_url ∈ Sifang.completed_albums (obj s)) then []
       else [EvAppend "completed_albums.txt" album_url])
    /\ Sifang.completed_albums (obj s')
       = {[album_url]} ∪ Sifang.completed_albums (obj s)
    /\ Sifang.completed_file (obj s')
       = Sifang.completed_file (obj s)
         ++ (if bool_decide (album_url ∈ Sifang.completed_albums (obj s))
             then [] else [album_url])
    /\ Sifang.failed_albums (obj s') = Sifang.failed_albums (obj s)
    /\ Sifang.failed_images (obj s') = Sifang.failed_images (obj s)
    /\ fs s' = fs s.
Proof.
  unfold Sifang.save_completed_album. run.
  case_bool_decide as Hin.
  - exists s. rewrite app_nil_r. repeat split; auto.
    apply set_eq. intros x. rewrite elem_of_union, elem_of_singleton.
    split; [auto|]. intros [->|?]; auto.
  - run. eexists. split; [reflexivity|]. simpl. repeat split; auto.
Qed.


(** ** Running the crawler again (sifang_crawler.py) *)

Lemma load_completed_albums_elem (lines : list string) (a : string) :
  a ∈ lines -> Py.strip a = a -> a ∈ Sifang.load_completed_albums lines.
Proof.
  intros Hin Hstrip. unfold Sifang.load_completed_albums.
  rewrite elem_of_list_to_set, list_elem_of_fmap. exists a. auto.
Qed.

(** The crawl puts on the queue no album of the progress record. *)
Lemma crawl_albums_loop_queue (L : Sifang.lib) (w : world) fuel current_url
    queue (s s' : state Sifang.crawler) q evs :
  Sifang.crawl_albums_loop L w fuel current_url queue s = (Ret q, s', evs) ->
  forall a, a ∈ q ->
    a ∈ queue \/ a ∉ Sifang.completed_albums (obj s).
Proof.
  revert current_url queue s s' evs.
  induction fuel as [|fuel IH]; intros current_url queue s s' evs H a Ha;
    destruct current_url as [cur|]; cbn [Sifang.crawl_albums_loop] in H;
    try (monad_inv; auto; fail).
  unfold Sifang.get_next_page in H.
  monad_cases;
    repeat match goal with
      | H : Sifang.retry_request _ _ _ _ = _ |- _ =>
          apply (retry_request_loop_frame record_kept) in H as (Hc & _)
      | H : Sifang.crawl_albums_loop _ _ _ _ _ _ = _ |- _ =>
          apply IH with (a := a) in H; [|assumption]
      end; simpl in *; try rewrite Hc in *; auto.
  all: match goal with H : _ \/ _ |- _ => destruct H as [Hq|Hq] end; auto.
  all: apply elem_of_app in Hq as [Hq|Hq]; auto.
  all: right; apply list_elem_of_In, filter_In in Hq as [_ Hq].
  all: apply negb_true_iff, bool_decide_eq_false in Hq; assumption.
Qed.



(** Without a record, the same crawl puts the album on the queue. *)
Example crawl_albums_first_run :
  fst (fst (Sifang.crawl_albums sifang_lib listing_world 2 (sifang_start false)))
  = Ret ["https://sifang.lat/albums/a"].
Proof. vm_compute. reflexivity. Qed.

(** ** The end of [download] (sifang_crawler.py) *)

(** [download_album] catches every exception. *)
Lemma download_album_no_exception (L : Sifang.lib) (w : world) fuel album_url
    (s s' : state Sifang.crawler) e evs :
  Sifang.download_album L w fuel album_url s <> (Exc e, s', evs).
Proof.
  unfold Sifang.download_album, catch.
  match goal with
  | |- context [match ?m s with _ => _ end] => destruct (m s) as [[[a|e0|] sb] eb]
  end; simpl; discriminate.
Qed.

Lemma process_queue_no_exception (L : Sifang.lib) (w : world) fuel queue
    (s s' : state Sifang.crawler) e evs :
  Sifang.process_queue L w fuel queue s <> (Exc e, s', evs).
Proof.
  revert s s' evs. induction queue as [|a queue IH]; intros s s' evs H;
    cbn [Sifang.process_queue] in H.
  - discriminate.
  - monad_cases.
    + eapply IH; eauto.
    + eapply download_album_no_exception; eauto.
Qed.

(** The name [total_albums] is bound neither in [download], nor at module
    level, nor among the built-ins. *)
Lemma read_total_albums :
  Sifang.read_name "total_albums"
  = (raise (NameError "total_albums") : M Sifang.crawler unit).
Proof. vm_compute. reflexivity. Qed.

Lemma download_summary_raises (L : Sifang.lib) (w : world) fuel
    (s : state Sifang.crawler) :
  Sifang.download_summary L w fuel s
  = (Exc (NameError "total_albums"), s, [EvSaveCookies]).
Proof.
  unfold Sifang.download_summary. rewrite read_total_albums. reflexivity.
Qed.

(** C9. When the crawl has ended and every queued album has been handled,
    [download] saves the cookies and raises [NameError] for [total_albums]
    at the first line of its summary: the run ends there, with no prompt
    and no write of failed_items.log. No run of [download] returns. *)
Theorem C9_download_raises_NameError (L : Sifang.lib) (w : world) (fuel : nat)
    (s s1 s2 : state Sifang.crawler) (queue : list string)
    (e1 e2 : list event) :
  Sifang.crawl_albums L w fuel s = (Ret queue, s1, e1) ->
  Sifang.process_queue L w fuel queue s1 = (Ret tt, s2, e2) ->
  Sifang.download L w fuel s
  = (Exc (NameError "total_albums"), s2, e1 ++ e2 ++ [EvSaveCookies])
  /\ (forall st r st' ev,
         Sifang.download L w fuel st = (r, st', ev) ->
         r = Fuel \/ r = Exc (NameError "total_albums")).
Proof.
  intros Hcrawl Hqueue. split.
  - unfold Sifang.download.
    assert (Hc : catch any_exception (Sifang.crawl_albums L w fuel)
                   (fun _ => out_of_fuel) s = (Ret queue, s1, e1)).
    { unfold catch. rewrite Hcrawl. reflexivity. }
    rewrite (bind_Ret _ _ _ _ _ _ Hc).
    rewrite (bind_Ret _ _ _ _ _ _ Hqueue).
    rewrite download_summary_raises. reflexivity.
  - intros st r st' ev Hrun. unfold Sifang.download in Hrun.
    apply bind_inv in Hrun
      as [(q & sa & ea & eb & Hc & Hrest & ->)|[(e & Hc & ->)|[Hc ->]]].
    + apply bind_inv in Hrest
        as [([] & sb & ec & ed & Hq & Hsum & ->)|[(e & Hq & ->)|[Hq ->]]].
      * rewrite download_summary_raises in Hsum. injection Hsum as <- _ _.
        auto.
      * exfalso. eapply process_queue_no_exception; eauto.
      * auto.
    + exfalso. unfold catch in Hc.
      destruct (Sifang.crawl_albums L w fuel st) as [[[a|e0|] sa] ea];
        simpl in Hc; discriminate.
    + auto.
Qed.

Lemma C9_download_raises_NameError_witness :
  exists s2 evs,
    Sifang.download sifang_lib listing_world 3 (sifang_start false)
    = (Exc (NameError "total_albums"), s2, evs)
    /\ Sifang.completed_file (obj s2) = ["https://sifang.lat/albums/a"].
Proof.
  destruct (Sifang.crawl_albums sifang_lib listing_world 3 (sifang_start false))
    as [[r1 s1] e1] eqn:Hcrawl.
  assert (Hr1 : fst (fst (Sifang.crawl_albums sifang_lib listing_world 3
                            (sifang_start false)))
                = Ret ["https://sifang.lat/albums/a"])
    by (vm_compute; reflexivity).
  rewrite Hcrawl in Hr1. simpl in Hr1. subst r1.
  destruct (Sifang.process_queue sifang_lib listing_world 3
              ["https://sifang.lat/albums/a"] s1) as [[r2 s2] e2] eqn:Hqueue.
  assert (Hr2 : fst (fst (Sifang.process_queue sifang_lib listing_world 3
                            ["https://sifang.lat/albums/a"]
                            (snd (fst (Sifang.crawl_albums sifang_lib
                                         listing_world 3 (sifang_start false))))))
                = Ret tt
                /\ Sifang.completed_file
                     (obj (snd (fst (Sifang.process_queue sifang_lib
                        listing_world 3 ["https://sifang.lat/albums/a"]
                        (snd (fst (Sifang.crawl_albums sifang_lib
                                     listing_world 3 (sifang_start false))))))))
                   = ["https://sifang.lat/albums/a"])
    by (split; vm_compute; reflexivity).
  rewrite Hcrawl in Hr2. cbn [fst snd] in Hr2.
  rewrite Hqueue in Hr2. cbn [fst snd] in Hr2.
  destruct Hr2 as [-> Hfile].
  exists s2, (e1 ++ e2 ++ [EvSaveCookies]).
  split; [|exact Hfile].
  exact (proj1 (C9_download_raises_NameError _ _ _ _ _ _ _ _ _ Hcrawl Hqueue)).
Defined.

(** ** Names of directories and files *)

Lemma free_of_nil bad : free_of bad EmptyString.
Proof. intros c []. Qed.

Lemma free_of_cons bad c s :
  free_of bad (String c s)
  <-> Py.str_in (String c EmptyString) bad = false /\ free_of bad s.
Proof.
  unfold free_of. simpl. split.
  - intros H. split; [apply H; auto|]. intros d Hd. apply H. auto.
  - intros [Hc Hs] d [<-|Hd]; auto.
Qed.

Lemma remove_chars_free bad s : free_of bad (Py.remove_chars bad s).
Proof.
  induction s as [|c s IH]; simpl.
  - apply free_of_nil.
  - destruct (Py.str_in (String c EmptyString) bad) eqn:Hc; [exact IH|].
    apply free_of_cons. auto.
Qed.

Lemma free_of_rev_app bad s acc :
  free_of bad (String.rev_app s acc) <-> free_of bad s /\ free_of bad acc.
Proof.
  revert acc. induction s as [|c s IH]; intros acc; simpl.
  - split; [intros H; split; [apply free_of_nil|exact H]|tauto].
  - rewrite IH. rewrite !free_of_cons. tauto.
Qed.

Lemma free_of_rev bad s : free_of bad (String.rev s) <-> free_of bad s.
Proof.
  unfold String.rev. rewrite free_of_rev_app.
  split; [tauto|]. intros H. split; [exact H|apply free_of_nil].
Qed.

Lemma free_of_lstrip_upto bad : forall n s,
  (String.length s <= n)%nat ->
  free_of bad s -> free_of bad (Py.lstrip s) /\ free_of bad (Py.lstrip_backwards s).
Proof.
  induction n as [|n IH]; intros s Hn H.
  - destruct s; simpl in Hn; [split; exact H|lia].
  - destruct s as [|c1 [|c2 [|c3 t3]]]; simpl in *.
    + split; exact H.
    + destruct (Py.is_space c1); split; auto using free_of_nil.
    + apply free_of_cons in H as [H1 H]. pose proof H as H'.
      apply free_of_cons in H as [H2 H].
      assert (Hkeep : free_of bad (String c1 (String c2 EmptyString)))
        by (apply free_of_cons; auto).
      destruct (IH (String c2 EmptyString)) as [Ha Hb]; [simpl; lia|exact H'|].
      split; destruct (Py.is_space c1); auto;
        [destruct (Py.is_space2 c1 c2)|destruct (Py.is_space2 c2 c1)];
        auto using free_of_nil.
    + apply free_of_cons in H as [H1 H]. pose proof H as H'.
      apply free_of_cons in H as [H2 H]. pose proof H as H''.
      apply free_of_cons in H as [H3 H].
      assert (Hkeep : free_of bad (String c1 (String c2 (String c3 t3))))
        by (rewrite !free_of_cons; auto).
      destruct (IH (String c2 (String c3 t3))) as [Ha Hb]; [simpl; lia|exact H'|].
      destruct (IH (String c3 t3)) as [Hc Hd]; [simpl; lia|exact H''|].
      destruct (IH t3) as [He Hf]; [lia|exact H|].
      split; destruct (Py.is_space c1); auto;
        [destruct (Py.is_space2 c1 c2)|destruct (Py.is_space2 c2 c1)]; auto;
        [destruct (Py.is_space3 c1 c2 c3)|destruct (Py.is_space3 c3 c2 c1)];
        auto.
Qed.

Lemma free_of_lstrip bad s : free_of bad s -> free_of bad (Py.lstrip s).
Proof. intros H. apply (free_of_lstrip_upto bad (String.length s)); auto. Qed.

Lemma free_of_rstrip bad s : free_of bad s -> free_of bad (Py.rstrip s).
Proof.
  intros H. unfold Py.rstrip. apply free_of_rev.
  apply (free_of_lstrip_upto bad (String.length (String.rev s))); auto.
  apply free_of_rev, H.
Qed.

Lemma free_of_strip bad s : free_of bad s -> free_of bad (Py.strip s).
Proof. intros H. unfold Py.strip. apply free_of_rstrip, free_of_lstrip, H. Qed.

Lemma free_of_take_chars bad s : forall n,
  free_of bad s -> free_of bad (Py.take_chars n s).
Proof.
  induction s as [|c s IH]; intros n H; simpl; [exact H|].
  apply free_of_cons in H as [Hc Hs].
  destruct (Py.is_continuation c).
  - apply free_of_cons. auto.
  - destruct n as [|n]; [apply free_of_nil|]. apply free_of_cons. auto.
Qed.

Lemma len_take_chars s : forall n, (Py.len (Py.take_chars n s) <= n)%nat.
Proof.
  induction s as [|c s IH]; intros n; simpl; [lia|].
  destruct (Py.is_continuation c) eqn:Hc; simpl.
  - rewrite Hc. apply IH.
  - destruct n as [|n]; simpl; [lia|]. rewrite Hc. specialize (IH n). lia.
Qed.

Lemma take_chars_all s : forall n,
  (Py.len s <= n)%nat -> Py.take_chars n s = s.
Proof.
  induction s as [|c s IH]; intros n H; simpl in *; [reflexivity|].
  destruct (Py.is_continuation c).
  - f_equal. apply IH, H.
  - destruct n as [|n]; [lia|]. f_equal. apply IH. lia.
Qed.

(** [s[:n]] is a prefix of [s] that ends where a character ends. *)
Lemma take_chars_prefix s : forall n,
  exists rest,
    s = String.append (Py.take_chars n s) rest
    /\ match rest with
       | EmptyString => True
       | String c _ => Py.is_continuation c = false
       end.
Proof.
  induction s as [|c s IH]; intros n; simpl.
  - exists EmptyString. auto.
  - destruct (Py.is_continuation c) eqn:Hc.
    + destruct (IH n) as (rest & Heq & Hrest). exists rest.
      split; [|exact Hrest].
        change (String c s = String c (String.append (Py.take_chars n s) rest)).
        f_equal. exact Heq.
    + destruct n as [|n].
      * exists (String c s). auto.
      * destruct (IH n) as (rest & Heq & Hrest). exists rest.
        split; [|exact Hrest].
        change (String c s = String c (String.append (Py.take_chars n s) rest)).
        f_equal. exact Heq.
Qed.

Lemma remove_chars_id bad s : free_of bad s -> Py.remove_chars bad s = s.
Proof.
  induction s as [|c s IH]; intros H; simpl; [reflexivity|].
  apply free_of_cons in H as [Hc Hs]. rewrite Hc. f_equal. auto.
Qed.

Lemma free_of_forallb bad s :
  forallb (fun c => negb (Py.str_in (String c EmptyString) bad))
    (list_ascii_of_string s) = true ->
  free_of bad s.
Proof.
  intros H c Hin. rewrite forallb_forall in H.
  apply H in Hin. apply negb_true_iff in Hin. exact Hin.
Qed.

Lemma free_of_substring bad s : forall m n,
  free_of bad s -> free_of bad (String.substring m n s).
Proof.
  induction s as [|c s IH]; intros m n H.
  - destruct m, n; simpl; apply free_of_nil.
  - apply free_of_cons in H as [Hc Hs]. destruct m as [|m]; simpl.
    + destruct n as [|n]; [apply free_of_nil|].
      apply free_of_cons. split; [exact Hc|]. apply IH, Hs.
    + apply IH, Hs.
Qed.

Lemma length_substring_le s : forall m n,
  (String.length (String.substring m n s) <= n)%nat.
Proof.
  induction s as [|c s IH]; intros m n.
  - destruct m, n; simpl; lia.
  - destruct m as [|m]; simpl.
    + destruct n as [|n]; simpl; [lia|]. specialize (IH 0%nat n). lia.
    + apply IH.
Qed.

Lemma safe_name_of_length s :
  String.length (Ku1372.safe_name_of s) = String.length s.
Proof.
  induction s as [|c s IH]; simpl; [reflexivity|].
  match goal with |- context [if ?b then _ else _] => destruct b end;
    simpl; congruence.
Qed.

(** X1. The directory name that [get_album_images] derives from a page
    holds none of the characters [<>:/\|?*] and is at most 50 characters
    long (characters, not bytes), whatever the title of the page and the URL
    of the album. A title of at most 50 characters that holds none of these
    characters, no [" | "] and no white space at either end is the name
    itself. *)
Theorem X1_album_name_sanitised (album_url : string) (pg : Sifang.page) :
  free_of "<>:/\|?*" (Sifang.album_name_of album_url pg)
  /\ (Py.len (Sifang.album_name_of album_url pg) <= 50)%nat
  /\ (forall t,
        Sifang.title pg = Some t ->
        Py.strip t = t -> Py.str_in " | " t = false ->
        free_of "<>:/\|?*" t -> (Py.len t <= 50)%nat ->
        Sifang.album_name_of album_url pg = t).
Proof.
  unfold Sifang.album_name_of. split; [|split].
  - apply free_of_take_chars, free_of_strip, remove_chars_free.
  - apply len_take_chars.
  - intros t -> Hstrip Hbar Hfree Hlen.
    rewrite Hstrip, Hbar, (remove_chars_id _ _ Hfree), Hstrip.
    apply take_chars_all, Hlen.
Qed.

Lemma X1_album_name_sanitised_witness :
  (String.length cjk_title = 72)%nat
  /\ Sifang.album_name_of "https://sifang.lat/albums/a" cjk_page = cjk_title.
Proof.
  split; [reflexivity|].
  apply (proj2 (proj2 (X1_album_name_sanitised "https://sifang.lat/albums/a"
                         cjk_page)) cjk_title).
  - reflexivity.
  - vm_compute. reflexivity.
  - vm_compute. reflexivity.
  - apply free_of_forallb. vm_compute. reflexivity.
  - vm_compute. lia.
Defined.

(** X2. The archive name of [download_album_wrapper] has the length of the
    album name and holds none of the characters that a file name may not
    hold; a name without such characters is kept as it is. *)
Theorem X2_safe_name (album_name : string) :
  String.length (Ku1372.safe_name_of album_name) = String.length album_name
  /\ free_of (String.append "\/:*?" (String.append Py.dquote "<>|"))
       (Ku1372.safe_name_of album_name)
  /\ (free_of (String.append "\/:*?" (String.append Py.dquote "<>|")) album_name ->
      Ku1372.safe_name_of album_name = album_name).
Proof.
  split; [apply safe_name_of_length|]. split.
  - induction album_name as [|c s IH]; simpl; [apply free_of_nil|].
    match goal with
    | |- context [if ?b then _ else _] => destruct b eqn:Hc
    end; apply free_of_cons; split; auto.
  - induction album_name as [|c s IH]; simpl; [reflexivity|].
    intros H. apply free_of_cons in H as [Hc Hs].
    simpl in Hc. rewrite Hc. f_equal. auto.
Qed.

(** ** The listing pages (sifang_crawler.py) *)

Lemma mem_true (x : string) (l : list string) : Py.mem x l = true <-> x ∈ l.
Proof. unfold Py.mem. apply bool_decide_eq_true. Qed.

Lemma mem_false (x : string) (l : list string) : Py.mem x l = false <-> x ∉ l.
Proof. unfold Py.mem. apply bool_decide_eq_false. Qed.

Lemma get_album_list_from (L : Sifang.lib) (page_url : string)
    (anchors : list Sifang.anchor) (acc : list string) :
  let step := fun album_links a =>
    if Py.str_in "/albums/" (Sifang.a_href a) then
      let full_url := Sifang.urljoin L page_url (Sifang.a_href a) in
      if Py.mem full_url album_links then album_links
      else album_links ++ [full_url]
    else album_links in
  NoDup acc ->
  NoDup (foldl step acc anchors)
  /\ forall u, u ∈ foldl step acc anchors <->
       u ∈ acc
       \/ exists a, a ∈ anchors
            /\ Py.str_in "/albums/" (Sifang.a_href a) = true
            /\ u = Sifang.urljoin L page_url (Sifang.a_href a).
Proof.
  intros step. revert acc.
  induction anchors as [|a rest IH]; intros acc Hnd; simpl.
  - split; [exact Hnd|]. intros u. split; [auto|].
    intros [H|(a & Ha & _)]; [exact H|]. apply elem_of_nil in Ha. contradiction.
  - assert (Hstep : NoDup (step acc a)
              /\ forall u, u ∈ step acc a <->
                   u ∈ acc
                   \/ (Py.str_in "/albums/" (Sifang.a_href a) = true
                       /\ u = Sifang.urljoin L page_url (Sifang.a_href a))).
    { unfold step.
      destruct (Py.str_in "/albums/" (Sifang.a_href a)) eqn:Hal.
      - simpl.
        destruct (Py.mem (Sifang.urljoin L page_url (Sifang.a_href a)) acc)
          eqn:Hm.
        + apply mem_true in Hm. split; [exact Hnd|].
          intros u. split; [auto|]. intros [H|[_ ->]]; auto.
        + apply mem_false in Hm. split.
          * apply NoDup_app. split; [exact Hnd|]. split.
            -- intros x Hx Hx'. apply list_elem_of_singleton in Hx'. subst x.
               contradiction.
            -- apply NoDup_singleton.
          * intros u. rewrite elem_of_app, list_elem_of_singleton. tauto.
      - split; [exact Hnd|]. intros u. split; [auto|].
        intros [H|[H _]]; [exact H|discriminate]. }
    destruct Hstep as [Hnd' Hmem].
    destruct (IH (step acc a) Hnd') as [IH1 IH2].
    split; [exact IH1|]. intros u. rewrite IH2, Hmem. split.
    + intros [[H|[H1 H2]]|(b & Hb & H1 & H2)]; auto.
      * right. exists a. split; [left|auto].
      * right. exists b. split; [right; exact Hb|auto].
    + intros [H|(b & Hb & H1 & H2)]; auto.
      apply elem_of_cons in Hb as [->|Hb]; auto.
      right. exists b. auto.
Qed.

(** X3. The list that [get_album_list] returns for a listing page has no
    duplicate, and holds exactly the URLs that [urljoin] gives for the
    anchors of the page whose [href] contains [/albums/]. *)
Theorem X3_get_album_list (L : Sifang.lib) (page_url : string)
    (pg : Sifang.page) :
  NoDup (Sifang.get_album_list L page_url pg)
  /\ forall u,
       u ∈ Sifang.get_album_list L page_url pg <->
       exists a, a ∈ Sifang.anchors pg
         /\ Py.str_in "/albums/" (Sifang.a_href a) = true
         /\ u = Sifang.urljoin L page_url (Sifang.a_href a).
Proof.
  unfold Sifang.get_album_list.
  destruct (get_album_list_from L page_url (Sifang.anchors pg) [])
    as [Hnd Hmem]; [apply NoDup_nil_2|].
  split; [exact Hnd|]. intros u. rewrite Hmem. split; [|auto].
  intros [H|H]; [|exact H]. apply elem_of_nil in H. contradiction.
Qed.

Lemma existsb_eqb (x : string) (l : list string) :
  existsb (String.eqb x) l = true <-> x ∈ l.
Proof.
  rewrite existsb_exists. split.
  - intros (y & Hy & Heq). apply String.eqb_eq in Heq. subst y.
    apply list_elem_of_In. exact Hy.
  - intros H. exists x. split; [apply list_elem_of_In, H|apply String.eqb_refl].
Qed.

Lemma enqueue_new_spec (completed : gset string) (albums q : list string) :
  NoDup q ->
  NoDup (Sifang.enqueue_new completed q albums)
  /\ exists added,
       Sifang.enqueue_new completed q albums = q ++ added
       /\ forall a, a ∈ added -> (a ∉ completed) /\ (a ∈ albums).
Proof.
  unfold Sifang.enqueue_new. revert q.
  induction albums as [|x rest IH]; intros q Hnd; simpl.
  - split; [exact Hnd|]. exists []. rewrite app_nil_r. split; [reflexivity|].
    intros a Ha. apply elem_of_nil in Ha. contradiction.
  - destruct (bool_decide (x ∈ completed)) eqn:Hc; simpl.
    + destruct (IH q Hnd) as (H1 & added & H2 & H3).
      split; [exact H1|]. exists added. split; [exact H2|].
      intros a Ha. destruct (H3 a Ha). split; [auto|right; auto].
    + destruct (existsb (String.eqb x) q) eqn:Hq; simpl.
      * destruct (IH q Hnd) as (H1 & added & H2 & H3).
        split; [exact H1|]. exists added. split; [exact H2|].
        intros a Ha. destruct (H3 a Ha). split; [auto|right; auto].
      * assert (Hx : x ∉ q).
        { intros Hin. apply existsb_eqb in Hin. congruence. }
        assert (Hnd' : NoDup (q ++ [x])).
        { apply NoDup_app. split; [exact Hnd|]. split; [|apply NoDup_singleton].
          intros y Hy Hy'. apply list_elem_of_singleton in Hy'. subst y.
          contradiction. }
        destruct (IH (q ++ [x]) Hnd') as (H1 & added & H2 & H3).
        split; [exact H1|]. exists (x :: added).
        split; [rewrite H2, <- app_assoc; reflexivity|].
        intros a Ha. apply elem_of_cons in Ha as [->|Ha].
        -- apply bool_decide_eq_false in Hc. split; [exact Hc|left].
        -- destruct (H3 a Ha). split; [auto|right; auto].
Qed.

Lemma get_all_albums_loop_spec (L : Sifang.lib) (w : world) fuel current_url
    album_queue (s s' : state Sifang.crawler) q evs :
  Sifang.get_all_albums_loop L w fuel current_url album_queue s
  = (Ret q, s', evs) ->
  NoDup album_queue ->
  NoDup q
  /\ record_kept (obj s) (obj s')
  /\ exists added,
       q = album_queue ++ added
       /\ forall a, a ∈ added -> a ∉ Sifang.completed_albums (obj s).
Proof.
  revert current_url album_queue s s' evs.
  induction fuel as [|fuel IH]; intros current_url album_queue s s' evs H Hnd;
    destruct current_url as [cur|]; cbn [Sifang.get_all_albums_loop] in H.
  - monad_inv.
  - monad_inv. split; [exact Hnd|]. split; [reflexivity|].
    exists []. rewrite app_nil_r. split; [reflexivity|].
    intros a Ha. apply elem_of_nil in Ha. contradiction.
  - unfold Sifang.get_next_page in H.
    monad_cases;
      repeat match goal with
        | H : Sifang.retry_request _ _ _ _ = _ |- _ =>
            apply (retry_request_loop_frame record_kept) in H;
            unfold obj_rel in H
        end; simpl in *.
    + match goal with
      | H : Sifang.get_all_albums_loop _ _ _ _ _ _ = _ |- _ =>
          apply IH in H as (H1 & H2 & added & H3 & H4)
      end.
      * simpl in *.
        match type of H3 with
        | context [Sifang.enqueue_new ?c ?q ?al] =>
            destruct (enqueue_new_spec c al q Hnd) as (_ & add0 & Heq & Hadd0)
        end.
        match goal with
        | Hk : record_kept (obj s) _ |- _ => pose proof Hk as (Hc & _)
        end.
        split; [exact H1|]. split; [etrans; eassumption|].
        exists (add0 ++ added). split.
        -- rewrite H3, Heq, <- app_assoc. reflexivity.
        -- intros a Ha. rewrite <- Hc. apply elem_of_app in Ha as [Ha|Ha].
           ++ apply (Hadd0 a Ha).
           ++ apply (H4 a Ha).
      * apply enqueue_new_spec. exact Hnd.
    + match goal with
      | H : Sifang.get_all_albums_loop _ _ _ _ _ _ = _ |- _ =>
          apply IH in H as (H1 & H2 & added & H3 & H4); [|exact Hnd]
      end.
      match goal with
      | Hk : record_kept (obj s) _ |- _ => pose proof Hk as (Hc & _)
      end.
      split; [exact H1|]. split; [etrans; eassumption|].
      exists added. split; [exact H3|].
      intros a Ha. simpl in *. rewrite <- Hc. apply (H4 a Ha).
  - monad_inv. split; [exact Hnd|]. split; [reflexivity|].
    exists []. rewrite app_nil_r. split; [reflexivity|].
    intros a Ha. apply elem_of_nil in Ha. contradiction.
Qed.

(** X4. [get_all_albums] extends the album queue without ever creating a
    duplicate: when the queue it starts from has none, the queue it returns
    has none; what it appends was not in the progress record; the record is
    left as it was, and [stats['total_albums']] is set to the length of the
    queue. *)
Theorem X4_get_all_albums (L : Sifang.lib) (w : world) (fuel : nat)
    (start_url : string) (album_queue q : list string)
    (s s' : state Sifang.crawler) (evs : list event) :
  Sifang.get_all_albums L w fuel start_url album_queue s = (Ret q, s', evs) ->
  NoDup album_queue ->
  NoDup q
  /\ (exists added,
         q = album_queue ++ added
         /\ forall a, a ∈ added -> a ∉ Sifang.completed_albums (obj s))
  /\ Sifang.completed_albums (obj s') = Sifang.completed_albums (obj s)
  /\ Sifang.completed_file (obj s') = Sifang.completed_file (obj s)
  /\ Sifang.total_albums (obj s') = length q.
Proof.
  intros H Hnd. unfold Sifang.get_all_albums in H. monad_inv.
  match goal with
  | H : Sifang.get_all_albums_loop _ _ _ _ _ _ = _ |- _ =>
      apply get_all_albums_loop_spec in H as (H1 & (H2 & H3 & _) & H4);
        [|exact Hnd]
  end.
  simpl. auto.
Qed.

Lemma X4_get_all_albums_witness :
  exists s' evs,
    Sifang.get_all_albums sifang_lib listing_world 2 "https://sifang.lat/" []
      (sifang_start false)
    = (Ret ["https://sifang.lat/albums/a"], s', evs)
    /\ Sifang.total_albums (obj s') = 1%nat.
Proof.
  destruct (Sifang.get_all_albums sifang_lib listing_world 2
              "https://sifang.lat/" [] (sifang_start false))
    as [[r s'] evs] eqn:Hrun.
  assert (Hr : fst (fst (Sifang.get_all_albums sifang_lib listing_world 2
                           "https://sifang.lat/" [] (sifang_start false)))
               = Ret ["https://sifang.lat/albums/a"])
    by (vm_compute; reflexivity).
  rewrite Hrun in Hr. simpl in Hr. subst r.
  exists s', evs. split; [reflexivity|].
  destruct (X4_get_all_albums _ _ _ _ _ _ _ _ _ Hrun (NoDup_nil_2))
    as (_ & _ & _ & _ & Hlen).
  exact Hlen.
Defined.

(** X5. A listing page that answers with a redirect away from the site
    ends the crawl: [retry_request] returns [None], [get_next_page] is
    called without a page and gives no next URL, and the loop returns the
    queue as it is after this one request. The loops of [download] and of
    [get_all_albums] behave alike. *)
Theorem X5_crawl_ends_at_redirect (L : Sifang.lib) (w : world) (fuel : nat)
    (cur : string) (queue : list string) (s : state Sifang.crawler)
    (r : response) :
  net w (clock s) cur = NetResp r ->
  broken r = None -> status r <> 443 -> status_is_error r = false ->
  Py.str_in "sifang.lat" (final_url r) = false ->
  Sifang.crawl_albums_loop L w (S (S fuel)) (Some cur) queue s
  = (Ret queue, Build_state (fs s) (S (clock s)) (prompts s) (obj s),
     [EvSleep 2 5; EvRequest cur])
  /\ Sifang.get_all_albums_loop L w (S (S fuel)) (Some cur) queue s
     = (Ret queue, Build_state (fs s) (S (clock s)) (prompts s) (obj s),
        [EvSleep 2 5; EvRequest cur]).
Proof.
  intros Hnet Hbr H443 Herr Hsite.
  assert (Hreq : Sifang.retry_request w (S fuel) cur s
                 = (Ret None,
                    Build_state (fs s) (S (clock s)) (prompts s) (obj s),
                    [EvSleep 2 5; EvRequest cur])).
  { unfold Sifang.retry_request. cbn [Sifang.retry_request_loop]. simpl.
    rewrite bind_sleep, bind_request, Hnet. unfold eager. rewrite Hbr.
    apply Z.eqb_neq in H443. rewrite H443, Herr, Hsite. reflexivity. }
  split.
  - cbn [Sifang.crawl_albums_loop]. rewrite (bind_Ret _ _ _ _ _ _ Hreq).
    unfold Sifang.get_next_page. run. destruct fuel; reflexivity.
  - cbn [Sifang.get_all_albums_loop]. rewrite (bind_Ret _ _ _ _ _ _ Hreq).
    unfold Sifang.get_next_page. run. destruct fuel; reflexivity.
Qed.

Lemma X5_crawl_ends_at_redirect_witness :
  Sifang.crawl_albums sifang_lib redirect_world 2 (sifang_start false)
  = (Ret [], Build_state ∅ 1 0 (crawler0 false),
     [EvSleep 2 5; EvRequest "https://sifang.lat/"]).
Proof.
  unfold Sifang.crawl_albums.
  refine (proj1 (X5_crawl_ends_at_redirect sifang_lib redirect_world 0
                   "https://sifang.lat/" [] (sifang_start false) _
                   eq_refl eq_refl _ eq_refl eq_refl)).
  discriminate.
Defined.

Lemma resolve_next_raises (L : Sifang.lib) (page_url : string)
    (pg : Sifang.page) (e : exn) :
  Sifang.resolve_next L page_url pg = inl e <->
  e = ValueError
  /\ List.find Sifang.is_arrow (Sifang.anchors pg) = None
  /\ Sifang.page_number L page_url "1" = None.
Proof.
  unfold Sifang.resolve_next, Sifang.find_next_button.
  destruct (List.find Sifang.is_arrow (Sifang.anchors pg)) as [a|].
  - split; [destruct (Py.str_in _ _); discriminate|].
    intros (_ & Hf & _). discriminate.
  - destruct (Sifang.page_number L page_url "1") as [current_page|].
    + destruct (List.find (Sifang.is_page_successor L current_page)
                  (Sifang.anchors pg)) as [b|].
      * split; [destruct (Py.str_in _ _); discriminate|].
        intros (_ & _ & Hn). discriminate.
      * split; [destruct (_ <=? _); discriminate|].
        intros (_ & _ & Hn). discriminate.
    + split; [intros [= <-]; auto|]. intros (-> & _). reflexivity.
Qed.

(** X6. [get_next_page] touches neither the disk nor the object and makes
    no request. Without a parsed page it returns [None]. It raises, and
    then a [ValueError], exactly when no anchor of the page matches an
    arrow pattern and the [page] parameter of the current URL is not an
    integer. *)
Theorem X6_get_next_page_raises (L : Sifang.lib) (page_url : string)
    (soup : option Sifang.page) (s : state Sifang.crawler) :
  exists r,
    Sifang.get_next_page L page_url soup s = (r, s, [])
    /\ r <> Fuel
    /\ (soup = None -> r = Ret None)
    /\ (forall e,
          r = Exc e <->
          e = ValueError
          /\ exists pg, soup = Some pg
               /\ List.find Sifang.is_arrow (Sifang.anchors pg) = None
               /\ Sifang.page_number L page_url "1" = None).
Proof.
  unfold Sifang.get_next_page. destruct soup as [pg|].
  - pose proof (resolve_next_raises L page_url pg) as Hr.
    destruct (Sifang.resolve_next L page_url pg) as [e0|n].
    + exists (Exc e0). split; [reflexivity|]. split; [discriminate|].
      split; [discriminate|]. intros e. split.
      * intros [= <-]. destruct (proj1 (Hr e0) eq_refl) as (-> & Hf & Hp).
        split; [reflexivity|]. exists pg. auto.
      * intros (-> & _).
        destruct (proj1 (Hr e0) eq_refl) as (-> & _). reflexivity.
    + exists (Ret (Sifang.next_url_of n)). split; [reflexivity|].
      split; [discriminate|]. split; [discriminate|]. intros e.
      split; [discriminate|]. intros (-> & pg' & Hpg & Hf & Hp).
      injection Hpg as <-.
      assert (Hcontra : @inr exn _ n = inl ValueError) by (apply Hr; auto).
      discriminate.
  - exists (Ret None). split; [reflexivity|]. split; [discriminate|].
    split; [reflexivity|]. intros e. split; [discriminate|].
    intros (_ & pg & Hpg & _). discriminate.
Qed.

(** ** The images of an album (sifang_crawler.py) *)

Lemma strict_candidate_acceptable L pg current_url i u :
  Sifang.strict_candidate L pg current_url i = Some u ->
  acceptable L current_url i u.
Proof.
  unfold Sifang.strict_candidate, acceptable.
  destruct (String.eqb_spec (Sifang.src i) EmptyString) as [|Hne];
    [discriminate|].
  repeat match goal with
    | |- (if ?b then _ else _) = _ -> _ => destruct b eqn:?; try discriminate
    | |- match ?b with _ => _ end = _ -> _ => destruct b eqn:?; try discriminate
    end; intros [= <-]; auto.
Qed.

Lemma relaxed_candidate_acceptable L current_url i u :
  Sifang.relaxed_candidate L current_url i = Some u ->
  acceptable L current_url i u.
Proof.
  unfold Sifang.relaxed_candidate, acceptable.
  destruct (String.eqb_spec (Sifang.src i) EmptyString) as [|Hne];
    [discriminate|].
  repeat match goal with
    | |- (if ?b then _ else _) = _ -> _ => destruct b eqn:?; try discriminate
    end; intros [= <-]; bool_hyps; auto.
Qed.

Lemma page_images_acceptable L pg current_url all_image_links u :
  u ∈ Sifang.page_images_of L pg current_url all_image_links ->
  (u ∉ all_image_links)
  /\ exists i, i ∈ Sifang.img_tags_of pg /\ acceptable L current_url i u.
Proof.
  intros Hu.
  destruct (page_images_first_seen L pg current_url all_image_links) as [E|E];
    rewrite E in Hu; apply first_seen_elem in Hu as [Hu Hnew];
    (split; [exact Hnew|]);
    apply list_elem_of_omap in Hu as (i & Hi & Hc); exists i;
    (split; [exact Hi|]).
  - eapply strict_candidate_acceptable; eassumption.
  - eapply relaxed_candidate_acceptable; eassumption.
Qed.

Lemma album_pages_loop_extensions (L : Sifang.lib) (w : world) fuel album_url
    current_url album_name all_image_links (s s' : state Sifang.crawler)
    name links evs :
  Forall (fun u => Sifang.has_img_extension u = true) all_image_links ->
  Sifang.album_pages_loop L w fuel album_url current_url album_name
    all_image_links s = (Ret (name, links), s', evs) ->
  Forall (fun u => Sifang.has_img_extension u = true) links.
Proof.
  revert current_url album_name all_image_links s s' evs.
  induction fuel as [|fuel IH];
    intros current_url album_name all_image_links s s' evs Hall H;
    destruct current_url as [cur|]; cbn [Sifang.album_pages_loop] in H;
    try (monad_inv; assumption).
  unfold Sifang.lift_sum in H. monad_cases;
    try (assumption
         || (eapply IH; [|eassumption]; apply Forall_app; split;
             [assumption|]; apply Forall_forall; intros u Hu;
             apply page_images_acceptable in Hu as (_ & i & _ & Hacc);
             apply Hacc)).
Qed.

(** X7. Every URL in the list that [get_album_images] returns ends, case
    aside, in one of the extensions [.jpg .jpeg .png .gif .webp .bmp]. Each
    URL that a page adds is new to the list, and is the completed [src] of
    an image tag of the page that has a non-empty [src] and lies in no link
    to another album. *)
Theorem X7_album_images_filtered (L : Sifang.lib) (w : world) (fuel : nat)
    (album_url : string) (s s' : state Sifang.crawler)
    (name : option string) (links : list string) (evs : list event) :
  Sifang.get_album_images L w fuel album_url s = (Ret (name, links), s', evs) ->
  Forall (fun u => Sifang.has_img_extension u = true) links
  /\ (forall pg current_url all_image_links u,
         u ∈ Sifang.page_images_of L pg current_url all_image_links ->
         (u ∉ all_image_links)
         /\ exists i, i ∈ Sifang.img_tags_of pg
              /\ Sifang.src i <> EmptyString
              /\ u = Sifang.normalize_src L current_url (Sifang.src i)
              /\ Sifang.in_other_album_link current_url i = false
              /\ Sifang.has_img_extension u = true).
Proof.
  intros H. split.
  - unfold Sifang.get_album_images in H. monad_inv.
    eapply album_pages_loop_extensions; [|eassumption]. constructor.
  - intros pg current_url all_image_links u Hu.
    apply page_images_acceptable in Hu as (Hnew & i & Hi & Hacc).
    split; [exact Hnew|]. exists i. split; [exact Hi|]. exact Hacc.
Qed.

Lemma X7_album_images_filtered_witness :
  exists s' evs,
    Sifang.get_album_images sifang_lib album_world 3
      "https://sifang.lat/albums/a" (sifang_start false)
    = (Ret (Some "Album A", ["https://img.example/1.jpg"]), s', evs)
    /\ Forall (fun u => Sifang.has_img_extension u = true)
         ["https://img.example/1.jpg"].
Proof.
  destruct (Sifang.get_album_images sifang_lib album_world 3
              "https://sifang.lat/albums/a" (sifang_start false))
    as [[r s'] evs] eqn:Hrun.
  assert (Hr : fst (fst (Sifang.get_album_images sifang_lib album_world 3
                           "https://sifang.lat/albums/a" (sifang_start false)))
               = Ret (Some "Album A", ["https://img.example/1.jpg"]))
    by (vm_compute; reflexivity).
  rewrite Hrun in Hr. simpl in Hr. subst r.
  exists s', evs. split; [reflexivity|].
  exact (proj1 (X7_album_images_filtered _ _ _ _ _ _ _ _ _ Hrun)).
Defined.

(** ** Accounting of the downloads (sifang_crawler.py) *)

Lemma download_attempts_counts (L : Sifang.lib) (w : world) n retry
    image_url save_path (s s' : state Sifang.crawler) b evs :
  Sifang.download_attempts L w n retry image_url save_path s = (Ret b, s', evs) ->
  Sifang.failed_images (obj s') = Sifang.failed_images (obj s)
  /\ Sifang.total_images (obj s') = Sifang.total_images (obj s)
  /\ Sifang.downloaded_images (obj s')
     = (Sifang.downloaded_images (obj s) + (if b then 1 else 0))%nat.
Proof.
  revert retry s s' evs. induction n as [|n IH]; intros retry s s' evs H.
  - cbv [Sifang.download_attempts] in H. monad_inv. simpl. auto with arith.
  - rewrite download_attempts_S in H.
    unfold Sifang.after_fault, Sifang.is_image_corrupted in H.
    monad_cases;
      try match goal with
        | H : Sifang.download_attempts _ _ _ _ _ _ _ = _ |- _ =>
            apply IH in H; simpl in H; exact H
        end; simpl; auto with arith.
    repeat split; auto. lia.
Qed.

Lemma download_image_counts (L : Sifang.lib) (w : world)
    image_url save_path (s s' : state Sifang.crawler) r evs :
  Sifang.download_image L w image_url save_path s = (r, s', evs) ->
  exists b,
    r = Ret b
    /\ Sifang.failed_images (obj s') = Sifang.failed_images (obj s)
    /\ Sifang.total_images (obj s') = Sifang.total_images (obj s)
    /\ (Sifang.downloaded_images (obj s) <= Sifang.downloaded_images (obj s')
        <= Sifang.downloaded_images (obj s) + (if b then 1 else 0))%nat
    /\ (length (requests_of evs) <= 5)%nat
    /\ record_kept (obj s) (obj s').
Proof.
  intros Hrun.
  pose proof (download_image_keeps_record _ _ _ _ _ _ _ _ Hrun) as Hkept.
  unfold obj_rel in Hkept.
  unfold Sifang.download_image in Hrun. unfold bind at 1 in Hrun.
  rewrite keep_existing_spec in Hrun.
  assert (Hdl : forall ev r2 s2 e2,
            requests_of ev = [] ->
            Sifang.download_attempts L w 5 0 image_url save_path s
            = (r2, s2, e2) ->
            (r2, s2, ev ++ e2) = (r, s', evs) ->
            exists b,
              r = Ret b
              /\ Sifang.failed_images (obj s') = Sifang.failed_images (obj s)
              /\ Sifang.total_images (obj s') = Sifang.total_images (obj s)
              /\ (Sifang.downloaded_images (obj s)
                  <= Sifang.downloaded_images (obj s')
                  <= Sifang.downloaded_images (obj s) + (if b then 1 else 0))%nat
              /\ (length (requests_of evs) <= 5)%nat
              /\ record_kept (obj s) (obj s')).
  { intros ev r2 s2 e2 Hev H2 [= <- <- <-].
    pose proof H2 as H2'.
    apply download_attempts_spec in H2' as (b & -> & _ & Hlen & _).
    apply download_attempts_counts in H2 as (H1 & H3 & H4).
    exists b. split; [reflexivity|].
    unfold requests_of in *. rewrite omap_app, Hev. simpl.
    split; [exact H1|]. split; [exact H3|]. split; [destruct b; lia|].
    split; [exact Hlen|exact Hkept]. }
  assert (Hskip : forall ev,
            requests_of ev = [] ->
            (Ret true, s, ev) = (r, s', evs) ->
            exists b,
              r = Ret b
              /\ Sifang.failed_images (obj s') = Sifang.failed_images (obj s)
              /\ Sifang.total_images (obj s') = Sifang.total_images (obj s)
              /\ (Sifang.downloaded_images (obj s)
                  <= Sifang.downloaded_images (obj s')
                  <= Sifang.downloaded_images (obj s) + (if b then 1 else 0))%nat
              /\ (length (requests_of evs) <= 5)%nat
              /\ record_kept (obj s) (obj s')).
  { intros ev Hev [= <- <- <-]. exists true.
    rewrite Hev. simpl. repeat split; auto; lia. }
  destruct (fs s !! save_path) as [c0|];
    [destruct (Sifang.verify (obj s)); simpl in Hrun;
     [destruct (Sifang.pil_ok L c0)|]|]; simpl in Hrun.
  - apply (Hskip [EvDecode save_path]); auto.
  - destruct (Sifang.download_attempts L w 5 0 image_url save_path s)
      as [[r2 s2] e2] eqn:Hrun2.
    apply (Hdl [EvDecode save_path] r2 s2 e2); auto.
  - apply (Hskip []); auto.
  - destruct (Sifang.download_attempts L w 5 0 image_url save_path s)
      as [[r2 s2] e2] eqn:Hrun2.
    apply (Hdl [] r2 s2 e2); auto.
Qed.

(** The image tasks of [download_album], link by link. *)
Lemma download_images_accounting (L : Sifang.lib) (w : world)
    (album_url album_name album_dir : string) (i : nat)
    (image_links : list string) (s : state Sifang.crawler) :
  exists d s' evs failed,
    Sifang.download_images L w album_url album_name album_dir i image_links s
    = (Ret d, s', evs)
    /\ (d + length failed = length image_links)%nat
    /\ Sifang.failed_images (obj s') = Sifang.failed_images (obj s) ++ failed
    /\ Forall (fun fi => Sifang.fi_album_url fi = album_url
                         /\ Sifang.fi_album_name fi = album_name
                         /\ Sifang.fi_url fi ∈ image_links) failed
    /\ (Sifang.downloaded_images (obj s) <= Sifang.downloaded_images (obj s')
        <= Sifang.downloaded_images (obj s) + d)%nat
    /\ (length (requests_of evs) <= 5 * length image_links)%nat
    /\ Sifang.completed_albums (obj s') = Sifang.completed_albums (obj s)
    /\ Sifang.completed_file (obj s') = Sifang.completed_file (obj s).
Proof.
  revert i s. induction image_links as [|img_url rest IH]; intros i s.
  - exists 0%nat, s, [], []. simpl. rewrite app_nil_r.
    repeat split; auto; lia.
  - cbn [Sifang.download_images].
    destruct (Sifang.download_image L w img_url
                (Sifang.path_join L album_dir
                   (String.append "image_"
                      (String.append (Py.format_03d i) (Sifang.url_ext L img_url))))
                s) as [[r1 s1] e1] eqn:Hrun.
    destruct (download_image_counts _ _ _ _ _ _ _ _ Hrun)
      as (b & -> & Hfi & _ & Hdl & Hreq & Hk1 & Hk2 & _).
    rewrite (bind_Ret _ _ _ _ _ _ Hrun).
    destruct b.
    + unfold bind at 1. cbn [ret].
      destruct (IH (S i) s1)
        as (d & s2 & e2 & failed & Hrun2 & Hlen & Hf2 & Hall & Hd2 & Hreq2
            & Hc1 & Hc2).
      rewrite (bind_Ret _ _ _ _ _ _ Hrun2). cbn [ret].
      exists (S d), s2, (e1 ++ [] ++ e2 ++ []), failed.
      split; [reflexivity|].
      unfold requests_of in *. rewrite !omap_app, !length_app. simpl.
      repeat split; try congruence; try lia.
      eapply Forall_impl; [exact Hall|]. simpl.
      intros fi (? & ? & ?). repeat split; auto. right. assumption.
    + unfold bind at 1. cbn [modify_obj].
      match goal with
      | |- context [bind (Sifang.download_images _ _ _ _ _ _ _) _ ?st] =>
          destruct (IH (S i) st)
            as (d & s2 & e2 & failed & Hrun2 & Hlen & Hf2 & Hall & Hd2 & Hreq2
                & Hc1 & Hc2)
      end.
      rewrite (bind_Ret _ _ _ _ _ _ Hrun2). cbn [ret].
      simpl in Hf2, Hd2, Hc1, Hc2.
      eexists d, s2, (e1 ++ [] ++ e2 ++ []), (_ :: failed).
      split; [reflexivity|].
      unfold requests_of in *. rewrite !omap_app, !length_app. simpl.
      rewrite Hf2, Hfi, <- app_assoc. simpl.
      repeat split; try congruence; try lia.
      constructor.
      * simpl. repeat split; auto. left.
      * eapply Forall_impl; [exact Hall|]. simpl.
        intros fi (? & ? & ?). repeat split; auto. right. assumption.
Qed.

(** X8. [download_images], the image tasks of [download_album], always
    returns, and accounts for every link: with [d] the number of images
    reported as downloaded, the other [len(image_links) - d] are appended to
    [failed_images], each with the URL and the name of this album;
    [stats['downloaded_images']] grows by at most [d] (a file that was
    kept is not counted), at most five requests are made per link, and the
    progress record is not touched. *)
Theorem X8_download_images_accounting (L : Sifang.lib) (w : world)
    (album_url album_name album_dir : string) (i : nat)
    (image_links : list string) (s : state Sifang.crawler) :
  exists d s' evs failed,
    Sifang.download_images L w album_url album_name album_dir i image_links s
    = (Ret d, s', evs)
    /\ (d + length failed = length image_links)%nat
    /\ Sifang.failed_images (obj s') = Sifang.failed_images (obj s) ++ failed
    /\ Forall (fun fi => Sifang.fi_album_url fi = album_url
                         /\ Sifang.fi_album_name fi = album_name
                         /\ Sifang.fi_url fi ∈ image_links) failed
    /\ (Sifang.downloaded_images (obj s) <= Sifang.downloaded_images (obj s')
        <= Sifang.downloaded_images (obj s) + d)%nat
    /\ (length (requests_of evs) <= 5 * length image_links)%nat
    /\ Sifang.completed_albums (obj s') = Sifang.completed_albums (obj s)
    /\ Sifang.completed_file (obj s') = Sifang.completed_file (obj s).
Proof.
  exact (download_images_accounting L w album_url album_name album_dir i
           image_links s).
Qed.

(** ** The progress record and the outcome of the images (sifang_crawler.py) *)



(** ** Albums that fail (sifang_crawler.py) *)

(** X9. An album whose page answers with a redirect away from the site is
    given up after this one request: [get_album_images] returns no name and
    no link, joining the save path with the missing name raises
    [TypeError], and [download_album] returns [False] with the album
    appended to [failed_albums]; nothing is recorded as completed and
    nothing is written. *)
Theorem X9_download_album_unreachable (L : Sifang.lib) (w : world)
    (fuel : nat) (album_url : string) (s : state Sifang.crawler)
    (r : response) :
  album_url <> EmptyString ->
  net w (clock s) album_url = NetResp r ->
  broken r = None -> status r <> 443 -> status_is_error r = false ->
  Py.str_in "sifang.lat" (final_url r) = false ->
  Sifang.get_album_images L w (S (S fuel)) album_url s
  = (Ret (None, []), Build_state (fs s) (S (clock s)) (prompts s) (obj s),
     [EvSleep 3 6; EvSleep 2 5; EvRequest album_url])
  /\ Sifang.download_album L w (S (S fuel)) album_url s
     = (Ret false,
        Build_state (fs s) (S (clock s)) (prompts s)
          (Sifang.add_failed_album album_url TypeError (obj s)),
        [EvSleep 3 6; EvSleep 2 5; EvRequest album_url]).
Proof.
  intros Hne Hnet Hbr H443 Herr Hsite.
  assert (Hreq : forall st : state Sifang.crawler,
            clock st = clock s ->
            Sifang.retry_request w (S fuel) album_url st
            = (Ret None,
               Build_state (fs st) (S (clock st)) (prompts st) (obj st),
               [EvSleep 2 5; EvRequest album_url])).
  { intros st Hck. unfold Sifang.retry_request.
    cbn [Sifang.retry_request_loop]. simpl.
    rewrite bind_sleep, bind_request, Hck, Hnet. unfold eager. rewrite Hbr.
    apply Z.eqb_neq in H443. rewrite H443, Herr, Hsite. reflexivity. }
  assert (Himg : Sifang.get_album_images L w (S (S fuel)) album_url s
            = (Ret (None, []),
               Build_state (fs s) (S (clock s)) (prompts s) (obj s),
               [EvSleep 3 6; EvSleep 2 5; EvRequest album_url])).
  { unfold Sifang.get_album_images. rewrite bind_sleep.
    unfold Py.truthy. destruct (String.eqb_spec album_url EmptyString);
      [contradiction|].
    cbn [Sifang.album_pages_loop].
    rewrite (bind_Ret _ _ _ _ _ _ (Hreq s eq_refl)). reflexivity. }
  split; [exact Himg|].
  unfold Sifang.download_album, catch.
  rewrite (bind_Ret _ _ _ _ _ _ Himg). reflexivity.
Qed.

Lemma X9_download_album_unreachable_witness :
  Sifang.download_album sifang_lib redirect_world 2
    "https://sifang.lat/albums/a" (sifang_start false)
  = (Ret false,
     Build_state ∅ 1 0
       (Sifang.add_failed_album "https://sifang.lat/albums/a" TypeError
          (crawler0 false)),
     [EvSleep 3 6; EvSleep 2 5; EvRequest "https://sifang.lat/albums/a"]).
Proof.
  refine (proj2 (X9_download_album_unreachable sifang_lib redirect_world 0
                   "https://sifang.lat/albums/a" (sifang_start false) _
                   _ eq_refl eq_refl _ eq_refl eq_refl));
    discriminate.
Defined.

#[global] Instance albums_kept_preorder : PreOrder albums_kept.
Proof.
  split.
  - intros o. unfold albums_kept. split; [reflexivity|auto].
  - intros o1 o2 o3 (H1 & H2 & H3) (H4 & H5 & H6). unfold albums_kept.
    split; [etrans; eassumption|]. split; congruence.
Qed.

#[global] Instance albums_grow_preorder : PreOrder albums_grow.
Proof.
  split.
  - intros o. unfold albums_grow. split; reflexivity.
  - intros o1 o2 o3 (H1 & H2) (H3 & H4). unfold albums_grow.
    split; etrans; eassumption.
Qed.

Lemma settled_grow u o o' : albums_grow o o' -> settled u o -> settled u o'.
Proof.
  intros (Hc & Hf) [H|H]; [left; apply Hc, H|right].
  destruct Hf as (k & ->). rewrite fmap_app. apply elem_of_app. auto.
Qed.

Lemma download_attempts_keeps_albums L w n retry image_url save_path :
  sat (obj_rel albums_kept)
    (Sifang.download_attempts L w n retry image_url save_path).
Proof.
  revert retry. induction n as [|n IH]; intros retry.
  - change (sat (obj_rel albums_kept) (ret false : M Sifang.crawler bool)).
    sat_step.
  - rewrite download_attempts_S.
    unfold Sifang.after_fault, Sifang.is_image_corrupted.
    repeat first [apply IH
                 | apply sat_modify_obj; intros o;
                   unfold albums_kept, record_kept; simpl; tauto
                 | sat_step].
Qed.

Lemma download_images_keeps_albums L w album_url album_name album_dir i links :
  sat (obj_rel albums_kept)
    (Sifang.download_images L w album_url album_name album_dir i links).
Proof.
  revert i. induction links as [|img_url rest IH]; intros i;
    cbn [Sifang.download_images];
    unfold Sifang.download_image, Sifang.keep_existing,
      Sifang.is_image_corrupted;
    repeat first [apply IH | apply download_attempts_keeps_albums
                 | apply sat_modify_obj; intros o;
                   unfold albums_kept, record_kept; simpl; tauto
                 | sat_step].
Qed.

Lemma save_completed_album_stats album_url (s s' : state Sifang.crawler) r evs :
  Sifang.save_completed_album album_url s = (r, s', evs) ->
  Sifang.total_albums (obj s') = Sifang.total_albums (obj s)
  /\ Sifang.downloaded_albums (obj s') = Sifang.downloaded_albums (obj s).
Proof.
  unfold Sifang.save_completed_album. intros H. monad_cases; simpl; auto.
Qed.

(** What one call of [download_album] leaves. *)
Lemma download_album_outcome (L : Sifang.lib) (w : world) fuel album_url
    (s s' : state Sifang.crawler) r evs :
  Sifang.download_album L w fuel album_url s = (r, s', evs) ->
  r = Fuel
  \/ (exists b, r = Ret b
        /\ albums_grow (obj s) (obj s')
        /\ settled album_url (obj s')
        /\ Sifang.total_albums (obj s') = Sifang.total_albums (obj s)
        /\ Sifang.downloaded_albums (obj s')
           = (Sifang.downloaded_albums (obj s) + (if b then 1 else 0))%nat).
Proof.
  unfold Sifang.download_album, catch.
  match goal with
  | |- context [match ?m s with _ => _ end] =>
      destruct (m s) as [[rb sb] eb] eqn:Hbody
  end.
  assert (Hkept : forall e, rb = Exc e -> albums_kept (obj s) (obj sb)).
  { intros e ->. unfold Sifang.save_cookies in Hbody.
    monad_cases;
      repeat match goal with
        | H : Sifang.get_album_images _ _ _ _ _ = _ |- _ =>
            apply (get_album_images_frame albums_kept) in H
        | H : Sifang.download_images _ _ _ _ _ _ _ _ = _ |- _ =>
            apply download_images_keeps_albums in H
        | H : Sifang.save_completed_album ?u ?st = _ |- _ =>
            destruct (save_completed_album_spec u st) as (? & ? & _); congruence
        end; unfold obj_rel in *; simpl in *;
      try assumption; try reflexivity.
    all: unfold albums_kept, record_kept in *; simpl in *; intuition congruence. }
  assert (Hret : forall a, rb = Ret a ->
            a = true
            /\ Sifang.completed_albums (obj sb)
               = {[album_url]} ∪ Sifang.completed_albums (obj s)
            /\ Sifang.failed_albums (obj sb) = Sifang.failed_albums (obj s)
            /\ Sifang.total_albums (obj sb) = Sifang.total_albums (obj s)
            /\ Sifang.downloaded_albums (obj sb)
               = S (Sifang.downloaded_albums (obj s))).
  { intros a ->. unfold Sifang.save_cookies in Hbody.
    monad_cases.
    repeat match goal with
      | H : Sifang.get_album_images _ _ _ _ _ = _ |- _ =>
          apply (get_album_images_frame albums_kept) in H
      | H : Sifang.download_images _ _ _ _ _ _ _ _ = _ |- _ =>
          apply download_images_keeps_albums in H
      | H : Sifang.save_completed_album ?u ?st = _ |- _ =>
          destruct (save_completed_album_spec u st)
            as (s4 & Heq & Hc1 & Hc2 & Hfa & _);
          rewrite Heq in H; inversion H; subst; clear H
      end.
    unfold obj_rel, albums_kept, record_kept in *. simpl in *.
    split; [reflexivity|].
    rewrite Hc1, Hfa.
    repeat match goal with H : _ /\ _ |- _ => destruct H end.
    apply save_completed_album_stats in Heq as (Ht & Hd). simpl in Ht, Hd.
    rewrite Ht, Hd.
    repeat match goal with
      | H : Sifang.completed_albums _ = _ |- _ => rewrite H; clear H
      | H : Sifang.failed_albums _ = _ |- _ => rewrite H; clear H
      | H : Sifang.total_albums _ = _ |- _ => rewrite H; clear H
      | H : Sifang.downloaded_albums _ = _ |- _ => rewrite H; clear H
      end.
    repeat split; reflexivity. }
  destruct rb as [a|e|].
  - intros [= <- <- <-].
    destruct (Hret a eq_refl) as (-> & Hc & Hfa & Hta & Hda).
    right. exists true. split; [reflexivity|].
    unfold albums_grow, settled. rewrite Hc, Hfa, Hta, Hda.
    split; [split; [apply union_subseteq_r|reflexivity]|].
    split; [left; apply elem_of_union_l, elem_of_singleton; reflexivity|].
    split; [reflexivity|lia].
  - simpl. run. intros [= <- <- <-].
    destruct (Hkept e eq_refl) as ((Hc & _ & Hfa & _) & Hta & Hda).
    right. exists false. split; [reflexivity|].
    unfold albums_grow, settled. simpl. rewrite Hc, Hfa, Hta, Hda.
    split; [split; [reflexivity|apply prefix_app_r; reflexivity]|].
    split.
    + right. rewrite fmap_app. apply elem_of_app. right.
      simpl. apply list_elem_of_singleton. reflexivity.
    + split; [reflexivity|lia].
  - intros [= <- <- <-]. left. reflexivity.
Qed.

(** X10. When the consumer loop of [download] has handled a queue, every
    album of the queue is settled: it is in the progress record, or it is
    in [failed_albums]. The record and the list of failed albums have only
    grown, [stats['total_albums']] has grown by the length of the queue,
    and [stats['downloaded_albums']] by at most as much. *)
Theorem X10_queue_settled (L : Sifang.lib) (w : world) (fuel : nat)
    (queue : list string) (s s' : state Sifang.crawler) (evs : list event) :
  Sifang.process_queue L w fuel queue s = (Ret tt, s', evs) ->
  (forall a, a ∈ queue -> settled a (obj s'))
  /\ albums_grow (obj s) (obj s')
  /\ Sifang.total_albums (obj s')
     = (Sifang.total_albums (obj s) + length queue)%nat
  /\ (Sifang.downloaded_albums (obj s) <= Sifang.downloaded_albums (obj s')
      <= Sifang.downloaded_albums (obj s) + length queue)%nat.
Proof.
  revert s s' evs. induction queue as [|a queue IH]; intros s s' evs H;
    cbn [Sifang.process_queue] in H.
  - monad_inv. split; [intros a Ha; apply elem_of_nil in Ha; contradiction|].
    split; [reflexivity|]. simpl. split; lia.
  - monad_inv.
    match goal with
    | H : Sifang.download_album _ _ _ _ _ = _ |- _ =>
        apply download_album_outcome in H
          as [[=]|(b & _ & Hg & Hs & Hta & Hda)]
    end.
    match goal with
    | H : Sifang.process_queue _ _ _ _ _ = _ |- _ =>
        apply IH in H as (Hall & Hg2 & Hta2 & Hda2)
    end.
    simpl in *.
    assert (Hg' : albums_grow (obj s) (obj s')).
    { etrans; [exact Hg|]. destruct Hg2 as (H1 & H2). split; assumption. }
    split.
    + intros u Hu. apply elem_of_cons in Hu as [->|Hu]; [|auto].
      eapply settled_grow; [|exact Hs]. destruct Hg2. split; assumption.
    + split; [exact Hg'|]. rewrite Hta2, Hta.
      split; [lia|]. destruct b; lia.
Qed.

Lemma X10_queue_settled_witness :
  exists s' evs,
    Sifang.process_queue sifang_lib album_html_world 3
      ["https://sifang.lat/albums/a"] (sifang_start true) = (Ret tt, s', evs)
    /\ settled "https://sifang.lat/albums/a" (obj s')
    /\ Sifang.total_albums (obj s') = 1%nat.
Proof.
  destruct (Sifang.process_queue sifang_lib album_html_world 3
              ["https://sifang.lat/albums/a"] (sifang_start true))
    as [[r s'] evs] eqn:Hrun.
  assert (Hr : fst (fst (Sifang.process_queue sifang_lib album_html_world 3
                           ["https://sifang.lat/albums/a"] (sifang_start true)))
               = Ret tt) by (vm_compute; reflexivity).
  rewrite Hrun in Hr. cbn [fst] in Hr. subst r.
  exists s', evs. split; [reflexivity|].
  destruct (X10_queue_settled _ _ _ _ _ _ _ Hrun) as (Hall & _ & Hta & _).
  split; [apply Hall; left|exact Hta].
Defined.

(** ** The pace of the requests (sifang_crawler.py) *)

Lemma paced_from_mono lo evs : 
  paced_from lo false evs = true -> paced_from lo true evs = true.
Proof. destruct evs as [|[] rest]; simpl; intros; try discriminate; auto. Qed.

Lemma paced_from_app lo e1 e2 slept :
  paced_from lo slept e1 = true -> paced_from lo false e2 = true ->
  paced_from lo slept (e1 ++ e2) = true.
Proof.
  revert slept. induction e1 as [|e e1 IH]; intros slept H1 H2.
  - simpl. destruct slept; [apply paced_from_mono|]; exact H2.
  - destruct e; simpl in *; auto.
    apply andb_true_iff in H1 as [-> H1]. simpl. auto.
Qed.

#[global] Instance paced_sequential {O} lo : Sequential (@paced O lo).
Proof.
  split.
  - intros s. reflexivity.
  - intros s1 s2 s3 e1 e2 H1 H2. apply paced_from_app; assumption.
Qed.

Lemma paced_emit {O} lo e :
  is_request e = false -> sat (O:=O) (paced lo) (emit e).
Proof.
  intros He s r s' evs [= <- <- <-]. unfold paced.
  destruct e; try reflexivity. discriminate.
Qed.

Lemma paced_sleep {O} lo a b : sat (O:=O) (paced lo) (sleep a b).
Proof. apply paced_emit. reflexivity. Qed.

Lemma paced_modify_obj {O} lo (f : O -> O) : sat (paced lo) (modify_obj f).
Proof. intros s r s' evs [= <- <- <-]. reflexivity. Qed.

Lemma paced_write_file {O} lo p c : sat (O:=O) (paced lo) (write_file p c).
Proof. intros s r s' evs [= <- <- <-]. reflexivity. Qed.

Lemma paced_unlink {O} lo p : sat (O:=O) (paced lo) (unlink p).
Proof. intros s r s' evs [= <- <- <-]. reflexivity. Qed.

Lemma paced_replace {O} lo a b : sat (O:=O) (paced lo) (replace a b).
Proof. intros s r s' evs [= <- <- <-]. reflexivity. Qed.

Lemma paced_input {O} lo w : sat (O:=O) (paced lo) (input w).
Proof. intros s r s' evs [= <- <- <-]. reflexivity. Qed.

(** A request that follows a sleep of at least [lo] seconds. *)
Lemma paced_sleep_request {O B} lo a b w url (k : net_outcome -> M O B) :
  lo <= a -> (forall o, sat (paced lo) (k o)) ->
  sat (paced lo) (bind (sleep a b) (fun _ => bind (request w url) k)).
Proof.
  intros Hlo Hk s r s' evs. rewrite bind_sleep, bind_request.
  destruct (k _ _) as [[r2 s2] e2] eqn:Hrun. intros [= <- <- <-].
  apply Hk in Hrun. unfold paced in *. simpl.
  apply Z.leb_le in Hlo. rewrite Hlo. exact Hrun.
Qed.

Ltac paced_step :=
  lazymatch goal with
  | |- sat _ (bind (sleep _ _) (fun _ => bind (request _ _) _)) =>
      apply paced_sleep_request; [lia|intros]
  | |- sat _ (bind _ _) => apply sat_bind; [try apply _ ..| |intros]
  | |- sat _ (catch _ _ _) => apply sat_catch; [try apply _ ..| |intros]
  | |- sat _ (ret _) => apply sat_ret; apply _
  | |- sat _ (raise _) => apply sat_raise; apply _
  | |- sat _ out_of_fuel => apply sat_out_of_fuel; apply _
  | |- sat _ get_obj => apply sat_get_obj; apply _
  | |- sat _ get_fs => apply sat_get_fs; apply _
  | |- sat _ (emit _) => apply paced_emit; reflexivity
  | |- sat _ (sleep _ _) => apply paced_sleep
  | |- sat _ (input _) => apply paced_input
  | |- sat _ (modify_obj _) => apply paced_modify_obj
  | |- sat _ (write_file _ _) => apply paced_write_file
  | |- sat _ (unlink _) => apply paced_unlink
  | |- sat _ (replace _ _) => apply paced_replace
  | |- sat _ (match ?x with _ => _ end) => destruct x
  end.

Lemma retry_request_loop_paced w fuel url max_retries retries :
  sat (paced 2) (Sifang.retry_request_loop w fuel url max_retries retries).
Proof.
  revert retries. induction fuel as [|fuel IH]; intros retries;
    cbn [Sifang.retry_request_loop]; repeat first [apply IH | paced_step].
Qed.

Lemma album_pages_loop_paced L w fuel album_url current_url album_name all :
  sat (paced 2)
    (Sifang.album_pages_loop L w fuel album_url current_url album_name all).
Proof.
  revert current_url album_name all.
  induction fuel as [|fuel IH]; intros current_url album_name all;
    destruct current_url; cbn [Sifang.album_pages_loop];
    unfold Sifang.lift_sum, Sifang.retry_request;
    repeat first [apply IH | apply retry_request_loop_paced | paced_step].
Qed.

Lemma crawl_albums_loop_paced L w fuel current_url queue :
  sat (paced 2) (Sifang.crawl_albums_loop L w fuel current_url queue).
Proof.
  revert current_url queue.
  induction fuel as [|fuel IH]; intros current_url queue;
    destruct current_url; cbn [Sifang.crawl_albums_loop];
    unfold Sifang.get_next_page, Sifang.retry_request;
    repeat first [apply IH | apply retry_request_loop_paced | paced_step].
Qed.

Lemma download_attempts_paced L w n retry image_url save_path :
  sat (paced 2) (Sifang.download_attempts L w n retry image_url save_path).
Proof.
  revert retry. induction n as [|n IH]; intros retry.
  - change (sat (paced 2) (ret false : M Sifang.crawler bool)). paced_step.
  - rewrite download_attempts_S.
    unfold Sifang.after_fault, Sifang.is_image_corrupted.
    repeat first [apply IH | paced_step].
Qed.

(** X11. Within each of its sequential activities the crawler makes no
    request without a pause: in every run of [retry_request], of
    [get_album_images], of the crawl of the listing, and of
    [download_image], each request comes directly after a sleep of at least
    2 seconds. *)
Theorem X11_requests_paced (L : Sifang.lib) (w : world) (fuel : nat) :
  (forall url, sat (paced 2) (Sifang.retry_request w fuel url))
  /\ (forall album_url, sat (paced 2) (Sifang.get_album_images L w fuel album_url))
  /\ sat (paced 2) (Sifang.crawl_albums L w fuel)
  /\ (forall image_url save_path,
         sat (paced 2) (Sifang.download_image L w image_url save_path)).
Proof.
  split; [intros; apply retry_request_loop_paced|].
  split; [intros; unfold Sifang.get_album_images;
          repeat first [apply album_pages_loop_paced | paced_step]|].
  split; [apply crawl_albums_loop_paced|].
  intros. unfold Sifang.download_image, Sifang.keep_existing,
    Sifang.is_image_corrupted.
  repeat first [apply download_attempts_paced | paced_step].
Qed.

Lemma X11_requests_paced_witness :
  paced_from 2 false
    (snd (Sifang.retry_request down_world 5 "https://sifang.lat/"
            (sifang_start false))) = true.
Proof.
  destruct (Sifang.retry_request down_world 5 "https://sifang.lat/"
              (sifang_start false)) as [[r s'] evs] eqn:Hrun.
  exact (proj1 (X11_requests_paced sifang_lib down_world 5) _ _ _ _ _ Hrun).
Defined.

(** ** The file of the progress record (sifang_crawler.py) *)

#[global] Instance keeps_consistent_preorder : PreOrder keeps_consistent.
Proof.
  split.
  - intros o H. exact H.
  - intros o1 o2 o3 H1 H2 H. apply H2, H1, H.
Qed.

Lemma sat_weaken {O A} (Q Q' : state O -> state O -> list event -> Prop)
    (m : M O A) :
  (forall s s' evs, Q s s' evs -> Q' s s' evs) -> sat Q m -> sat Q' m.
Proof. intros HQ Hm s r s' evs H. eapply HQ, Hm, H. Qed.

Lemma record_kept_consistent o o' : record_kept o o' -> keeps_consistent o o'.
Proof.
  intros (Hc & Hf & _) (Hnd & Hin). unfold record_consistent.
  rewrite Hc, Hf. auto.
Qed.

Lemma kept_to_consistent {A} (m : M Sifang.crawler A) :
  sat (obj_rel record_kept) m -> sat (obj_rel keeps_consistent) m.
Proof.
  apply sat_weaken. intros s s' evs. apply record_kept_consistent.
Qed.

Lemma save_completed_album_run album_url (s s' : state Sifang.crawler) r evs :
  Sifang.save_completed_album album_url s = (r, s', evs) ->
  r = Ret tt
  /\ album_url ∈ Sifang.completed_albums (obj s')
  /\ Sifang.save_completed_album album_url s' = (Ret tt, s', [])
  /\ keeps_consistent (obj s) (obj s')
  /\ (evs = [] <-> album_url ∈ Sifang.completed_albums (obj s))
  /\ (album_url ∉ Sifang.completed_albums (obj s) ->
      evs = [EvAppend "completed_albums.txt" album_url]
      /\ Sifang.completed_file (obj s')
         = Sifang.completed_file (obj s) ++ [album_url]).
Proof.
  unfold Sifang.save_completed_album. run.
  case_bool_decide as Hin.
  - intros [= <- <- <-]. rewrite bool_decide_eq_true_2 by exact Hin.
    repeat split; auto; try reflexivity; try contradiction; apply H.
  - run. intros [= <- <- <-]. simpl.
    assert (Hin' : album_url ∈ {[album_url]} ∪ Sifang.completed_albums (obj s)).
    { apply elem_of_union_l, elem_of_singleton. reflexivity. }
    rewrite bool_decide_eq_true_2 by exact Hin'.
    split; [reflexivity|]. split; [exact Hin'|]. split; [reflexivity|].
    split; [|split; [split; [discriminate|contradiction]|auto]].
    intros (Hnd & Hsub). unfold record_consistent. simpl. split.
    + apply NoDup_app. split; [exact Hnd|]. split; [|apply NoDup_singleton].
      intros x Hx Hx'. apply list_elem_of_singleton in Hx'. subst x. auto.
    + intros a Ha. apply elem_of_app in Ha as [Ha|Ha].
      * apply elem_of_union_r. auto.
      * apply list_elem_of_singleton in Ha. subst a. exact Hin'.
Qed.

Lemma save_completed_album_consistent album_url :
  sat (obj_rel keeps_consistent) (Sifang.save_completed_album album_url).
Proof.
  intros s r s' evs H. apply save_completed_album_run in H. apply H.
Qed.

Ltac consistent_step :=
  first [ apply sat_modify_obj; intros ? Hc; exact Hc
        | apply save_completed_album_consistent
        | apply get_album_images_frame; apply _
        | apply retry_request_loop_frame; apply _
        | apply kept_to_consistent, download_images_keeps_record
        | apply kept_to_consistent, download_image_keeps_record
        | sat_step ].

Lemma download_album_consistent L w fuel album_url :
  sat (obj_rel keeps_consistent) (Sifang.download_album L w fuel album_url).
Proof.
  unfold Sifang.download_album, Sifang.save_cookies.
  repeat consistent_step.
Qed.

Lemma process_queue_consistent L w fuel queue :
  sat (obj_rel keeps_consistent) (Sifang.process_queue L w fuel queue).
Proof.
  induction queue as [|a queue IH]; cbn [Sifang.process_queue];
    repeat first [apply IH | apply download_album_consistent | consistent_step].
Qed.

Lemma crawl_albums_loop_consistent L w fuel current_url queue :
  sat (obj_rel keeps_consistent)
    (Sifang.crawl_albums_loop L w fuel current_url queue).
Proof.
  revert current_url queue.
  induction fuel as [|fuel IH]; intros current_url queue;
    destruct current_url; cbn [Sifang.crawl_albums_loop];
    unfold Sifang.get_next_page, Sifang.retry_request;
    repeat first [apply IH | consistent_step].
Qed.

Lemma retry_albums_consistent L w fuel albums :
  sat (obj_rel keeps_consistent) (Sifang.retry_albums L w fuel albums).
Proof.
  induction albums as [|[u e] albums IH]; cbn [Sifang.retry_albums];
    repeat first [apply IH | apply download_album_consistent | consistent_step].
Qed.

Lemma retry_images_consistent L w images :
  sat (obj_rel keeps_consistent) (Sifang.retry_images L w images).
Proof.
  induction images as [|fi images IH]; cbn [Sifang.retry_images];
    repeat first [apply IH | consistent_step].
Qed.

(** X12. [save_completed_album] always returns, leaves the album in the
    set, and is idempotent: it appends the line exactly when the album was
    not in the set, and a second call changes nothing. Through it the file
    of the progress record stays free of duplicates: if each line of the
    file is in the set and no line occurs twice, the same holds after any
    run of [download_album] and of [download], however the run ends. *)
Theorem X12_record_file_consistent (L : Sifang.lib) (w : world) (fuel : nat) :
  (forall album_url (s s' : state Sifang.crawler) r evs,
      Sifang.save_completed_album album_url s = (r, s', evs) ->
      r = Ret tt
      /\ album_url ∈ Sifang.completed_albums (obj s')
      /\ Sifang.save_completed_album album_url s' = (Ret tt, s', [])
      /\ (evs = [] <-> album_url ∈ Sifang.completed_albums (obj s))
      /\ (album_url ∉ Sifang.completed_albums (obj s) ->
          evs = [EvAppend "completed_albums.txt" album_url]
          /\ Sifang.completed_file (obj s')
             = Sifang.completed_file (obj s) ++ [album_url]))
  /\ (forall album_url (s s' : state Sifang.crawler) r evs,
         Sifang.download_album L w fuel album_url s = (r, s', evs) ->
         record_consistent (obj s) -> record_consistent (obj s'))
  /\ (forall (s s' : state Sifang.crawler) r evs,
         Sifang.download L w fuel s = (r, s', evs) ->
         record_consistent (obj s) -> record_consistent (obj s')).
Proof.
  split; [|split].
  - intros album_url s s' r evs H.
    apply save_completed_album_run in H as (H1 & H2 & H3 & _ & H4 & H5). auto.
  - intros album_url s s' r evs H. 
    apply (download_album_consistent L w fuel album_url s r s' evs H).
  - intros s s' r evs H.
    refine (_ s r s' evs H). clear.
    change (sat (obj_rel keeps_consistent) (Sifang.download L w fuel)).
    unfold Sifang.download, Sifang.download_summary, Sifang.crawl_albums,
      Sifang.save_cookies, Sifang.read_name.
    repeat first [ apply crawl_albums_loop_consistent
                 | apply process_queue_consistent
                 | apply retry_albums_consistent
                 | apply retry_images_consistent
                 | consistent_step ].
Qed.

Lemma X12_record_file_consistent_witness :
  exists s' evs,
    Sifang.download_album sifang_lib album_world 3
      "https://sifang.lat/albums/a" sifang_rerun = (Ret true, s', evs)
    /\ record_consistent (obj s').
Proof.
  destruct (Sifang.download_album sifang_lib album_world 3
              "https://sifang.lat/albums/a" sifang_rerun)
    as [[r s'] evs] eqn:Hrun.
  assert (Hr : fst (fst (Sifang.download_album sifang_lib album_world 3
                  "https://sifang.lat/albums/a" sifang_rerun))
               = Ret true) by (vm_compute; reflexivity).
  rewrite Hrun in Hr. cbn [fst] in Hr. subst r.
  exists s', evs. split; [reflexivity|].
  refine (proj1 (proj2 (X12_record_file_consistent sifang_lib album_world 3))
            _ _ _ _ _ Hrun _).
  split.
  - apply NoDup_singleton.
  - intros a Ha. apply load_completed_albums_elem; [exact Ha|].
    apply list_elem_of_singleton in Ha. subst a. vm_compute. reflexivity.
Defined.

(** ** 美图色色.py: the listing and the image download *)

Lemma get_response_run (w : world) (url : string) (s : state Meitu.spider) :
  exists v s' evs k,
    Meitu._get_response w url 5 s = (Ret v, s', evs)
    /\ fs s' = fs s /\ obj s' = obj s /\ prompts s' = prompts s
    /\ clock s' = (clock s + k)%nat /\ (k <= 5)%nat
    /\ requests_of evs = replicate k url
    /\ ((forall t, (clock s <= t < clock s + 5)%nat ->
                   Meitu.attempt_ok (net w t url) = None) ->
        v = None /\ k = 5%nat).
Proof.
  destruct (get_response_loop_spec w url 5 5 s)
    as (v & s' & evs & k & H1 & H2 & H3 & H4 & H5 & H6 & H7 & _ & H8); [lia|].
  exists v, s', evs, k. unfold Meitu._get_response. auto 10.
Qed.

Lemma omap_length_le {A B} (f : A -> option B) (l : list A) :
  (length (omap f l) <= length l)%nat.
Proof.
  induction l as [|a l IH]; csimpl; [lia|]. destruct (f a); simpl; lia.
Qed.

Lemma parse_album_element_iff el album_title full_url :
  Meitu.parse_album_element el = Some (album_title, full_url)
  <-> exists href desc,
        el = (Some href, Some desc) /\ href <> EmptyString
        /\ Py.strip desc <> EmptyString
        /\ album_title = Py.strip desc
        /\ full_url = String.append Meitu.base_url href.
Proof.
  split.
  - destruct el as [[href|] [desc|]]; simpl; try discriminate.
    destruct (String.eqb_spec href EmptyString) as [|Hh]; [discriminate|].
    destruct (String.eqb_spec (Py.strip desc) EmptyString) as [|Hd];
      [discriminate|].
    simpl. intros [= <- <-]. exists href, desc. auto.
  - intros (href & desc & -> & Hh & Hd & -> & ->). simpl.
    destruct (String.eqb_spec href EmptyString) as [|_]; [contradiction|].
    destruct (String.eqb_spec (Py.strip desc) EmptyString) as [|_];
      [contradiction|].
    reflexivity.
Qed.

(** X13. [_parse_albums] always returns, after at most five requests to
    the page, and changes neither the disk nor the spider. When no request
    succeeds it returns no album and no next page. Otherwise the albums are
    those of the elements of the page that was served which have a
    non-empty [href] and a description that is not blank: each is listed
    with the stripped description as its title and the base URL followed by
    the [href] as its URL; the next page is the base URL followed by the
    [href] of the next-page element, when that is present and not empty. *)
Theorem X13_parse_albums (L : Meitu.lib) (w : world) (url : string)
    (s : state Meitu.spider) :
  exists albums next_page s' evs,
    Meitu._parse_albums L w url s = (Ret (albums, next_page), s', evs)
    /\ fs s' = fs s /\ obj s' = obj s
    /\ (length (requests_of evs) <= 5)%nat
    /\ ((albums = [] /\ next_page = None)
        \/ exists t r,
             (clock s <= t < clock s + 5)%nat
             /\ Meitu.attempt_ok (net w t url) = Some r
             /\ (forall title u,
                    (title, u) ∈ albums
                    <-> exists href desc,
                          (Some href, Some desc)
                          ∈ Meitu.album_elements (Meitu.soup L (body r))
                          /\ href <> EmptyString
                          /\ Py.strip desc <> EmptyString
                          /\ title = Py.strip desc
                          /\ u = String.append Meitu.base_url href)
             /\ (length albums
                 <= length (Meitu.album_elements (Meitu.soup L (body r))))%nat
             /\ (forall n,
                    next_page = Some n
                    <-> exists href,
                          Meitu.next_href (Meitu.soup L (body r)) = Some href
                          /\ href <> EmptyString
                          /\ n = String.append Meitu.base_url href))
    /\ ((forall t, (clock s <= t < clock s + 5)%nat ->
                   Meitu.attempt_ok (net w t url) = None) ->
        albums = [] /\ next_page = None).
Proof.
  destruct (get_response_run w url s)
    as (v & s' & evs & k & Hrun & Hfs & Hobj & _ & _ & Hk & Hreq & Hdown).
  unfold Meitu._parse_albums. rewrite (bind_Ret _ _ _ _ _ _ Hrun).
  assert (Hlen : (length (requests_of (evs ++ [])) <= 5)%nat).
  { rewrite app_nil_r, Hreq, length_replicate. exact Hk. }
  destruct v as [r|]; cbn [ret].
  - eexists _, _, s', (evs ++ []). split; [reflexivity|].
    split; [exact Hfs|]. split; [exact Hobj|]. split; [exact Hlen|].
    split.
    + right. unfold Meitu._get_response in Hrun.
      apply get_response_loop_some in Hrun as (t & Ht & Hok).
      exists t, r. split; [exact Ht|]. split; [exact Hok|]. split; [|split].
      * intros title u. rewrite list_elem_of_omap. split.
        -- intros (el & Hel & Hp). apply parse_album_element_iff in Hp
             as (href & desc & -> & Hp). exists href, desc. auto.
        -- intros (href & desc & Hel & Hp).
           exists (Some href, Some desc). split; [exact Hel|].
           apply parse_album_element_iff. exists href, desc. auto.
      * apply omap_length_le.
      * intros n.
        destruct (Meitu.next_href (Meitu.soup L (body r))) as [h|].
        -- destruct (String.eqb_spec h EmptyString) as [->|Hh].
           ++ split; [discriminate|].
              intros (href & [= <-] & Hne & _). contradiction.
           ++ split.
              ** intros [= <-]. exists h. auto.
              ** intros (href & [= <-] & _ & ->). reflexivity.
        -- split; [discriminate|]. intros (href & [=] & _).
    + intros Hall. destruct (Hdown Hall) as [[=] _].
  - exists [], None, s', (evs ++ []). split; [reflexivity|].
    split; [exact Hfs|]. split; [exact Hobj|]. split; [exact Hlen|].
    split; [left; auto|auto].
Qed.

Lemma meitu_temp_ne (save_path : string) :
  String.append save_path ".tmp" <> save_path.
Proof. exact (temp_path_ne save_path). Qed.

(** X14. [_download_image] always returns, after at most five requests,
    and never touches [failed_albums]. When it returns [True], the
    destination holds a file and [failed_images] is as before; when
    validation is on and the file was downloaded by this call, the file
    decodes and the temporary path is free again. When it returns [False],
    exactly one entry, the pair of its arguments, has been appended to
    [failed_images], and the destination holds no file. *)
Theorem X14_meitu_download_image (L : Meitu.lib) (w : world)
    (img_url save_path : string) (s : state Meitu.spider) :
  exists b s' evs,
    Meitu._download_image L w img_url save_path s = (Ret b, s', evs)
    /\ (length (requests_of evs) <= 5)%nat
    /\ Meitu.failed_albums (obj s') = Meitu.failed_albums (obj s)
    /\ (b = true ->
        Meitu.failed_images (obj s') = Meitu.failed_images (obj s)
        /\ is_Some (fs s' !! save_path)
        /\ (fs s !! save_path = None ->
            fs s' !! String.append save_path ".tmp" = None
            /\ (Meitu.verify (obj s) = true ->
                exists c, fs s' !! save_path = Some c
                          /\ Meitu.pil_ok L c = true)))
    /\ (b = false ->
        Meitu.failed_images (obj s')
        = Meitu.failed_images (obj s) ++ [(img_url, save_path)]
        /\ fs s' !! save_path = None).
Proof.
  unfold Meitu._download_image. unfold bind at 1. cbn [get_fs].
  destruct (fs s !! save_path) as [c0|] eqn:Hfs.
  - exists true, s, []. split; [reflexivity|]. simpl.
    split; [lia|]. split; [reflexivity|]. split; [|discriminate].
    intros _. rewrite Hfs. split; [reflexivity|]. split; [eauto|discriminate].
  - destruct (get_response_run w img_url s)
      as (v & s1 & e1 & k & Hrun & Hfs1 & Hobj1 & _ & _ & Hk & Hreq & _).
    rewrite (bind_Ret _ _ _ _ _ _ Hrun).
    assert (Hlen : forall ev, requests_of ev = [] ->
              (length (requests_of (e1 ++ ev)) <= 5)%nat).
    { intros ev Hev. unfold requests_of in *.
      rewrite omap_app, Hev, app_nil_r, Hreq, length_replicate. exact Hk. }
    pose proof (meitu_temp_ne save_path) as Hne.
    destruct v as [r|].
    + destruct (Py.startswith (default EmptyString (content_type r)) "image/");
        simpl.
      * run. rewrite Hobj1.
        destruct (Meitu.verify (obj s)) eqn:Hv; simpl.
        -- unfold Meitu._validate_image. run.
           rewrite lookup_insert_eq.
           destruct (Meitu.pil_ok L (body r)) eqn:Hok; simpl.
           ++ run. rewrite lookup_insert_eq.
              eexists true, _, _. split; [reflexivity|]. simpl.
              split; [apply Hlen; reflexivity|].
              split; [reflexivity|]. split; [|discriminate]. intros _.
              rewrite lookup_insert_eq.
              split; [reflexivity|]. split; [eauto|]. intros _.
              rewrite lookup_insert_ne by (intros E; apply Hne; auto).
              rewrite lookup_delete_eq. split; [reflexivity|]. eauto.
           ++ run. eexists false, _, _. split; [reflexivity|]. simpl.
              split; [apply Hlen; reflexivity|].
              split; [reflexivity|]. split; [discriminate|]. intros _.
              split; [reflexivity|].
              rewrite lookup_delete_ne by exact Hne.
              rewrite lookup_insert_ne by exact Hne.
              rewrite Hfs1. exact Hfs.
        -- run. rewrite lookup_insert_eq.
           eexists true, _, _. split; [reflexivity|]. simpl.
           split; [apply Hlen; reflexivity|].
           split; [reflexivity|]. split; [|discriminate]. intros _.
           rewrite lookup_insert_eq.
           split; [reflexivity|]. split; [eauto|]. intros _.
           rewrite lookup_insert_ne by (intros E; apply Hne; auto).
           rewrite lookup_delete_eq. split; [reflexivity|]. discriminate.
      * run. eexists false, _, _. split; [reflexivity|]. simpl.
        split; [apply Hlen; reflexivity|]. rewrite Hobj1.
        split; [reflexivity|]. split; [discriminate|]. intros _.
        split; [reflexivity|]. rewrite Hfs1. exact Hfs.
    + run. eexists false, _, _. split; [reflexivity|]. simpl.
      split; [apply Hlen; reflexivity|]. rewrite Hobj1.
      split; [reflexivity|]. split; [discriminate|]. intros _.
      split; [reflexivity|]. rewrite Hfs1. exact Hfs.
Qed.

(** ** 美图色色.py: albums, and the retries of [run] *)

Lemma get_response_inv (w : world) (url : string) (s s' : state Meitu.spider)
    r evs :
  Meitu._get_response w url 5 s = (r, s', evs) ->
  exists v, r = Ret v /\ fs s' = fs s /\ obj s' = obj s
    /\ (length (requests_of evs) <= 5)%nat.
Proof.
  intros H.
  destruct (get_response_run w url s)
    as (v & s1 & e1 & k & Hrun & Hfs & Hobj & _ & _ & Hk & Hreq & _).
  rewrite Hrun in H. injection H as <- <- <-.
  exists v. rewrite Hreq, length_replicate. auto.
Qed.

Lemma meitu_download_image_inv (L : Meitu.lib) (w : world)
    (img_url save_path : string) (s s' : state Meitu.spider) r evs :
  Meitu._download_image L w img_url save_path s = (r, s', evs) ->
  exists b, r = Ret b
    /\ Meitu.failed_albums (obj s') = Meitu.failed_albums (obj s)
    /\ Meitu.failed_images (obj s')
       = Meitu.failed_images (obj s)
         ++ (if b then [] else [(img_url, save_path)])
    /\ (length (requests_of evs) <= 5)%nat.
Proof.
  unfold Meitu._download_image, Meitu._validate_image. intros H.
  monad_cases;
    try match goal with
      | H : Meitu._get_response _ _ _ _ = _ |- _ =>
          apply get_response_inv in H as (v & Hv & _ & Hobj & Hlen);
          try discriminate
      end;
    simpl in *; try rewrite Hobj;
    (eexists; split; [reflexivity|]);
    rewrite ?app_nil_r;
    unfold requests_of in *; rewrite ?omap_app; simpl; rewrite ?app_nil_r;
    auto with lia.
Qed.

Lemma meitu_download_images_run (L : Meitu.lib) (w : world)
    (album_dir : string) (images : list string) :
  forall (img_index : nat) (s : state Meitu.spider),
  exists failures s' evs failed,
    Meitu.download_images L w album_dir img_index images s
    = (Ret failures, s', evs)
    /\ failures = length failed
    /\ (failures <= length images)%nat
    /\ Meitu.failed_images (obj s') = Meitu.failed_images (obj s) ++ failed
    /\ Forall (fun p => fst p ∈ images) failed
    /\ Meitu.failed_albums (obj s') = Meitu.failed_albums (obj s)
    /\ (length (requests_of evs) <= 5 * length images)%nat.
Proof.
  induction images as [|img_url rest IH]; intros img_index s.
  - exists 0%nat, s, [], []. simpl. rewrite app_nil_r. repeat split; auto.
  - cbn [Meitu.download_images].
    destruct (Meitu._download_image L w img_url
                (Meitu.path_join L album_dir
                   (String.append (Py.format_03d (img_index + 1)) ".jpg")) s)
      as [[r1 s1] e1] eqn:Hrun.
    destruct (meitu_download_image_inv _ _ _ _ _ _ _ _ Hrun)
      as (b & -> & Hfa & Hfi & Hreq).
    assert (Hc : catch any_exception
                   (Meitu._download_image L w img_url
                      (Meitu.path_join L album_dir
                         (String.append (Py.format_03d (img_index + 1)) ".jpg")))
                   (fun _ => ret false) s = (Ret b, s1, e1)).
    { unfold catch. rewrite Hrun. reflexivity. }
    rewrite (bind_Ret _ _ _ _ _ _ Hc).
    destruct (IH (S img_index) s1)
      as (n & s2 & e2 & failed & Hrun2 & Hn & Hle & Hfi2 & Hall & Hfa2 & Hreq2).
    rewrite (bind_Ret _ _ _ _ _ _ Hrun2). cbn [ret].
    exists ((if b then 0 else 1) + n)%nat, s2, (e1 ++ e2 ++ []),
      ((if b then [] else [(img_url, Meitu.path_join L album_dir
            (String.append (Py.format_03d (img_index + 1)) ".jpg"))]) ++ failed).
    split; [reflexivity|].
    unfold requests_of in *. rewrite !omap_app, !length_app. simpl.
    rewrite Hfi2, Hfi, Hfa2, Hfa, <- app_assoc.
    destruct b; simpl; repeat split; auto; try lia.
    + eapply Forall_impl; [exact Hall|]. intros p Hp. right. exact Hp.
    + constructor; [left|].
      eapply Forall_impl; [exact Hall|]. intros p Hp. right. exact Hp.
Qed.

(** X15. [_download_album] reports success whenever the album page lists
    at least one image, whatever becomes of the downloads: it returns
    [True], leaves [failed_albums] as it was, and the images that failed
    are found in [failed_images] only. It returns [False], with the album
    appended to [failed_albums] and no image requested, exactly when the
    page lists no image. *)
Theorem X15_meitu_download_album (L : Meitu.lib) (w : world)
    (album_title album_url : string) (s s1 : state Meitu.spider)
    (images : list string) (e1 : list event) :
  Meitu._parse_album_images L w album_url s = (Ret images, s1, e1) ->
  (images = [] ->
   Meitu._download_album L w (Meitu.Info album_title album_url) s
   = (Ret false,
      Build_state (fs s1) (clock s1) (prompts s1)
        (Meitu.add_failed_album (album_title, album_url) (obj s1)),
      e1))
  /\ (images <> [] ->
      exists s' e2 failed,
        Meitu._download_album L w (Meitu.Info album_title album_url) s
        = (Ret true, s', e1 ++ e2)
        /\ Meitu.failed_albums (obj s') = Meitu.failed_albums (obj s1)
        /\ Meitu.failed_images (obj s') = Meitu.failed_images (obj s1) ++ failed
        /\ (length failed <= length images)%nat
        /\ Forall (fun p => fst p ∈ images) failed
        /\ (length (requests_of e2) <= 5 * length images)%nat).
Proof.
  intros Hparse. unfold Meitu._download_album. split.
  - intros ->. unfold bind at 1. cbn [get_obj].
    rewrite (bind_Ret _ _ _ _ _ _ Hparse). run. rewrite app_nil_r.
    reflexivity.
  - intros Hne. destruct images as [|i0 rest]; [contradiction|].
    unfold bind at 1. cbn [get_obj].
    rewrite (bind_Ret _ _ _ _ _ _ Hparse).
    match goal with
    | |- context [Meitu.download_images L w ?d 0%nat ?l] =>
        destruct (meitu_download_images_run L w d l 0%nat s1)
          as (n & s2 & e2 & failed & Hrun & Hn & Hle & Hfi & Hall & Hfa & Hreq)
    end.
    rewrite (bind_Ret _ _ _ _ _ _ Hrun). cbn [ret].
    exists s2, (e2 ++ []), failed. rewrite !app_nil_r. simpl.
    split; [reflexivity|]. subst n. auto 10.
Qed.

Lemma X15_meitu_download_album_witness :
  exists s' evs,
    Meitu._download_album meitu_lib dup_world
      (Meitu.Info "t" "https://example.org/a") (meitu_start true)
    = (Ret true, s', evs)
    /\ Meitu.failed_albums (obj s') = [].
Proof.
  destruct (Meitu._parse_album_images meitu_lib dup_world
              "https://example.org/a" (meitu_start true))
    as [[r s1] e1] eqn:Hparse.
  assert (Hr : fst (fst (Meitu._parse_album_images meitu_lib dup_world
                           "https://example.org/a" (meitu_start true)))
               = Ret ["a.jpg"; "a.jpg"; "b.jpg"]
               /\ Meitu.failed_albums
                    (obj (snd (fst (Meitu._parse_album_images meitu_lib
                       dup_world "https://example.org/a" (meitu_start true)))))
                  = [])
    by (split; vm_compute; reflexivity).
  rewrite Hparse in Hr. cbn [fst snd] in Hr. destruct Hr as [-> Hfa1].
  destruct (proj2 (X15_meitu_download_album meitu_lib dup_world "t" _ _ _ _ _
                     Hparse))
    as (s' & e2 & failed & Hrun & Hfa & _); [discriminate|].
  exists s', (e1 ++ e2). split; [exact Hrun|]. rewrite Hfa. exact Hfa1.
Defined.

Lemma first_pass_failed (L : Meitu.lib) (w : world)
    (albums : list (string * string)) :
  forall (failed0 : list bool) (s s' : state Meitu.spider) r evs,
    Meitu.first_pass L w albums failed0 s = (r, s', evs) ->
    Forall (fun b => b = false) failed0 ->
    r = Fuel \/ exists failed, r = Ret failed
                  /\ Forall (fun b => b = false) failed
                  /\ (length failed <= length failed0 + length albums)%nat.
Proof.
  induction albums as [|[t u] rest IH]; intros failed0 s s' r evs H Hall;
    cbn [Meitu.first_pass] in H.
  - monad_inv. right. exists failed0. split; [reflexivity|].
    split; [exact Hall|simpl; lia].
  - apply bind_inv in H
      as [(f1 & s1 & e1 & e2 & Hc & Hrest & ->)|[(e & Hc & ->)|[Hc ->]]].
    + assert (Hf1 : Forall (fun b => b = false) f1
                    /\ (length f1 <= S (length failed0))%nat).
      { unfold catch in Hc.
        destruct (bind _ _ s) as [[[v|e|] sa] ea] eqn:Hb; simpl in Hc.
        - injection Hc as <- <- <-.
          apply bind_inv in Hb
            as [(b & sb & eb & ec & _ & Hret & _)|[(e & _ & [=])|[_ [=]]]].
          destruct b; prim_inv Hret.
          + split; [exact Hall|lia].
          + split; [apply Forall_app; split; [exact Hall|repeat constructor]|].
            rewrite length_app. simpl. lia.
        - prim_inv Hc. split; [exact Hall|lia].
        - discriminate. }
      destruct Hf1 as [Hf1 Hl1].
      apply IH in Hrest; [|exact Hf1].
      destruct Hrest as [->|(failed & -> & Hall' & Hlen)]; [auto|].
      right. exists failed. split; [reflexivity|]. split; [exact Hall'|].
      simpl. lia.
    + exfalso. unfold catch in Hc.
      destruct (bind _ _ s) as [[[v|e0|] sa] ea]; simpl in Hc; discriminate.
    + auto.
Qed.

Lemma second_pass_void (L : Meitu.lib) (w : world) (failed : list bool)
    (s : state Meitu.spider) :
  Meitu.second_pass L w failed s = (Ret tt, s, []).
Proof.
  induction failed as [|b rest IH]; [reflexivity|].
  cbn [Meitu.second_pass]. unfold bind at 1, catch. simpl.
  rewrite IH. reflexivity.
Qed.

(** X16. The retry that [run] makes right after the first pool does
    nothing. The list it iterates over holds the results of the albums that
    failed, the value [False] each, where [_download_album] expects a pair
    of title and URL: every retry task ends with [TypeError] before any
    request, and the pass leaves the disk and the spider as they were. *)
Theorem X16_run_retry_is_void (L : Meitu.lib) (w : world)
    (albums : list (string * string)) (s s' : state Meitu.spider)
    (failed : list bool) (evs : list event) :
  Meitu.first_pass L w albums [] s = (Ret failed, s', evs) ->
  Forall (fun album_info => album_info = false) failed
  /\ (length failed <= length albums)%nat
  /\ (forall album_info st,
         Meitu._download_album L w (Meitu.NotInfo album_info) st
         = (Exc TypeError, st, []))
  /\ Meitu.second_pass L w failed s' = (Ret tt, s', []).
Proof.
  intros H.
  apply first_pass_failed in H; [|constructor].
  destruct H as [[=]|(f & [= <-] & Hall & Hlen)].
  split; [exact Hall|]. split; [exact Hlen|]. split; [reflexivity|].
  apply second_pass_void.
Qed.

Lemma X16_run_retry_is_void_witness :
  exists s' evs,
    Meitu.first_pass meitu_lib redirect_world [("t", "https://example.org/a")]
      [] (meitu_start true) = (Ret [false], s', evs)
    /\ Meitu.second_pass meitu_lib redirect_world [false] s' = (Ret tt, s', []).
Proof.
  destruct (Meitu.first_pass meitu_lib redirect_world
              [("t", "https://example.org/a")] [] (meitu_start true))
    as [[r s'] evs] eqn:Hrun.
  assert (Hr : fst (fst (Meitu.first_pass meitu_lib redirect_world
                           [("t", "https://example.org/a")] []
                           (meitu_start true))) = Ret [false])
    by (vm_compute; reflexivity).
  rewrite Hrun in Hr. cbn [fst] in Hr. subst r.
  exists s', evs. split; [reflexivity|].
  apply (X16_run_retry_is_void _ _ _ _ _ _ _ Hrun).
Defined.

(** X17. When the listing yields no album at all, [run] ends with
    [ZeroDivisionError]: the average time per album divides by the number
    of albums. This is so in particular when the site cannot be reached. *)
Theorem X17_run_divides_by_zero (L : Meitu.lib) (w : world) (fuel : nat)
    (s s1 : state Meitu.spider) (processed : gset string) (total_pages : nat)
    (e1 : list event) :
  Meitu.list_pages L w fuel
    (Some "https://xn--drdgbhrb-xx6n10qjm3s.tljkd-01.sbs/t/13/") ∅ 0 [] s
  = (Ret ([], processed, total_pages), s1, e1) ->
  Meitu.run L w fuel s = (Exc ZeroDivisionError, s1, e1).
Proof.
  intros H. unfold Meitu.run. rewrite (bind_Ret _ _ _ _ _ _ H).
  cbn [Meitu.first_pass]. run. rewrite app_nil_r. reflexivity.
Qed.

Lemma X17_run_divides_by_zero_witness :
  exists s' evs,
    Meitu.run meitu_lib down_world 1 (meitu_start true)
    = (Exc ZeroDivisionError, s', evs)
    /\ length (requests_of evs) = 5%nat.
Proof.
  destruct (Meitu.list_pages meitu_lib down_world 1
              (Some "https://xn--drdgbhrb-xx6n10qjm3s.tljkd-01.sbs/t/13/")
              ∅ 0 [] (meitu_start true)) as [[r s1] e1] eqn:Hrun.
  assert (Hr : match fst (fst (Meitu.list_pages meitu_lib down_world 1
                  (Some "https://xn--drdgbhrb-xx6n10qjm3s.tljkd-01.sbs/t/13/")
                  ∅ 0 [] (meitu_start true))) with
               | Ret (all_albums, _, _) => all_albums = []
               | _ => False
               end
               /\ length (requests_of (snd (Meitu.list_pages meitu_lib
                    down_world 1
                    (Some "https://xn--drdgbhrb-xx6n10qjm3s.tljkd-01.sbs/t/13/")
                    ∅ 0 [] (meitu_start true)))) = 5%nat)
    by (split; vm_compute; reflexivity).
  rewrite Hrun in Hr. cbn [fst snd] in Hr. destruct Hr as [Hall Hlen].
  destruct r as [[[all_albums processed] total_pages]| |]; try contradiction.
  subst all_albums.
  exists s1, e1. split; [|exact Hlen].
  apply (X17_run_divides_by_zero _ _ _ _ _ _ _ _ Hrun).
Defined.

Lemma meitu_download_image_down (L : Meitu.lib) (w : world)
    (img_url save_path : string) (s : state Meitu.spider) :
  (forall t u, Meitu.attempt_ok (net w t u) = None) ->
  fs s !! save_path = None ->
  exists s' evs,
    Meitu._download_image L w img_url save_path s = (Ret false, s', evs)
    /\ fs s' = fs s
    /\ obj s' = Meitu.add_failed_image img_url save_path (obj s).
Proof.
  intros Hdown Hfs. unfold Meitu._download_image. unfold bind at 1.
  cbn [get_fs]. rewrite Hfs.
  destruct (get_response_run w img_url s)
    as (v & s1 & e1 & k & Hrun & Hfs1 & Hobj1 & _ & _ & _ & _ & Hall).
  destruct Hall as [-> _]; [intros; apply Hdown|].
  rewrite (bind_Ret _ _ _ _ _ _ Hrun). run.
  eexists _, _. split; [reflexivity|]. simpl. rewrite Hobj1. auto.
Qed.

(** X18. [_retry_failed_images] iterates over [self.failed_images] while
    [_download_image] appends to that list each image that fails again.
    When the image server stays down (every request fails) and the files
    are still missing, the loop does not end: after any number [fuel] of
    iterations it is still running, and the list has grown by [fuel]
    entries. *)
Theorem X18_retry_failed_images_diverges (L : Meitu.lib) (w : world)
    (fuel index : nat) (s : state Meitu.spider) :
  (forall t u, Meitu.attempt_ok (net w t u) = None) ->
  (forall p, p ∈ Meitu.failed_images (obj s) -> fs s !! snd p = None) ->
  (index < length (Meitu.failed_images (obj s)))%nat ->
  exists s' evs,
    Meitu.retry_failed_images L w fuel index s = (Fuel, s', evs)
    /\ length (Meitu.failed_images (obj s'))
       = (length (Meitu.failed_images (obj s)) + fuel)%nat
    /\ fs s' = fs s.
Proof.
  intros Hdown. revert index s.
  induction fuel as [|fuel IH]; intros index s Hfs Hidx;
    cbn [Meitu.retry_failed_images].
  - exists s, []. split; [reflexivity|]. split; [lia|reflexivity].
  - unfold bind at 1. cbn [get_obj].
    destruct (Meitu.failed_images (obj s) !! index) as [[img_url save_path]|]
      eqn:Hlk; [|apply lookup_ge_None in Hlk; lia].
    assert (Hin : (img_url, save_path) ∈ Meitu.failed_images (obj s)).
    { eapply list_elem_of_lookup_2. exact Hlk. }
    destruct (meitu_download_image_down L w img_url save_path s Hdown
                (Hfs _ Hin)) as (s1 & e1 & Hrun & Hfs1 & Hobj1).
    rewrite (bind_Ret _ _ _ _ _ _ Hrun).
    destruct (IH (S index) s1) as (s2 & e2 & Hrun2 & Hlen & Hfs2).
    + rewrite Hobj1, Hfs1. simpl. intros p Hp.
      apply elem_of_app in Hp as [Hp|Hp]; [auto|].
      apply list_elem_of_singleton in Hp. subst p. apply (Hfs _ Hin).
    + rewrite Hobj1. simpl. rewrite length_app. simpl. lia.
    + rewrite Hrun2. exists s2, (e1 ++ e2 ++ []). rewrite app_nil_r.
      split; [reflexivity|]. rewrite Hlen, Hfs2, Hobj1, Hfs1. simpl.
      rewrite length_app. simpl. split; [lia|reflexivity].
Qed.

Lemma X18_retry_failed_images_diverges_witness :
  exists s' evs,
    Meitu.retry_failed_images meitu_lib down_world 3 0
      (Build_state ∅ 0 0
         (Meitu.add_failed_image "https://example.org/1.jpg" "out/a/001.jpg"
            (spider0 true)))
    = (Fuel, s', evs)
    /\ length (Meitu.failed_images (obj s')) = 4%nat.
Proof.
  destruct (X18_retry_failed_images_diverges meitu_lib down_world 3 0
              (Build_state ∅ 0 0
                 (Meitu.add_failed_image "https://example.org/1.jpg"
                    "out/a/001.jpg" (spider0 true))))
    as (s' & evs & Hrun & Hlen & _).
  - intros t u. reflexivity.
  - intros p _. apply lookup_empty.
  - simpl. lia.
  - exists s', evs. split; [exact Hrun|]. rewrite Hlen. reflexivity.
Defined.

Lemma get_response_first (w : world) (url : string) (s : state Meitu.spider) r :
  Meitu.attempt_ok (net w (clock s) url) = Some r ->
  Meitu._get_response w url 5 s
  = (Ret (Some r), Build_state (fs s) (S (clock s)) (prompts s) (obj s),
     [EvRequest url; EvSleep 4 8]).
Proof.
  intros H. unfold Meitu._get_response. rewrite get_response_loop_S.
  rewrite bind_request, H. reflexivity.
Qed.

(** X19. [_retry_failed_albums] iterates over [self.failed_albums] while
    [_download_album] appends to that list each album that fails again.
    When the album pages keep listing no image, the loop does not end:
    after any number [fuel] of iterations it is still running and the list
    has grown by [fuel] entries. When the site is down instead, the first
    retry raises [AttributeError], which nothing catches. *)
Theorem X19_retry_failed_albums (L : Meitu.lib) (w : world)
    (fuel index : nat) (s : state Meitu.spider) :
  (index < length (Meitu.failed_albums (obj s)))%nat ->
  ((forall t u, exists r,
       Meitu.attempt_ok (net w t u) = Some r
       /\ Meitu.book_pages (Meitu.soup L (body r)) = None) ->
   exists s' evs,
     Meitu.retry_failed_albums L w fuel index s = (Fuel, s', evs)
     /\ length (Meitu.failed_albums (obj s'))
        = (length (Meitu.failed_albums (obj s)) + fuel)%nat)
  /\ ((forall t u, Meitu.attempt_ok (net w t u) = None) ->
      exists s' evs,
        Meitu.retry_failed_albums L w (S fuel) index s
        = (Exc AttributeError, s', evs)
        /\ obj s' = obj s).
Proof.
  intros Hidx. split.
  - intros Hempty. revert index s Hidx.
    induction fuel as [|fuel IH]; intros index s Hidx;
      cbn [Meitu.retry_failed_albums].
    + exists s, []. split; [reflexivity|]. lia.
    + unfold bind at 1. cbn [get_obj].
      destruct (Meitu.failed_albums (obj s) !! index) as [[t u]|] eqn:Hlk;
        [|apply lookup_ge_None in Hlk; lia].
      destruct (Hempty (clock s) u) as (r & Hok & Hbook).
      assert (Hparse : Meitu._parse_album_images L w u s
                = (Ret [], Build_state (fs s) (S (clock s)) (prompts s) (obj s),
                   [EvRequest u; EvSleep 4 8])).
      { unfold Meitu._parse_album_images.
        rewrite (bind_Ret _ _ _ _ _ _ (get_response_first w u s r Hok)).
        cbn [Meitu.text_of]. unfold bind at 1. cbn [ret]. rewrite Hbook.
        reflexivity. }
      assert (Hdl : Meitu._download_album L w (Meitu.Info t u) s
                = (Ret false,
                   Build_state (fs s) (S (clock s)) (prompts s)
                     (Meitu.add_failed_album (t, u) (obj s)),
                   [EvRequest u; EvSleep 4 8])).
      { unfold Meitu._download_album. unfold bind at 1. cbn [get_obj].
        rewrite (bind_Ret _ _ _ _ _ _ Hparse). reflexivity. }
      rewrite (bind_Ret _ _ _ _ _ _ Hdl).
      match goal with
      | |- context [Meitu.retry_failed_albums L w fuel (S index) ?st] =>
          destruct (IH (S index) st) as (s2 & e2 & Hrun2 & Hlen)
      end.
      { simpl. rewrite length_app. simpl. lia. }
      rewrite Hrun2. eexists _, _. split; [reflexivity|].
      rewrite Hlen. simpl. rewrite length_app. simpl. lia.
  - intros Hdown. cbn [Meitu.retry_failed_albums].
    unfold bind at 1. cbn [get_obj].
    destruct (Meitu.failed_albums (obj s) !! index) as [[t u]|] eqn:Hlk;
      [|apply lookup_ge_None in Hlk; lia].
    destruct (get_response_run w u s)
      as (v & s1 & e1 & k & Hrun & _ & Hobj1 & _ & _ & _ & _ & Hall).
    destruct Hall as [-> _]; [intros; apply Hdown|].
    assert (Hparse : Meitu._parse_album_images L w u s
                     = (Exc AttributeError, s1, e1)).
    { unfold Meitu._parse_album_images.
      rewrite (bind_Ret _ _ _ _ _ _ Hrun). simpl. unfold bind, raise. simpl.
      rewrite app_nil_r. reflexivity. }
    assert (Hdl : Meitu._download_album L w (Meitu.Info t u) s
              = (Exc AttributeError, s1, e1)).
    { unfold Meitu._download_album. unfold bind at 1. simpl.
      rewrite (bind_Exc _ _ _ _ _ _ Hparse). reflexivity. }
    rewrite (bind_Exc _ _ _ _ _ _ Hdl). eexists _, _. split; [reflexivity|].
    exact Hobj1.
Qed.

Lemma X19_retry_failed_albums_witness :
  exists s' evs,
    Meitu.retry_failed_albums meitu_lib down_world 1 0
      (Build_state ∅ 0 0
         (Meitu.add_failed_album ("t", "https://example.org/a") (spider0 true)))
    = (Exc AttributeError, s', evs).
Proof.
  destruct (proj2 (X19_retry_failed_albums meitu_lib down_world 0 0
              (Build_state ∅ 0 0
                 (Meitu.add_failed_album ("t", "https://example.org/a")
                    (spider0 true)))
              ltac:(simpl; lia)))
    as (s' & evs & Hrun & _).
  - intros t u. reflexivity.
  - exists s', evs. exact Hrun.
Defined.

(** ** 爬取ku1372的所有图集.py: the archive of an album *)

(** X20. The skip rule of [download_album_wrapper]. An archive that is at
    its destination is kept without any request when validation is off,
    and also when validation is on and the file is larger than 1024 bytes.
    With validation on, a file of at most 1024 bytes is removed and the
    download starts. A kept archive does not count as a success. *)
Theorem X20_archive_skip_rule (L : Ku1372.lib) (w : world)
    (album_name album_url tag_dir : string) (verify : bool)
    (s : state Ku1372.counters) (c : string) :
  let save_path :=
    Ku1372.path_join L tag_dir
      (String.append (Ku1372.safe_name_of album_name) ".zip") in
  fs s !! save_path = Some c ->
  (verify = false \/ 1024 < Z.of_nat (String.length c) ->
   Ku1372.download_album_wrapper L w album_name album_url tag_dir verify s
   = (Ret true, s, []))
  /\ (verify = true -> Z.of_nat (String.length c) <= 1024 ->
      Ku1372.download_album_wrapper L w album_name album_url tag_dir verify s
      = (let '(r, s', evs) :=
           Ku1372.download_attempts L w 5 album_url save_path
             (Build_state (delete save_path (fs s)) (clock s) (prompts s)
                (obj s)) in
         (r, s', EvUnlink save_path :: evs))).
Proof.
  intros save_path Hfs. unfold Ku1372.download_album_wrapper.
  fold save_path. split.
  - intros Hkeep. unfold bind at 1. cbn [get_fs]. rewrite Hfs.
    destruct verify.
    + destruct Hkeep as [[=]|Hlt]. apply Z.ltb_lt in Hlt. rewrite Hlt.
      reflexivity.
    + reflexivity.
  - intros -> Hle. unfold bind at 1. cbn [get_fs]. rewrite Hfs.
    assert (Hlt : (1024 <? Z.of_nat (String.length c)) = false)
      by (apply Z.ltb_ge; exact Hle).
    rewrite Hlt. unfold bind at 1, bind at 1. cbn [unlink ret].
    destruct (Ku1372.download_attempts L w 5 album_url save_path _)
      as [[r s'] evs]. reflexivity.
Qed.

Lemma X20_archive_skip_rule_witness :
  Ku1372.download_album_wrapper ku_lib html_world "a" "https://www.ku1372.cc/a.html"
    "out" false (Build_state {[ "out/a.zip" := "PK" ]} 0 0
                   {| Ku1372.thread_success_count := 0 |})
  = (Ret true,
     Build_state {[ "out/a.zip" := "PK" ]} 0 0
       {| Ku1372.thread_success_count := 0 |}, []).
Proof.
  refine (proj1 (X20_archive_skip_rule ku_lib html_world "a"
                   "https://www.ku1372.cc/a.html" "out" false
                   (Build_state {[ "out/a.zip" := "PK" ]} 0 0
                      {| Ku1372.thread_success_count := 0 |}) "PK" _) _).
  - vm_compute. reflexivity.
  - left. reflexivity.
Defined.

(** X21. [download_album_wrapper] always returns, after at most ten
    requests (the album page and the archive, five times), and writes and
    removes no file but the archive itself. When it returns [False], the
    success counter is as before and no file is left at the destination:
    a download that fails leaves no partial archive. When it returns
    [True], the destination holds a file, and the counter has grown by one
    or, for a kept file, not at all. *)
Theorem X21_archive_download (L : Ku1372.lib) (w : world)
    (album_name album_url tag_dir : string) (verify : bool)
    (s s' : state Ku1372.counters) (r : outcome bool) (evs : list event) :
  let save_path :=
    Ku1372.path_join L tag_dir
      (String.append (Ku1372.safe_name_of album_name) ".zip") in
  Ku1372.download_album_wrapper L w album_name album_url tag_dir verify s
  = (r, s', evs) ->
  exists b, r = Ret b
    /\ (length (requests_of evs) <= 10)%nat
    /\ Forall (touches_only save_path) evs
    /\ (b = false ->
        fs s' !! save_path = None
        /\ Ku1372.thread_success_count (obj s')
           = Ku1372.thread_success_count (obj s))
    /\ (b = true ->
        is_Some (fs s' !! save_path)
        /\ (Ku1372.thread_success_count (obj s)
            <= Ku1372.thread_success_count (obj s')
            <= S (Ku1372.thread_success_count (obj s)))%nat).
Proof.
  intros save_path. unfold Ku1372.download_album_wrapper. fold save_path.
  intros H. monad_cases; simpl in *;
    try match goal with
      | H : Ku1372.download_attempts _ _ _ _ _ _ = _ |- _ =>
          apply ku_download_attempts_spec in H
            as (b & -> & Hlen & Hev & Ht & Hf);
          exists b; split; [reflexivity|]
      end;
    try (exists true; split; [reflexivity|]);
    simpl in *; unfold requests_of in *; simpl.
  all: try (split; [lia|]).
  all: try (split; [repeat first [apply Forall_cons; split; [simpl; auto|]
                                 | apply Forall_nil; exact I
                                 | assumption ]|]).
  all: split; intros Hb; try discriminate Hb.
  all: try (destruct (Hf Hb) as (Hc & Hfs); split; [|exact Hc]; apply Hfs;
            first [apply lookup_delete_eq | assumption]).
  all: try (destruct (Ht Hb) as (Hc & c & Hc1 & _); rewrite Hc, Hc1;
            split; [eauto|lia]).
  all: try (split; [eauto|lia]).
Qed.

Lemma X21_archive_download_witness :
  exists s' evs,
    Ku1372.download_album_wrapper ku_lib html_world "a"
      "https://www.ku1372.cc/a.html" "out" false ku_start = (Ret false, s', evs)
    /\ fs s' !! "out/a.zip" = None.
Proof.
  destruct (Ku1372.download_album_wrapper ku_lib html_world "a"
              "https://www.ku1372.cc/a.html" "out" false ku_start)
    as [[r s'] evs] eqn:Hrun.
  assert (Hr : fst (fst (Ku1372.download_album_wrapper ku_lib html_world "a"
                           "https://www.ku1372.cc/a.html" "out" false ku_start))
               = Ret false) by (vm_compute; reflexivity).
  rewrite Hrun in Hr. cbn [fst] in Hr. subst r.
  exists s', evs. split; [reflexivity|].
  destruct (X21_archive_download _ _ _ _ _ _ _ _ _ _ Hrun)
    as (b & [= <-] & _ & _ & Hf & _).
  exact (proj1 (Hf eq_refl)).
Defined.

(** X22. When the page of the album cannot be fetched, or holds no
    download link, [download_album_wrapper] gives up at once: it returns
    [False] after this one request, without a wait and without a retry. *)
Theorem X22_archive_no_link (L : Ku1372.lib) (w : world)
    (album_name album_url tag_dir : string) (verify : bool)
    (s : state Ku1372.counters) :
  let save_path :=
    Ku1372.path_join L tag_dir
      (String.append (Ku1372.safe_name_of album_name) ".zip") in
  fs s !! save_path = None ->
  match eager (net w (clock s) album_url) with
  | NetResp r => Ku1372.download_link_of L (body r) ≫= Py.truthy = None
  | NetFail _ => True
  end ->
  Ku1372.download_album_wrapper L w album_name album_url tag_dir verify s
  = (Ret false, Build_state (fs s) (S (clock s)) (prompts s) (obj s),
     [EvRequest album_url]).
Proof.
  intros save_path Hfs Hlink. unfold Ku1372.download_album_wrapper.
  fold save_path. unfold bind at 1. cbn [get_fs]. rewrite Hfs.
  unfold bind at 1. cbn [ret]. rewrite ku_download_attempts_S. cbv zeta.
  unfold Ku1372.get_download_link. unfold bind at 1. rewrite bind_request.
  destruct (eager (net w (clock s) album_url)) as [r|f]; cbn [ret].
  - rewrite Hlink. reflexivity.
  - reflexivity.
Qed.

Lemma X22_archive_no_link_witness :
  Ku1372.download_album_wrapper ku_lib down_world "a"
    "https://www.ku1372.cc/a.html" "out" true ku_start
  = (Ret false, Build_state ∅ 1 0 {| Ku1372.thread_success_count := 0 |},
     [EvRequest "https://www.ku1372.cc/a.html"]).
Proof.
  refine (X22_archive_no_link ku_lib down_world "a"
            "https://www.ku1372.cc/a.html" "out" true ku_start _ I).
  apply lookup_empty.
Defined.

(** ** Status 443 (sifang_crawler.py) *)

Lemma retry_request_loop_443 (w : world) (url : string) :
  forall (k retries fuel : nat) (s : state Sifang.crawler),
    (retries + k = 5)%nat -> (k <= fuel)%nat ->
    (forall t, (clock s <= t < clock s + k)%nat ->
               exists r, net w t url = NetResp r /\ broken r = None
                         /\ status r = 443) ->
    Sifang.retry_request_loop w fuel url 5 retries s
    = (Ret None,
       Build_state (fs s) (clock s + k) (prompts s) (obj s),
       concat (replicate k [EvSleep 2 5; EvRequest url; EvSleep 15 30])).
Proof.
  induction k as [|k IH]; intros retries fuel s Hsum Hfuel Hnet.
  - assert (retries = 5)%nat as -> by lia.
    destruct fuel; simpl; rewrite Nat.add_0_r; destruct s; reflexivity.
  - destruct fuel as [|fuel]; [lia|].
    cbn [Sifang.retry_request_loop].
    destruct (Nat.ltb_spec retries 5) as [_|]; [|lia].
    rewrite bind_sleep, bind_request.
    destruct (Hnet (clock s)) as (r & Hr & Hbr & H443); [lia|].
    rewrite Hr. unfold eager. rewrite Hbr, H443. cbn [Z.eqb Pos.eqb].
    rewrite bind_sleep.
    rewrite (IH (S retries) fuel); [| lia | lia |].
    + simpl. repeat f_equal. lia.
    + simpl. intros t Ht. apply Hnet. lia.
Qed.

(** X23. Responses with status 443 are not retried without end: each one
    is followed by a wait of 15 to 30 seconds and counts as a retry, with
    no prompt at the fifth. When the server answers 443 five times in a
    row, [retry_request] returns [None] after exactly these five requests,
    and the operator is not asked. *)
Theorem X23_retry_request_443 (w : world) (fuel : nat) (url : string)
    (s : state Sifang.crawler) :
  (5 <= fuel)%nat ->
  (forall t, (clock s <= t < clock s + 5)%nat ->
             exists r, net w t url = NetResp r /\ broken r = None
                       /\ status r = 443) ->
  Sifang.retry_request w fuel url s
  = (Ret None,
     Build_state (fs s) (clock s + 5) (prompts s) (obj s),
     concat (replicate 5 [EvSleep 2 5; EvRequest url; EvSleep 15 30])).
Proof.
  intros Hfuel Hnet. unfold Sifang.retry_request.
  apply retry_request_loop_443; [reflexivity|exact Hfuel|exact Hnet].
Qed.

Lemma X23_retry_request_443_witness :
  exists evs,
    Sifang.retry_request blocked_world 5 "https://sifang.lat/"
      (sifang_start false)
    = (Ret None, Build_state ∅ 5 0 (crawler0 false), evs)
    /\ length (requests_of evs) = 5%nat.
Proof.
  eexists. split.
  - refine (X23_retry_request_443 blocked_world 5 "https://sifang.lat/"
              (sifang_start false) _ _); [lia|].
    intros t _. eexists. split; [reflexivity|]. split; reflexivity.
  - reflexivity.
Defined.

(** ** 爬取ku1372的所有图集.py: the pages of a tag *)

Lemma get_albums_loop_spec {O} (P : Ku1372.parser) (w : world)
    (tag_url : string) :
  forall (fuel page : nat) (re_bound : bool) (albums : list Ku1372.album)
         (s s' : state O) r evs,
    re_bound || negb (Nat.eqb page 1) = true ->
    Ku1372.get_albums_loop P w fuel tag_url page re_bound albums s
    = (r, s', evs) ->
    exists k,
      (k <= fuel)%nat
      /\ requests_of evs = Ku1372.albums_page_url P tag_url <$> seq page k
      /\ Forall (fun e => is_request e = true \/ e = EvSleep 4 8) evs
      /\ clock s' = (clock s + k)%nat
      /\ fs s' = fs s /\ obj s' = obj s /\ prompts s' = prompts s
      /\ ((r = Fuel /\ k = fuel)
          \/ exists added, r = Ret (albums ++ added) /\ (1 <= k)%nat).
Proof.
  induction fuel as [|fuel IH]; intros page re_bound albums s s' r evs Hb H;
    cbn [Ku1372.get_albums_loop] in H.
  - monad_inv. exists 0%nat. simpl. rewrite Nat.add_0_r.
    repeat split; auto.
  - rewrite Hb in H. unfold Ku1372.get_soup in H. monad_cases;
      try match goal with
        | Hx : existsb (Ku1372.is_next_href _ _) _ = true |- _ => rewrite ?Hx
        end;
      try match goal with
        | H : Ku1372.get_albums_loop _ _ _ _ _ _ _ _ = _ |- _ =>
            apply IH in H;
            [destruct H
               as (k & Hk & Hreq & Hev & Hck & Hfs & Hobj & Hpr & Hres);
             exists (S k); simpl in *;
             split; [lia|];
             split; [f_equal; exact Hreq|];
             split; [repeat (constructor; [simpl; auto|]); exact Hev|];
             split; [lia|];
             split; [exact Hfs|]; split; [exact Hobj|]; split; [exact Hpr|];
             destruct Hres as [[-> ->]|(added & -> & _)];
             [left; auto|right; eexists; rewrite <- app_assoc;
                         split; [reflexivity|lia]]
            |reflexivity]
        end.
    all: exists 1%nat; simpl; rewrite ?Nat.add_1_r.
    all: split; [lia|]; split; [reflexivity|].
    all: split; [repeat (constructor; [simpl; auto|]); constructor|].
    all: repeat (split; [reflexivity|]).
    all: right.
    all: first [ exists []; rewrite app_nil_r; split; [reflexivity|lia]
               | eexists; split; [reflexivity|lia] ].
Qed.

Lemma get_soup_run {O} (w : world) (page_url : string) (s : state O) :
  Ku1372.get_soup w page_url s
  = (Ret (match eager (net w (clock s) page_url) with
          | NetResp r => Some (body r)
          | NetFail _ => None
          end),
     Build_state (fs s) (S (clock s)) (prompts s) (obj s),
     [EvRequest page_url]).
Proof.
  unfold Ku1372.get_soup. rewrite bind_request.
  destruct (eager (net w (clock s) page_url)); reflexivity.
Qed.

Ltac first_page_ends :=
  exists 1%nat; rewrite Nat.add_1_r;
  split; [lia|]; split; [reflexivity|];
  split; [repeat constructor; simpl; auto|];
  do 3 (split; [reflexivity|]);
  split; [right; left; eauto|];
  split; [discriminate|].



(** ** 美图色色.py: the first response that succeeds, and the prompt *)

Lemma get_response_loop_first_ok (w : world) (url : string) (retries : nat)
    (r : response) :
  forall (j n : nat) (s : state Meitu.spider),
    (j < n)%nat -> (n <= retries)%nat ->
    (forall t, (clock s <= t < clock s + j)%nat ->
               Meitu.attempt_ok (net w t url) = None) ->
    Meitu.attempt_ok (net w (clock s + j) url) = Some r ->
    Meitu.get_response_loop w url retries n s
    = (Ret (Some r),
       Build_state (fs s) (clock s + S j) (prompts s) (obj s),
       concat (replicate (S j) [EvRequest url; EvSleep 4 8])).
Proof.
  induction j as [|j IH]; intros n s Hj Hn Hfail Hok;
    (destruct n as [|n]; [lia|]); rewrite get_response_loop_S, bind_request.
  - rewrite Nat.add_0_r in Hok. rewrite Hok, bind_sleep. simpl.
    rewrite Nat.add_1_r. reflexivity.
  - rewrite (Hfail (clock s)) by lia.
    destruct (Nat.ltb_spec (retries - S n) (retries - 1)) as [_|]; [|lia].
    rewrite bind_sleep. rewrite (IH n); [| lia | lia | |].
    + simpl. repeat f_equal. lia.
    + simpl. intros t Ht. apply Hfail. lia.
    + simpl. rewrite <- Hok. f_equal. f_equal. lia.
Qed.

(** X25. [_get_response] returns the first response that succeeds: when
    the first [j] attempts fail and attempt [j + 1 <= 5] succeeds, it
    returns that response after exactly [j + 1] requests, having slept 4
    to 8 seconds after each of them, the successful one included. *)
Theorem X25_get_response_first_success (w : world) (url : string) (j : nat)
    (r : response) (s : state Meitu.spider) :
  (j < 5)%nat ->
  (forall t, (clock s <= t < clock s + j)%nat ->
             Meitu.attempt_ok (net w t url) = None) ->
  Meitu.attempt_ok (net w (clock s + j) url) = Some r ->
  Meitu._get_response w url 5 s
  = (Ret (Some r),
     Build_state (fs s) (clock s + S j) (prompts s) (obj s),
     concat (replicate (S j) [EvRequest url; EvSleep 4 8])).
Proof.
  intros Hj Hfail Hok. unfold Meitu._get_response.
  apply get_response_loop_first_ok; auto.
Qed.

Lemma X25_get_response_first_success_witness :
  exists r evs,
    Meitu._get_response recovering_world "https://example.org/a" 5
      (meitu_start true)
    = (Ret (Some r), Build_state ∅ 3 0 (spider0 true), evs)
    /\ body r = "ok" /\ length (requests_of evs) = 3%nat.
Proof.
  eexists _, _. split.
  - refine (X25_get_response_first_success recovering_world
              "https://example.org/a" 2 _ (meitu_start true) _ _ _).
    + lia.
    + intros t Ht. simpl in Ht.
      destruct t as [|[|t]]; [reflexivity|reflexivity|lia].
    + reflexivity.
  - split; reflexivity.
Defined.

(** X26. The end of [run], once the listing gave at least one album and
    the first pool is done. Without any failure the run ends without a
    prompt. Otherwise the operator is asked once: on a closed standard
    input the run ends with [EOFError]; an answer other than [y] and the
    empty line (case and surrounding blanks aside) ends the run with
    nothing retried; on the empty line, as on [y], the retries start. *)
Theorem X26_run_prompt (L : Meitu.lib) (w : world) (fuel : nat)
    (s s1 s2 : state Meitu.spider) (all_albums : list (string * string))
    (processed : gset string) (total_pages : nat) (failed : list bool)
    (e1 e2 : list event) :
  Meitu.list_pages L w fuel
    (Some "https://xn--drdgbhrb-xx6n10qjm3s.tljkd-01.sbs/t/13/") ∅ 0 [] s
  = (Ret (all_albums, processed, total_pages), s1, e1) ->
  all_albums <> [] ->
  Meitu.first_pass L w all_albums [] s1 = (Ret failed, s2, e2) ->
  let asked := Build_state (fs s2) (clock s2) (S (prompts s2)) (obj s2) in
  (Meitu.failed_albums (obj s2) = [] -> Meitu.failed_images (obj s2) = [] ->
   Meitu.run L w fuel s = (Ret tt, s2, e1 ++ e2))
  /\ (Meitu.failed_albums (obj s2) <> [] \/ Meitu.failed_images (obj s2) <> [] ->
      (operator w (prompts s2) = None ->
       Meitu.run L w fuel s = (Exc EOFError, asked, e1 ++ e2 ++ [EvPrompt]))
      /\ (forall line,
            operator w (prompts s2) = Some line ->
            Py.lower (Py.strip line) <> "y" ->
            Py.lower (Py.strip line) <> EmptyString ->
            Meitu.run L w fuel s = (Ret tt, asked, e1 ++ e2 ++ [EvPrompt]))
      /\ (forall line,
            operator w (prompts s2) = Some line ->
            Py.lower (Py.strip line) = EmptyString
            \/ Py.lower (Py.strip line) = "y" ->
            Meitu.failed_albums (obj s2) = [] ->
            Meitu.run L w fuel s
            = (let '(r, s3, e3) := Meitu.retry_failed_images L w fuel 0 asked in
               (r, s3, e1 ++ e2 ++ EvPrompt :: e3)))).
Proof.
  intros Hlist Hne Hfirst asked.
  assert (Hrun : Meitu.run L w fuel s
            = (let '(r, s3, e3) :=
                 (let* o := get_obj in
                  match Meitu.failed_albums o, Meitu.failed_images o with
                  | [], [] => ret tt
                  | _, _ =>
                      let* line := input w in
                      let retry_input := Py.lower (Py.strip line) in
                      if String.eqb retry_input "y"
                         || String.eqb retry_input EmptyString then
                        match Meitu.failed_albums o with
                        | [] => ret tt
                        | _ => Meitu.retry_failed_albums L w fuel 0
                        end ;;;
                        let* o' := get_obj in
                        match Meitu.failed_images o' with
                        | [] => ret tt
                        | _ => Meitu.retry_failed_images L w fuel 0
                        end
                      else ret tt
                  end) s2 in
               (r, s3, e1 ++ e2 ++ e3))).
  { unfold Meitu.run. rewrite (bind_Ret _ _ _ _ _ _ Hlist).
    rewrite (bind_Ret _ _ _ _ _ _ Hfirst).
    rewrite (bind_Ret _ _ _ _ _ _ (second_pass_void L w failed s2)).
    destruct all_albums as [|a0 rest]; [contradiction|].
    unfold bind at 1. cbn [ret].
    match goal with
    | |- context [bind get_obj ?k s2] => destruct (bind get_obj k s2) as [[r s3] e3]
    end.
    simpl. reflexivity. }
  rewrite Hrun. clear Hrun. split.
  - intros Ha Hi. unfold bind at 1. cbn [get_obj]. rewrite Ha, Hi.
    cbn [ret]. simpl. rewrite app_nil_r. reflexivity.
  - intros Hfail.
    assert (Hask : forall (A : Type) (x y : A),
              match Meitu.failed_albums (obj s2), Meitu.failed_images (obj s2)
              with
              | [], [] => x
              | _, _ => y
              end = y).
    { intros A x y.
      destruct (Meitu.failed_albums (obj s2)),
        (Meitu.failed_images (obj s2)); try reflexivity.
      destruct Hfail; contradiction. }
    split; [|split].
    + intros Hop. unfold bind at 1. cbn [get_obj]. rewrite Hask.
      unfold bind at 1, input. rewrite Hop. reflexivity.
    + intros line Hop Hy He. unfold bind at 1. cbn [get_obj]. rewrite Hask.
      unfold bind at 1, input. rewrite Hop. cbv zeta.
      apply String.eqb_neq in Hy, He. rewrite Hy, He. reflexivity.
    + intros line Hop Hans Hfa. unfold bind at 1. cbn [get_obj].
      rewrite Hask. unfold bind at 1, input. rewrite Hop. cbv zeta.
      assert (Hyes : String.eqb (Py.lower (Py.strip line)) "y"
                     || String.eqb (Py.lower (Py.strip line)) EmptyString
                     = true).
      { destruct Hans as [-> | ->]; reflexivity. }
      rewrite Hyes, Hfa. fold asked.
      destruct Hfail as [Hfail|Hfail]; [contradiction|].
      unfold bind at 1. cbn [ret]. unfold bind at 1. cbn [get_obj].
      change (obj asked) with (obj s2).
      destruct (Meitu.failed_images (obj s2)) as [|i0 rest] eqn:Hfi;
        [contradiction|].
      destruct (Meitu.retry_failed_images L w fuel 0 asked) as [[r s3] e3].
      reflexivity.
Qed.

Lemma X26_run_prompt_witness :
  exists s' evs,
    Meitu.run meitu_album_lib dup_world 3 (meitu_start true)
    = (Exc EOFError, s', evs).
Proof.
  destruct (Meitu.list_pages meitu_album_lib dup_world 3
              (Some "https://xn--drdgbhrb-xx6n10qjm3s.tljkd-01.sbs/t/13/")
              ∅ 0 [] (meitu_start true)) as [[r s1] e1] eqn:Hlist.
  assert (Hr : match fst (fst (Meitu.list_pages meitu_album_lib dup_world 3
                  (Some "https://xn--drdgbhrb-xx6n10qjm3s.tljkd-01.sbs/t/13/")
                  ∅ 0 [] (meitu_start true))) with
               | Ret (all_albums, _, _) =>
                   all_albums
                   = [("Album",
                       "https://xn--drdgbhrb-xx6n10qjm3s.tljkd-01.sbs/a/1")]
               | _ => False
               end) by (vm_compute; reflexivity).
  rewrite Hlist in Hr. cbn [fst] in Hr.
  destruct r as [[[all_albums processed] total_pages]| |]; try contradiction.
  subst all_albums.
  destruct (Meitu.first_pass meitu_album_lib dup_world
              [("Album", "https://xn--drdgbhrb-xx6n10qjm3s.tljkd-01.sbs/a/1")]
              [] s1) as [[r2 s2] e2] eqn:Hfirst.
  assert (Hr2 :
    fst (fst (Meitu.first_pass meitu_album_lib dup_world
                [("Album", "https://xn--drdgbhrb-xx6n10qjm3s.tljkd-01.sbs/a/1")]
                []
                (snd (fst (Meitu.list_pages meitu_album_lib dup_world 3
                   (Some "https://xn--drdgbhrb-xx6n10qjm3s.tljkd-01.sbs/t/13/")
                   ∅ 0 [] (meitu_start true)))))) = Ret []
    /\ length (Meitu.failed_images (obj (snd (fst
         (Meitu.first_pass meitu_album_lib dup_world
            [("Album", "https://xn--drdgbhrb-xx6n10qjm3s.tljkd-01.sbs/a/1")]
            []
            (snd (fst (Meitu.list_pages meitu_album_lib dup_world 3
               (Some "https://xn--drdgbhrb-xx6n10qjm3s.tljkd-01.sbs/t/13/")
               ∅ 0 [] (meitu_start true))))))))) = 3%nat
    /\ prompts (snd (fst
         (Meitu.first_pass meitu_album_lib dup_world
            [("Album", "https://xn--drdgbhrb-xx6n10qjm3s.tljkd-01.sbs/a/1")]
            []
            (snd (fst (Meitu.list_pages meitu_album_lib dup_world 3
               (Some "https://xn--drdgbhrb-xx6n10qjm3s.tljkd-01.sbs/t/13/")
               ∅ 0 [] (meitu_start true))))))) = 0%nat)
    by (repeat split; vm_compute; reflexivity).
  rewrite Hlist in Hr2. cbn [fst snd] in Hr2. rewrite Hfirst in Hr2.
  cbn [fst snd] in Hr2. destruct Hr2 as (-> & Hfi & Hpr).
  destruct (X26_run_prompt _ _ _ _ _ _ _ _ _ _ _ _ Hlist
              ltac:(discriminate) Hfirst) as (_ & Hask).
  destruct Hask as (Heof & _).
  - right. intros E. rewrite E in Hfi. discriminate.
  - eexists _, _. apply Heof. rewrite Hpr. reflexivity.
Defined.

(** ** Calling a download again *)

Lemma ku_wrapper_kept (L : Ku1372.lib) (w : world)
    (album_name album_url tag_dir : string) (verify : bool)
    (s : state Ku1372.counters) (c : string) :
  fs s !! Ku1372.path_join L tag_dir
            (String.append (Ku1372.safe_name_of album_name) ".zip") = Some c ->
  verify = false \/ 1024 < Z.of_nat (String.length c) ->
  Ku1372.download_album_wrapper L w album_name album_url tag_dir verify s
  = (Ret true, s, []).
Proof.
  intros Hfs Hkeep. unfold Ku1372.download_album_wrapper.
  unfold bind at 1. cbn [get_fs]. rewrite Hfs. destruct verify.
  - destruct Hkeep as [[=]|Hlt]. apply Z.ltb_lt in Hlt. rewrite Hlt.
    reflexivity.
  - reflexivity.
Qed.

Lemma ku_wrapper_success (L : Ku1372.lib) (w : world)
    (album_name album_url tag_dir : string) (verify : bool)
    (s s' : state Ku1372.counters) (evs : list event) :
  Ku1372.download_album_wrapper L w album_name album_url tag_dir verify s
  = (Ret true, s', evs) ->
  exists c,
    fs s' !! Ku1372.path_join L tag_dir
               (String.append (Ku1372.safe_name_of album_name) ".zip") = Some c
    /\ (verify = true -> 1024 <= Z.of_nat (String.length c)).
Proof.
  unfold Ku1372.download_album_wrapper. intros H.
  monad_cases; simpl in *;
    try match goal with
      | H : Ku1372.download_attempts _ _ _ _ _ _ = _ |- _ =>
          apply ku_download_attempts_spec in H
            as (b & [= <-] & _ & _ & Ht & _);
          destruct (Ht eq_refl) as (_ & c & Hc & Hlen & _);
          exists c; split; [exact Hc|intros _; exact Hlen]
      end.
  - eexists. split; [eassumption|]. intros _.
    match goal with
    | H : (1024 <? _) = true |- _ => apply Z.ltb_lt in H; lia
    end.
  - eexists. split; [eassumption|]. discriminate.
Qed.

(** X27. [download_album_wrapper] called again after a success. Without
    validation the second call returns [True] at once, with no request.
    With validation it does so when the archive is larger than 1024 bytes.
    An archive of exactly 1024 bytes, which the size check after the
    download accepts, is removed by the second call, which downloads it
    again. *)
Theorem X27_archive_second_call (L : Ku1372.lib) (w : world)
    (album_name album_url tag_dir : string) (verify : bool)
    (s s' : state Ku1372.counters) (evs : list event) :
  let save_path :=
    Ku1372.path_join L tag_dir
      (String.append (Ku1372.safe_name_of album_name) ".zip") in
  Ku1372.download_album_wrapper L w album_name album_url tag_dir verify s
  = (Ret true, s', evs) ->
  exists c,
    fs s' !! save_path = Some c
    /\ (verify = true -> 1024 <= Z.of_nat (String.length c))
    /\ (verify = false \/ 1024 < Z.of_nat (String.length c) ->
        Ku1372.download_album_wrapper L w album_name album_url tag_dir verify s'
        = (Ret true, s', []))
    /\ (verify = true -> Z.of_nat (String.length c) = 1024 ->
        exists r s2 ev2,
          Ku1372.download_album_wrapper L w album_name album_url tag_dir
            verify s'
          = (r, s2, EvUnlink save_path :: ev2)).
Proof.
  intros save_path H.
  destruct (ku_wrapper_success _ _ _ _ _ _ _ _ _ H) as (c & Hc & Hlen).
  exists c. split; [exact Hc|]. split; [exact Hlen|]. split.
  - intros Hkeep. eapply ku_wrapper_kept; eassumption.
  - intros -> H1024. subst save_path. unfold Ku1372.download_album_wrapper.
    unfold bind at 1. cbn [get_fs]. rewrite Hc, H1024.
    change (1024 <? 1024) with false. cbv iota.
    unfold bind at 1, bind at 1. cbn [unlink ret].
    destruct (Ku1372.download_attempts L w 5 album_url _ _)
      as [[r s2] ev2]. eexists _, _, _. reflexivity.
Qed.

Lemma X27_archive_second_call_witness :
  exists s' evs,
    Ku1372.download_album_wrapper ku_lib archive_world "a"
      "https://www.ku1372.cc/a.html" "out" true ku_start = (Ret true, s', evs)
    /\ exists r s2 ev2,
         Ku1372.download_album_wrapper ku_lib archive_world "a"
           "https://www.ku1372.cc/a.html" "out" true s'
         = (r, s2, EvUnlink "out/a.zip" :: ev2).
Proof.
  destruct (Ku1372.download_album_wrapper ku_lib archive_world "a"
              "https://www.ku1372.cc/a.html" "out" true ku_start)
    as [[r s'] evs] eqn:Hrun.
  assert (Hr : fst (fst (Ku1372.download_album_wrapper ku_lib archive_world "a"
                           "https://www.ku1372.cc/a.html" "out" true ku_start))
               = Ret true
               /\ fs (snd (fst (Ku1372.download_album_wrapper ku_lib
                                  archive_world "a"
                                  "https://www.ku1372.cc/a.html" "out" true
                                  ku_start))) !! "out/a.zip"
                  = Some archive_1024)
    by (split; vm_compute; reflexivity).
  rewrite Hrun in Hr. cbn [fst snd] in Hr. destruct Hr as [-> Hfile].
  exists s', evs. split; [reflexivity|].
  destruct (X27_archive_second_call _ _ _ _ _ _ _ _ _ Hrun)
    as (c & Hc & _ & _ & Hedge).
  apply Hedge; [reflexivity|].
  change (Ku1372.path_join ku_lib "out"
            (String.append (Ku1372.safe_name_of "a") ".zip"))
    with "out/a.zip" in Hc.
  rewrite Hfile in Hc. injection Hc as <-. vm_compute. reflexivity.
Defined.

Lemma download_image_kept (L : Sifang.lib) (w : world)
    (image_url save_path : string) (s : state Sifang.crawler) (c : string) :
  fs s !! save_path = Some c ->
  (Sifang.verify (obj s) = true -> Sifang.pil_ok L c = true) ->
  exists evs,
    Sifang.download_image L w image_url save_path s = (Ret true, s, evs)
    /\ requests_of evs = []
    /\ Forall (fun e => is_fs_event e = false) evs.
Proof.
  intros Hfs Hok. unfold Sifang.download_image. unfold bind at 1.
  rewrite keep_existing_spec, Hfs.
  destruct (Sifang.verify (obj s)); simpl.
  - rewrite Hok by reflexivity. eexists. split; [reflexivity|].
    split; [reflexivity|]. repeat constructor.
  - eexists. split; [reflexivity|]. split; [reflexivity|constructor].
Qed.

(** X28. [download_image] called again after a success does not fetch
    again: the second call returns [True] with no request and without
    touching the disk, whether validation is on or off. *)
Theorem X28_download_image_second_call (L : Sifang.lib) (w : world)
    (image_url save_path : string) (s s' : state Sifang.crawler)
    (evs : list event) :
  Sifang.download_image L w image_url save_path s = (Ret true, s', evs) ->
  exists evs',
    Sifang.download_image L w image_url save_path s' = (Ret true, s', evs')
    /\ requests_of evs' = []
    /\ Forall (fun e => is_fs_event e = false) evs'.
Proof.
  intros H. pose proof H as Hrun.
  unfold Sifang.download_image in H. unfold bind at 1 in H.
  rewrite keep_existing_spec in H.
  destruct (fs s !! save_path) as [c0|] eqn:Hfs.
  - destruct (Sifang.verify (obj s)) eqn:Hv; simpl in H.
    + destruct (Sifang.pil_ok L c0) eqn:Hok; simpl in H.
      * injection H as <- <-. apply (download_image_kept L w _ _ s c0); auto.
      * destruct (Sifang.download_attempts L w 5 0 image_url save_path s)
          as [[r2 s2] e2] eqn:Hdl.
        injection H as -> -> <-.
        pose proof (download_attempts_keeps_record _ _ _ _ _ _ _ _ _ _ Hdl)
          as (_ & _ & _ & Hverify & _).
        apply download_attempts_spec in Hdl as (b & [= <-] & _ & _ & _ & Ht).
        destruct (Ht eq_refl) as (c & Hc & Hpil & _).
        apply (download_image_kept L w _ _ s' c); auto.
    + injection H as <- <-. apply (download_image_kept L w _ _ s c0); auto.
      rewrite Hv. discriminate.
  - simpl in H.
    destruct (Sifang.download_attempts L w 5 0 image_url save_path s)
      as [[r2 s2] e2] eqn:Hdl.
    injection H as -> -> <-.
    apply download_attempts_spec in Hdl as (b & [= <-] & _ & _ & _ & Ht).
    destruct (Ht eq_refl) as (c & Hc & Hpil & _).
    apply (download_image_kept L w _ _ s' c); auto.
Qed.

Lemma X28_download_image_second_call_witness :
  exists s' evs evs',
    Sifang.download_image sifang_lib image_world "https://img.example/1.jpg"
      "out/a/image_001.jpg" (sifang_start true) = (Ret true, s', evs)
    /\ Sifang.download_image sifang_lib image_world "https://img.example/1.jpg"
         "out/a/image_001.jpg" s' = (Ret true, s', evs')
    /\ requests_of evs' = [].
Proof.
  destruct (Sifang.download_image sifang_lib image_world
              "https://img.example/1.jpg" "out/a/image_001.jpg"
              (sifang_start true)) as [[r s'] evs] eqn:Hrun.
  assert (Hr : fst (fst (Sifang.download_image sifang_lib image_world
                           "https://img.example/1.jpg" "out/a/image_001.jpg"
                           (sifang_start true))) = Ret true)
    by (vm_compute; reflexivity).
  rewrite Hrun in Hr. cbn [fst] in Hr. subst r.
  destruct (X28_download_image_second_call _ _ _ _ _ _ _ Hrun)
    as (evs' & Hrun' & Hreq & _).
  exists s', evs, evs'. auto.
Defined.

(** ** The names of the image files *)

Lemma digit_value (n : nat) :
  nat_of_ascii (Py.digit n) = (48 + n mod 10)%nat.
Proof.
  unfold Py.digit. apply nat_ascii_embedding.
  pose proof (Nat.mod_upper_bound n 10). lia.
Qed.

Lemma digit_is_digit (n : nat) : is_digit (Py.digit n).
Proof.
  unfold is_digit. rewrite digit_value.
  pose proof (Nat.mod_upper_bound n 10). lia.
Qed.

Lemma decimal_go_value (fuel : nat) :
  forall (n : nat) (acc : string),
    (n < 10 ^ fuel)%nat ->
    exists p, forall a,
      digits_value (Py.decimal_go fuel n acc) a
      = digits_value acc (a * 10 ^ p + n).
Proof.
  induction fuel as [|fuel IH]; intros n acc Hn.
  - simpl in Hn. assert (n = 0)%nat as -> by lia.
    exists 0%nat. intros a. simpl. f_equal. lia.
  - cbn [Py.decimal_go]. destruct (Nat.eqb_spec (n / 10) 0) as [Hz|Hnz].
    + exists 1%nat. intros a. cbn [digits_value]. rewrite digit_value.
      f_equal. apply Nat.div_small_iff in Hz; [|lia].
      rewrite (Nat.mod_small n 10 Hz). simpl. lia.
    + destruct (IH (n / 10)%nat (String (Py.digit n) acc)) as (p & Hp).
      { apply Nat.Div0.div_lt_upper_bound. rewrite Nat.pow_succ_r' in Hn.
        exact Hn. }
      exists (S p). intros a. rewrite Hp. cbn [digits_value].
      rewrite digit_value. f_equal. rewrite Nat.pow_succ_r'.
      pose proof (Nat.div_mod_eq n 10). lia.
Qed.

Lemma decimal_value (n : nat) : digits_value (Py.decimal n) 0 = n.
Proof.
  unfold Py.decimal.
  destruct (decimal_go_value (S n) n EmptyString) as (p & Hp).
  { pose proof (Nat.pow_gt_lin_r 10 (S n)). lia. }
  rewrite Hp. simpl. lia.
Qed.

Lemma zeros_value (k : nat) (d : string) :
  digits_value (String.append (Py.zeros k) d) 0 = digits_value d 0.
Proof. induction k as [|k IH]; simpl; [reflexivity|exact IH]. Qed.

Lemma format_03d_value (n : nat) : digits_value (Py.format_03d n) 0 = n.
Proof. unfold Py.format_03d. rewrite zeros_value. apply decimal_value. Qed.

Lemma all_digits_append (a b : string) :
  all_digits a -> all_digits b -> all_digits (String.append a b).
Proof. induction a as [|c a IH]; simpl; [auto|]. intros [? ?] ?. auto. Qed.

Lemma decimal_go_digits (fuel : nat) :
  forall n acc, all_digits acc -> all_digits (Py.decimal_go fuel n acc).
Proof.
  induction fuel as [|fuel IH]; intros n acc Hacc; cbn [Py.decimal_go];
    [exact Hacc|].
  destruct (Nat.eqb (n / 10) 0).
  - split; [apply digit_is_digit|exact Hacc].
  - apply IH. split; [apply digit_is_digit|exact Hacc].
Qed.

Lemma format_03d_digits (n : nat) : all_digits (Py.format_03d n).
Proof.
  unfold Py.format_03d. apply all_digits_append.
  - induction (3 - String.length (Py.decimal n))%nat as [|k IH]; simpl;
      [exact I|]. split; [unfold is_digit; cbv; lia|exact IH].
  - apply decimal_go_digits. exact I.
Qed.

Lemma digits_prefix_unique (a : string) :
  forall b e e',
    all_digits a -> all_digits b -> is_ext e -> is_ext e' ->
    String.append a e = String.append b e' -> a = b.
Proof.
  assert (Hdot : ~ is_digit ".") by (unfold is_digit; cbv; lia).
  induction a as [|c a IH]; intros [|d b] e e' Ha Hb He He' H; simpl in *.
  - reflexivity.
  - exfalso. destruct Hb as [Hd _].
    destruct He as [->|(t & ->)]; [discriminate|].
    injection H as <- _. contradiction.
  - exfalso. destruct Ha as [Hc _].
    destruct He' as [->|(t & ->)]; [discriminate|].
    injection H as -> _. contradiction.
  - injection H as -> H. f_equal.
    destruct Ha, Hb. apply (IH b e e'); assumption.
Qed.

(** X29. The images of an album get file names that differ from one
    position to the next: [image_{i:03d}{ext}] in sifang_crawler.py,
    whatever the extensions taken from the URLs, and [{i+1:03d}.jpg] in
    美图色色.py, give the same name only for the same index. The number
    is written in full: it reads back as [i]. *)
Theorem X29_image_names_distinct (i j : nat) (ext ext' : string) :
  is_ext ext -> is_ext ext' ->
  (String.append "image_" (String.append (Py.format_03d i) ext)
   = String.append "image_" (String.append (Py.format_03d j) ext') ->
   i = j)
  /\ (String.append (Py.format_03d (i + 1)) ".jpg"
      = String.append (Py.format_03d (j + 1)) ".jpg" ->
      i = j)
  /\ digits_value (Py.format_03d i) 0 = i.
Proof.
  intros He He'.
  assert (Hinj : forall a b e e', is_ext e -> is_ext e' ->
            String.append (Py.format_03d a) e
            = String.append (Py.format_03d b) e' -> a = b).
  { intros a b e e' H1 H2 H.
    apply digits_prefix_unique in H; auto using format_03d_digits.
    rewrite <- (format_03d_value a), <- (format_03d_value b), H.
    reflexivity. }
  split; [|split].
  - intros H. simpl in H. injection H as H. apply (Hinj i j ext ext'); assumption.
  - intros H. apply Hinj in H; [lia| |]; right; eexists; reflexivity.
  - apply format_03d_value.
Qed.

Lemma X29_image_names_distinct_witness :
  String.append "image_" (String.append (Py.format_03d 7) ".jpg")
  = "image_007.jpg"
  /\ digits_value (Py.format_03d 7) 0 = 7%nat.
Proof.
  split; [reflexivity|].
  refine (proj2 (proj2 (X29_image_names_distinct 7 7 ".jpg" ".png" _ _)));
    right; eexists; reflexivity.
Defined.

(** ** An album with a page that cannot be fetched (sifang_crawler.py) *)

Lemma download_images_total (L : Sifang.lib) (w : world)
    (album_url album_name album_dir : string) (image_links : list string) :
  forall (i : nat) (s : state Sifang.crawler),
  exists d s' evs,
    Sifang.download_images L w album_url album_name album_dir i image_links s
    = (Ret d, s', evs).
Proof.
  induction image_links as [|img_url rest IH]; intros i s.
  - exists 0%nat, s, []. reflexivity.
  - cbn [Sifang.download_images].
    match goal with
    | |- context [bind (Sifang.download_image L w ?u ?p) _ s] =>
        destruct (Sifang.download_image L w u p s) as [[r1 s1] e1] eqn:Hrun
    end.
    destruct (download_image_counts _ _ _ _ _ _ _ _ Hrun) as (b & -> & _).
    rewrite (bind_Ret _ _ _ _ _ _ Hrun).
    destruct b.
    + unfold bind at 1. cbn [ret].
      destruct (IH (S i) s1) as (d & s2 & e2 & Hrun2).
      rewrite (bind_Ret _ _ _ _ _ _ Hrun2). cbn [ret]. eexists _, _, _.
      reflexivity.
    + unfold bind at 1. cbn [modify_obj].
      match goal with
      | |- context [bind (Sifang.download_images _ _ _ _ _ _ _) _ ?st] =>
          destruct (IH (S i) st) as (d & s2 & e2 & Hrun2)
      end.
      rewrite (bind_Ret _ _ _ _ _ _ Hrun2). cbn [ret]. eexists _, _, _.
      reflexivity.
Qed.

Lemma retry_request_redirected (w : world) fuel url
    (s : state Sifang.crawler) r :
  net w (clock s) url = NetResp r ->
  broken r = None -> status r <> 443 -> status_is_error r = false ->
  Py.str_in "sifang.lat" (final_url r) = false ->
  Sifang.retry_request w (S fuel) url s
  = (Ret None, Build_state (fs s) (S (clock s)) (prompts s) (obj s),
     [EvSleep 2 5; EvRequest url]).
Proof.
  intros Hnet Hbr H443 Herr Hsite. unfold Sifang.retry_request.
  cbn [Sifang.retry_request_loop]. simpl.
  rewrite bind_sleep, bind_request, Hnet. unfold eager. rewrite Hbr.
  apply Z.eqb_neq in H443. rewrite H443, Herr, Hsite. reflexivity.
Qed.

(** X30. An album is recorded as completed although one of its pages was
    never read. When the first page of the album is served and links to a
    next page of the album, and the request for that page is redirected
    away from the site, [get_album_images] returns the name and the images
    of the first page only, without an error; [download_album] then
    returns [True] and the album is in the progress record. *)
Theorem X30_partial_album_recorded (L : Sifang.lib) (w : world) (fuel : nat)
    (album_url : string) (s : state Sifang.crawler) (r1 r2 : response)
    (a : Sifang.anchor) :
  let pg := Sifang.soup L (body r1) in
  let next_url := Sifang.urljoin L album_url (Sifang.a_href a) in
  album_url <> EmptyString ->
  net w (clock s) album_url = NetResp r1 -> served r1 ->
  Sifang.find_next_button L album_url pg = inr (Some a) ->
  next_url <> EmptyString ->
  Py.str_in "sifang.lat" next_url = true ->
  Py.str_in "/albums/" next_url = true ->
  net w (S (clock s)) next_url = NetResp r2 ->
  broken r2 = None -> status r2 <> 443 -> status_is_error r2 = false ->
  Py.str_in "sifang.lat" (final_url r2) = false ->
  Sifang.get_album_images L w (S (S (S fuel))) album_url s
  = (Ret (Some (Sifang.album_name_of album_url pg),
          Sifang.page_images_of L pg album_url []),
     Build_state (fs s) (S (S (clock s))) (prompts s) (obj s),
     [EvSleep 3 6; EvSleep 2 5; EvRequest album_url; EvSleep 1 3;
      EvSleep 2 4; EvSleep 2 5; EvRequest next_url])
  /\ exists s' evs,
       Sifang.download_album L w (S (S (S fuel))) album_url s
       = (Ret true, s', evs)
       /\ album_url ∈ Sifang.completed_albums (obj s').
Proof.
  intros pg next_url Hne Hnet1 Hserved Hbutton Hnext Hsite Halbum Hnet2 Hbr
    H443 Herr Hoff.
  assert (Himg : Sifang.get_album_images L w (S (S (S fuel))) album_url s
            = (Ret (Some (Sifang.album_name_of album_url pg),
                    Sifang.page_images_of L pg album_url []),
               Build_state (fs s) (S (S (clock s))) (prompts s) (obj s),
               [EvSleep 3 6; EvSleep 2 5; EvRequest album_url; EvSleep 1 3;
                EvSleep 2 4; EvSleep 2 5; EvRequest next_url])).
  { unfold Sifang.get_album_images. rewrite bind_sleep.
    unfold Py.truthy at 1.
    destruct (String.eqb_spec album_url EmptyString); [contradiction|].
    cbn [Sifang.album_pages_loop].
    rewrite (bind_Ret _ _ _ _ _ _
               (retry_request_served w (S fuel) album_url s r1 Hnet1 Hserved)).
    fold pg. rewrite Hbutton. unfold Sifang.lift_sum. unfold bind at 1.
    cbn [ret]. fold next_url. rewrite Hsite, Halbum. cbn [andb].
    unfold Py.truthy.
    destruct (String.eqb_spec next_url EmptyString); [contradiction|].
    rewrite bind_sleep.
    rewrite (bind_Ret _ _ _ _ _ _
               (retry_request_redirected w fuel next_url
                  (Build_state (fs s) (S (clock s)) (prompts s) (obj s))
                  r2 Hnet2 Hbr H443 Herr Hoff)).
    reflexivity. }
  split; [exact Himg|].
  unfold Sifang.download_album, catch.
  rewrite (bind_Ret _ _ _ _ _ _ Himg).
  rewrite bind_get_obj, bind_ret, bind_modify_obj.
  match goal with
  | |- context [bind (Sifang.download_images L w ?u ?n ?d ?i ?l) _ ?st] =>
      destruct (download_images_total L w u n d l i st)
        as (dl & s3 & e3 & Hdl)
  end.
  rewrite (bind_Ret _ _ _ _ _ _ Hdl). rewrite bind_modify_obj.
  match goal with
  | |- context [bind (Sifang.save_completed_album ?u) _ ?st] =>
      destruct (Sifang.save_completed_album u st) as [[r4 s4] e4] eqn:Hsave
  end.
  destruct (save_completed_album_run _ _ _ _ _ Hsave) as (-> & Hin & _).
  rewrite (bind_Ret _ _ _ _ _ _ Hsave).
  unfold Sifang.save_cookies. unfold bind, emit, ret. cbv beta iota zeta.
  eexists _, _. split; [reflexivity|]. exact Hin.
Qed.

Lemma X30_partial_album_recorded_witness :
  exists s' evs,
    Sifang.download_album sifang_paged_lib paged_world 3
      "https://sifang.lat/albums/a" (sifang_start false) = (Ret true, s', evs)
    /\ "https://sifang.lat/albums/a" ∈ Sifang.completed_albums (obj s').
Proof.
  refine (proj2 (X30_partial_album_recorded sifang_paged_lib paged_world 0
                   "https://sifang.lat/albums/a" (sifang_start false)
                   paged_response away_response next_anchor
                   _ _ _ _ _ _ _ _ _ _ _ _)).
  - discriminate.
  - reflexivity.
  - unfold served. repeat split; try reflexivity. discriminate.
  - reflexivity.
  - discriminate.
  - reflexivity.
  - reflexivity.
  - reflexivity.
  - reflexivity.
  - discriminate.
  - reflexivity.
  - reflexivity.
Defined.
